(** * Candidate data storage: a shallow embedding of [storageUtils.js]

    The development follows the storage manager of the candidate screener
    ([src/utils/storageUtils.js]), the file names produced by the report
    generator ([src/utils/pdfUtils.js]), the upload filter
    ([src/middleware/upload.js]) and the metadata document built by the
    controller ([src/controllers/audioController.js]).

    Part I holds the embedding, Part II the lemmas about it.  *)

From Stdlib Require Import ZArith Ascii String List Lia Permutation Sorted.
From stdpp Require Import base option list sorting gmap strings.

Local Open Scope Z_scope.

(* ===================================================================== *)
(** * Part I. The embedding                                               *)
(* ===================================================================== *)

(** ** JavaScript values and exceptions *)

(** A value as the program sees it after [JSON.parse], or builds it as an
    object literal.  Objects keep their keys in insertion order. Numbers are
    integers here: no claim below depends on a fractional part. *)
#[local] Unset Elimination Schemes.
Inductive jsval : Type :=
| JUndefined
| JNull
| JBool (b : bool)
| JNum (z : Z)
| JStr (s : string)
| JArr (items : list jsval)
| JObj (props : list (string * jsval)).
#[local] Set Elimination Schemes.

(** What a rejected promise or a [throw] carries.  [SysError code] is a Node
    system error with its [code] property ([ENOENT], [EACCES], ...); the
    other errors have no [code]. *)
Inductive error : Type :=
| SysError (code : string)
| TypeError (msg : string)
| SyntaxError (msg : string)
| Error (msg : string).

Definition error_code (e : error) : option string :=
  match e with SysError c => Some c | _ => None end.

(** The outcome of an awaited call: a value, or an exception. *)
Inductive result (A : Type) : Type :=
| Ok (a : A)
| Throw (e : error).
Arguments Ok {A} a.
Arguments Throw {A} e.

Definition bind {A B} (m : result A) (k : A -> result B) : result B :=
  match m with Ok a => k a | Throw e => Throw e end.

(** [try { m } catch (error) { h error }] *)
Definition try_catch {A} (m : result A) (h : error -> result A) : result A :=
  match m with Ok a => Ok a | Throw e => h e end.

(** How a call that starts promises ends: it returns to its caller, with a
    value or an exception, or the process ends. A promise that is rejected
    while no handler is attached to it is an unhandled rejection, on which
    Node (from version 15 on) ends the process with the error, unless the
    program listens to [unhandledRejection]; this one does not. A call that
    returns is written as its result. *)
Inductive Ending (A : Type) : Type :=
| Returns (r : result A)
| ProcessExit (e : error).
Arguments Returns {A} r.
Arguments ProcessExit {A} e.
Coercion Returns : result >-> Ending.

Declare Scope js_scope.
Delimit Scope js_scope with js.
Notation "x <- m ;; k" := (bind m (fun x => k))
  (at level 100, m at next level, right associativity) : js_scope.
Local Open Scope js_scope.

(** [for (const x of xs) { acc = await body(acc, x) }]: the first exception
    ends the loop. *)
Fixpoint forOf {A S} (body : S -> A -> result S) (xs : list A) (acc : S)
  : result S :=
  match xs with
  | [] => Ok acc
  | x :: rest => acc' <- body acc x ;; forOf body rest acc'
  end.

(** Truthiness, as [!v] and [v || w] test it. *)
Definition truthy (v : jsval) : bool :=
  match v with
  | JUndefined | JNull => false
  | JBool b => b
  | JNum z => negb (z =? 0)
  | JStr s => negb (String.eqb s "")
  | JArr _ | JObj _ => true
  end.

(** [v || w] *)
Definition js_or (v w : jsval) : jsval := if truthy v then v else w.

Fixpoint assoc (k : string) (props : list (string * jsval)) : option jsval :=
  match props with
  | [] => None
  | (k', v) :: rest => if String.eqb k k' then Some v else assoc k rest
  end.

(** [v.k]: reading a property of [null] or [undefined] throws; a key that is
    not there reads as [undefined]. *)
Definition getProp (v : jsval) (k : string) : result jsval :=
  match v with
  | JUndefined | JNull =>
      Throw (TypeError ("Cannot read properties of null or undefined: " +:+ k))
  | JObj props => Ok (default JUndefined (assoc k props))
  | _ => Ok JUndefined
  end.

(** [v?.k] *)
Definition getPropOpt (v : jsval) (k : string) : result jsval :=
  match v with
  | JUndefined | JNull => Ok JUndefined
  | _ => getProp v k
  end.

(** ** Strings *)

(** [s.startsWith(p)] *)
Definition startsWith (s p : string) : bool := String.prefix p s.

(** [s.endsWith(suf)]: the last [suf.length] units of [s] are [suf]. *)
Definition endsWith (s suf : string) : bool :=
  let n := String.length s in
  let m := String.length suf in
  (m <=? n)%nat && String.eqb (String.substring (n - m) m s) suf.

Fixpoint hasSlash (s : string) : bool :=
  match s with
  | EmptyString => false
  | String c rest => Ascii.eqb c "/"%char || hasSlash rest
  end.

(** [s.split('/').pop()]: what follows the last slash. *)
Fixpoint lastSegment (s : string) : string :=
  match s with
  | EmptyString => EmptyString
  | String c rest => if hasSlash s then lastSegment rest else s
  end.

(** [path.join(a, b)] for a directory and one name below it, and the
    template [`${a}/${b}`] of the object keys. The normalisation [path.join]
    also does (of [.], [..] and doubled slashes) is not part of the model. *)
Definition path_join (dir name : string) : string := dir +:+ "/" +:+ name.

(** [toLowerCase] on the letters A to Z. *)
Definition lowerChar (c : ascii) : ascii :=
  let n := nat_of_ascii c in
  if ((65 <=? n) && (n <=? 90))%nat then ascii_of_nat (n + 32) else c.

Fixpoint toLowerCase (s : string) : string :=
  match s with
  | EmptyString => EmptyString
  | String c rest => String (lowerChar c) (toLowerCase rest)
  end.

(** *** [path.extname] (Node, POSIX flavour)

    The loop of Node's [lib/path.js] that [storageUtils.js] and the upload
    filter call: it walks the path from its last character to its first and
    remembers where the last dot of the last path segment is. *)
Record ExtState : Type := mkExtState {
  startDot : Z;
  startPart : Z;
  endIdx : Z;
  matchedSlash : bool;
  preDotState : Z
}.

Definition extInit : ExtState :=
  {| startDot := -1; startPart := 0; endIdx := -1;
     matchedSlash := true; preDotState := 0 |}.

Fixpoint extname_loop (path : string) (n : nat) (st : ExtState) : ExtState :=
  match n with
  | O => st
  | S i =>
      match String.get i path with
      | None => st
      | Some code =>
          if Ascii.eqb code "/"%char then
            if negb (matchedSlash st) then
              (* startPart = i + 1; break *)
              {| startDot := startDot st; startPart := Z.of_nat i + 1;
                 endIdx := endIdx st; matchedSlash := matchedSlash st;
                 preDotState := preDotState st |}
            else extname_loop path i st
          else
            let st1 :=
              if endIdx st =? -1 then
                {| startDot := startDot st; startPart := startPart st;
                   endIdx := Z.of_nat i + 1; matchedSlash := false;
                   preDotState := preDotState st |}
              else st in
            let st2 :=
              if Ascii.eqb code "."%char then
                if startDot st1 =? -1 then
                  {| startDot := Z.of_nat i; startPart := startPart st1;
                     endIdx := endIdx st1; matchedSlash := matchedSlash st1;
                     preDotState := preDotState st1 |}
                else if negb (preDotState st1 =? 1) then
                  {| startDot := startDot st1; startPart := startPart st1;
                     endIdx := endIdx st1; matchedSlash := matchedSlash st1;
                     preDotState := 1 |}
                else st1
              else if negb (startDot st1 =? -1) then
                {| startDot := startDot st1; startPart := startPart st1;
                   endIdx := endIdx st1; matchedSlash := matchedSlash st1;
                   preDotState := -1 |}
              else st1 in
            extname_loop path i st2
      end
  end.

Definition extname (path : string) : string :=
  let st := extname_loop path (String.length path) extInit in
  if (startDot st =? -1) || (endIdx st =? -1) || (preDotState st =? 0)
     || ((preDotState st =? 1) && (startDot st =? endIdx st - 1)
         && (startDot st =? startPart st + 1))
  then ""
  else String.substring (Z.to_nat (startDot st))
                        (Z.to_nat (endIdx st - startDot st)) path.

(** ** The key scheme *)

Inductive ArtifactKind : Type :=
| Audio | Transcript | Profile | Metadata | Html | Pdf.

Global Instance ArtifactKind_eq_dec : EqDecision ArtifactKind.
Proof. solve_decision. Defined.

(** The file the upload middleware (multer) hands to the controller. *)
Record UploadedFile : Type := mkUploadedFile {
  originalname : string;
  mimetype : string;
  path : string;
  size : Z
}.

(** [fileFilter] of the upload middleware: "Only accept MP3 files". *)
Definition fileFilter (mime original : string) : bool :=
  String.eqb mime "audio/mpeg" || String.eqb mime "audio/mp3"
  || String.eqb (toLowerCase (extname original)) ".mp3".

(** [path.extname(audioFile.originalname) || '.mp3'] *)
Definition audioExtension (original : string) : string :=
  let e := extname original in
  if String.eqb e "" then ".mp3" else e.

(** [`audio_${sessionId}${audioExtension}`] *)
Definition audioFilename (sessionId original : string) : string :=
  "audio_" +:+ sessionId +:+ audioExtension original.

Definition transcriptFilename : string := "transcript.txt".
Definition profileFilename : string := "candidate_profile.json".
Definition metadataFilename : string := "metadata.json".

(** [/[^a-zA-Z0-9]/]: the characters the report generator replaces. *)
Definition isAlnum (c : ascii) : bool :=
  let n := nat_of_ascii c in
  (((48 <=? n) && (n <=? 57)) || ((65 <=? n) && (n <=? 90))
   || ((97 <=? n) && (n <=? 122)))%nat.

(** [name.replace(/[^a-zA-Z0-9]/g, '_')] *)
Fixpoint replaceNonAlnum (s : string) : string :=
  match s with
  | EmptyString => EmptyString
  | String c rest =>
      String (if isAlnum c then c else "_"%char) (replaceNonAlnum rest)
  end.

(** [candidateProfile.candidate_name
       ? candidateProfile.candidate_name.replace(...) : 'candidate'].
    A name that is truthy and not a string has no [replace] method. *)
Definition candidateName (candidateProfile : jsval) : result string :=
  name <- getProp candidateProfile "candidate_name" ;;
  if truthy name then
    match name with
    | JStr s => Ok (replaceNonAlnum s)
    | _ => Throw (TypeError "candidate_name.replace is not a function")
    end
  else Ok "candidate".

Definition htmlFilename (candidateName timestamp : string) : string :=
  candidateName +:+ "_profile_" +:+ timestamp +:+ ".html".
Definition pdfFilename (candidateName timestamp : string) : string :=
  candidateName +:+ "_profile_" +:+ timestamp +:+ ".pdf".

(** The two file names [generateCandidatePDF] derives from the profile; its
    [catch] rewraps whatever was thrown. *)
Definition generatedFilenames (candidateProfile : jsval) (timestamp : string)
  : result (string * string) :=
  try_catch
    (stem <- candidateName candidateProfile ;;
     Ok (htmlFilename stem timestamp, pdfFilename stem timestamp))
    (fun _ => Throw (Error "PDF generation failed")).

(** The [if / else if] chain of both session listings, on a bare file name:
    the first test that holds decides, a name that passes none is skipped. *)
Definition classify (file : string) : option ArtifactKind :=
  if startsWith file "audio_" && endsWith file ".mp3" then Some Audio
  else if String.eqb file "transcript.txt" then Some Transcript
  else if String.eqb file "candidate_profile.json" then Some Profile
  else if String.eqb file "metadata.json" then Some Metadata
  else if endsWith file ".html" then Some Html
  else if endsWith file ".pdf" then Some Pdf
  else None.

(** The file name the write side gives each kind of artifact. *)
Definition artifactFilename (kind : ArtifactKind) (sessionId original
  candidateName timestamp : string) : string :=
  match kind with
  | Audio => audioFilename sessionId original
  | Transcript => transcriptFilename
  | Profile => profileFilename
  | Metadata => metadataFilename
  | Html => htmlFilename candidateName timestamp
  | Pdf => pdfFilename candidateName timestamp
  end.

(** ** [Array.prototype.sort]

    The engine's sort (V8, the engine of Node) on arrays shorter than 64
    elements: it finds the run the array starts with (reversing it when it
    is strictly descending) and places every later element into the sorted
    front by binary insertion. Longer arrays are cut into such runs and
    merged, which is not modelled. The comparator answers with a number or
    with [NaN] ([None]); the sort reads [NaN] as [+0]. *)
Section ArraySort.
Context {A : Type}.
Variable comparefn : A -> A -> option Z.

(** The number the sort works with: [NaN] counts as [+0]. *)
Definition sortCompare (x y : A) : Z := default 0 (comparefn x y).

(** How many elements after [prev] continue the run. *)
Fixpoint runTail (descending : bool) (prev : A) (l : list A) : nat :=
  match l with
  | [] => O
  | cur :: rest =>
      let order := sortCompare cur prev in
      if descending then
        if order <? 0 then S (runTail descending cur rest) else O
      else
        if order <? 0 then O else S (runTail descending cur rest)
  end.

(** [CountAndMakeRun]: the run at the front, made ascending, and what is
    left of the array. *)
Definition countAndMakeRun (l : list A) : list A * list A :=
  match l with
  | x0 :: x1 :: rest =>
      let descending := sortCompare x1 x0 <? 0 in
      let n := S (S (runTail descending x1 rest)) in
      ((if descending then rev (firstn n l) else firstn n l), skipn n l)
  | _ => (l, [])
  end.

(** The binary search of [BinaryInsertionSort]: where in [work[left..right)]
    the pivot goes. *)
Fixpoint insertionPoint (fuel : nat) (work : list A) (pivot : A)
  (left right : nat) : nat :=
  match fuel with
  | O => left
  | S fuel' =>
      if (left <? right)%nat then
        let mid := (left + Nat.div2 (right - left))%nat in
        match nth_error work mid with
        | Some x =>
            if sortCompare pivot x <? 0
            then insertionPoint fuel' work pivot left mid
            else insertionPoint fuel' work pivot (S mid) right
        | None => left
        end
      else left
  end.

Definition binaryInsert (sorted : list A) (pivot : A) : list A :=
  let left := insertionPoint (length sorted) sorted pivot O (length sorted) in
  firstn left sorted ++ pivot :: skipn left sorted.

Definition binaryInsertionSort (run rest : list A) : list A :=
  fold_left binaryInsert rest run.

Definition Array_sort (l : list A) : list A :=
  let '(run, rest) := countAndMakeRun l in
  binaryInsertionSort run rest.
End ArraySort.

(** ** Session and candidate records *)

Module Dirent.
Record t : Type := mk { name : string; isDirectory : bool }.
End Dirent.

(** The six-key objects [filePaths], [fileLinks], [s3Keys] and [s3Links]:
    [None] is [null]. *)
Module Slots.
Record t : Type := mk {
  audio : option string;
  transcript : option string;
  profile : option string;
  metadata : option string;
  html : option string;
  pdf : option string
}.

Definition empty : t := mk None None None None None None.

Definition get (k : ArtifactKind) (s : t) : option string :=
  match k with
  | Audio => audio s
  | Transcript => transcript s
  | Profile => profile s
  | Metadata => metadata s
  | Html => html s
  | Pdf => pdf s
  end.

Definition set (k : ArtifactKind) (v : string) (s : t) : t :=
  match k with
  | Audio => mk (Some v) (transcript s) (profile s) (metadata s) (html s) (pdf s)
  | Transcript => mk (audio s) (Some v) (profile s) (metadata s) (html s) (pdf s)
  | Profile => mk (audio s) (transcript s) (Some v) (metadata s) (html s) (pdf s)
  | Metadata => mk (audio s) (transcript s) (profile s) (Some v) (html s) (pdf s)
  | Html => mk (audio s) (transcript s) (profile s) (metadata s) (Some v) (pdf s)
  | Pdf => mk (audio s) (transcript s) (profile s) (metadata s) (html s) (Some v)
  end.
End Slots.

(** One element of a session listing. [files] is [files] on the filesystem
    and [s3Keys] on the object store; [sessionPath] and [bucket] are each
    present on one backend only. *)
Record SessionRecord : Type := mkSessionRecord {
  sessionId : string;
  candidateId : string;
  storageType : string;
  sessionPath : option string;
  bucket : option string;
  files : Slots.t;
  links : Slots.t;
  metadata : jsval;
  candidateProfile : jsval;
  createdAt : jsval;
  originalFilename : jsval
}.

(** One row of the roster ([candidateInfo]). *)
Module CandidateInfo.
Record t : Type := mk {
  candidateId : string;
  sessionCount : nat;
  lastActivity : jsval;
  name : jsval;
  location : jsval;
  experience : jsval
}.
End CandidateInfo.

(** ** The comparators of the two sorts *)
Section Comparators.
(** [new Date(v).valueOf()]: the time value in milliseconds, [None] for an
    invalid date. It belongs to the engine and is a parameter here. *)
Variable newDate : jsval -> option Z.

(** [new Date(b) - new Date(a)] *)
Definition dateDiff (b a : jsval) : option Z :=
  match newDate b, newDate a with
  | Some tb, Some ta => Some (tb - ta)
  | _, _ => None
  end.

(** [(a, b) => { if (!a.createdAt || !b.createdAt) return 0;
                 return new Date(b.createdAt) - new Date(a.createdAt); }] *)
Definition compareSessions (a b : SessionRecord) : option Z :=
  if negb (truthy (createdAt a)) || negb (truthy (createdAt b)) then Some 0
  else dateDiff (createdAt b) (createdAt a).

(** [(a, b) => { if (!a.lastActivity || !b.lastActivity) return 0;
                 return new Date(b.lastActivity) - new Date(a.lastActivity); }] *)
Definition compareCandidates (a b : CandidateInfo.t) : option Z :=
  if negb (truthy (CandidateInfo.lastActivity a))
     || negb (truthy (CandidateInfo.lastActivity b)) then Some 0
  else dateDiff (CandidateInfo.lastActivity b) (CandidateInfo.lastActivity a).

Definition sortSessions (l : list SessionRecord) : list SessionRecord :=
  Array_sort compareSessions l.

Definition sortCandidates (l : list CandidateInfo.t) : list CandidateInfo.t :=
  Array_sort compareCandidates l.

(** The roster row of one candidate, from its session list
    ([candidateInfo] and the [if (sessions.length > 0)] block). *)
Definition candidateInfoOf (candidateId : string)
  (sessions : list SessionRecord) : result CandidateInfo.t :=
  match sessions with
  | [] =>
      Ok (CandidateInfo.mk candidateId (length sessions) JNull JNull JNull JNull)
  | latestSession :: _ =>
      name <- getPropOpt (candidateProfile latestSession) "name" ;;
      location <- getPropOpt (candidateProfile latestSession) "location" ;;
      experience <- getPropOpt (candidateProfile latestSession) "experience" ;;
      Ok (CandidateInfo.mk candidateId (length sessions)
            (createdAt latestSession) name location experience)
  end.
End Comparators.

(** ** What the backends hold *)

(** The content of a file or object, as [JSON.parse] will see it: the text of
    a JSON document is kept as the value it denotes ([JSON.stringify v] and
    [JSON.parse] are inverse on the values stored here); any other text or
    byte content is rejected by [JSON.parse]. [RawValue v] stands for a
    value [v] that is neither string nor buffer and is handed to a write as
    it is, and for what the write makes of it where it takes it. *)
Inductive FileContent : Type :=
| JsonText (v : jsval)
| PlainText (s : string)
| Bytes (b : string)
| RawValue (v : jsval).

Definition JSON_stringify (v : jsval) : FileContent := JsonText v.

Definition JSON_parse (c : FileContent) : result jsval :=
  match c with
  | JsonText v => Ok v
  | PlainText _ | Bytes _ | RawValue _ => Throw (SyntaxError "Unexpected token in JSON")
  end.

(** The configuration of the storage manager ([config.storage]). *)
Record Config : Type := mkConfig {
  cfg_storageType : string;
  candidateDataPath : string;
  bucketName : string;
  region : string;
  candidateDataPrefix : string
}.

(** The read side of the file system: [fs.promises.readdir] with
    [withFileTypes] and [fs.promises.readFile]. *)
Record FsEnv : Type := mkFsEnv {
  readdir : string -> result (list Dirent.t);
  readFile : string -> result FileContent
}.

(** [fs.promises.readdir(dir)]: the names only. *)
Definition readdirNames (fs : FsEnv) (dir : string) : result (list string) :=
  entries <- readdir fs dir ;; Ok (map Dirent.name entries).

(** The answer to a [ListObjectsV2Command]; [None] is a key the response
    does not carry. *)
Record ListResponse : Type := mkListResponse {
  CommonPrefixes : option (list string);
  Contents : option (list string)
}.

(** The read side of the object store: [s3Client.send] of a listing (prefix
    and optional delimiter) and [_getS3Object]. *)
Record S3Env : Type := mkS3Env {
  listObjectsV2 : string -> option string -> result ListResponse;
  getS3Object : string -> result FileContent
}.

(** [s.replace(pat, '')]: the first occurrence of [pat] is taken out. *)
Definition removeFirst (s pat : string) : string :=
  match String.index 0 pat s with
  | Some i =>
      String.substring 0 i s +:+
      String.substring (i + String.length pat)
                       (String.length s - (i + String.length pat)) s
  | None => s
  end.

(** ** The session materializer *)

(** One turn of the loop "Map files to their types": [loc] and [link] give
    the locator and the public link of a listed entry, [file] its bare
    name. *)
Definition classifyEntry (acc : Slots.t * Slots.t) (file loc link : string)
  : Slots.t * Slots.t :=
  match classify file with
  | Some kind => (Slots.set kind loc (fst acc), Slots.set kind link (snd acc))
  | None => acc
  end.

(** "Read metadata if available": a failed read or parse is logged and
    leaves the empty object. *)
Definition loadMetadata (read : string -> result FileContent)
  (loc : option string) : result jsval :=
  match loc with
  | Some p =>
      try_catch (content <- read p ;; JSON_parse content)
                (fun _ => Ok (JObj []))
  | None => Ok (JObj [])
  end.

(** "Read candidate profile summary if available". *)
Definition loadProfile (read : string -> result FileContent)
  (loc : option string) : result jsval :=
  match loc with
  | Some p =>
      try_catch
        (content <- read p ;;
         profile <- JSON_parse content ;;
         name <- getProp profile "candidate_name" ;;
         contact <- getProp profile "contact" ;;
         location <- getPropOpt contact "location" ;;
         experience <- getProp profile "total_experience_years" ;;
         summary <- getProp profile "summary" ;;
         Ok (JObj [("name", name); ("location", location);
                   ("experience", experience); ("summary", summary)]))
        (fun _ => Ok (JObj []))
  | None => Ok (JObj [])
  end.

(** The loop "Map files to their types" of the filesystem listing, over
    the names found in a session directory: [filePaths] and [fileLinks]. *)
Definition classifyFiles (candidateId sessionId sessionPath : string)
  (names : list string) : Slots.t * Slots.t :=
  let relativeDir :=
    path_join (path_join "candidate-data" candidateId) sessionId in
  fold_left (fun acc file =>
               classifyEntry acc file (path_join sessionPath file)
                 ("/files/" +:+ path_join relativeDir file))
            names (Slots.empty, Slots.empty).

(** The loop "Map objects to their types" of the object-store listing, over
    the keys found under a session prefix: [s3Keys] and [s3Links]. *)
Definition classifyObjects (cfg : Config) (keys : list string)
  : Slots.t * Slots.t :=
  fold_left (fun acc key =>
               classifyEntry acc (lastSegment key) key
                 ("https://" +:+ bucketName cfg +:+ ".s3." +:+ region cfg
                  +:+ ".amazonaws.com/" +:+ key))
            keys (Slots.empty, Slots.empty).

(** The body of the loop of [_listFilesystemSessions]: the record of one
    session directory. *)
Definition materializeFsSession (fs : FsEnv) (cfg : Config)
  (candidateId sessionId : string) : result SessionRecord :=
  let candidateDir := path_join (candidateDataPath cfg) candidateId in
  let sessionPath := path_join candidateDir sessionId in
  names <- readdirNames fs sessionPath ;;
  let slots := classifyFiles candidateId sessionId sessionPath names in
  let filePaths := fst slots in
  let fileLinks := snd slots in
  metadata <- loadMetadata (readFile fs) (Slots.metadata filePaths) ;;
  candidateProfile <- loadProfile (readFile fs) (Slots.profile filePaths) ;;
  processed_at <- getProp metadata "processed_at" ;;
  original_filename <- getProp metadata "original_filename" ;;
  Ok {| sessionId := sessionId; candidateId := candidateId;
        storageType := "filesystem"; sessionPath := Some sessionPath;
        bucket := None; files := filePaths; links := fileLinks;
        metadata := metadata; candidateProfile := candidateProfile;
        createdAt := js_or processed_at JNull;
        originalFilename := js_or original_filename JNull |}.

(** [_getS3SessionData]: the record of one session prefix, or [null] when
    anything in it throws. *)
Definition getS3SessionData (s3 : S3Env) (cfg : Config)
  (candidateId sessionId : string) : result (option SessionRecord) :=
  try_catch
    (let baseKey :=
       path_join (path_join (candidateDataPrefix cfg) candidateId) sessionId in
     listResponse <- listObjectsV2 s3 (baseKey +:+ "/") None ;;
     let objects := default [] (Contents listResponse) in
     let slots := classifyObjects cfg objects in
     let s3Keys := fst slots in
     let s3Links := snd slots in
     metadata <- loadMetadata (getS3Object s3) (Slots.metadata s3Keys) ;;
     candidateProfile <- loadProfile (getS3Object s3) (Slots.profile s3Keys) ;;
     processed_at <- getProp metadata "processed_at" ;;
     original_filename <- getProp metadata "original_filename" ;;
     Ok (Some {| sessionId := sessionId; candidateId := candidateId;
                 storageType := "s3"; sessionPath := None;
                 bucket := Some (bucketName cfg); files := s3Keys;
                 links := s3Links; metadata := metadata;
                 candidateProfile := candidateProfile;
                 createdAt := js_or processed_at JNull;
                 originalFilename := js_or original_filename JNull |}))
    (fun _ => Ok None).

(** ** The listings *)
Section Listings.
Variable newDate : jsval -> option Z.

(** The [catch] of the two filesystem listings: a missing directory is an
    empty listing, any other error is thrown again. *)
Definition enoentAsEmpty {A} (e : error) : result (list A) :=
  if decide (error_code e = Some "ENOENT") then Ok [] else Throw e.

(** [_listFilesystemSessions] *)
Definition listFilesystemSessions (fs : FsEnv) (cfg : Config)
  (candidateId : string) : result (list SessionRecord) :=
  let candidateDir := path_join (candidateDataPath cfg) candidateId in
  try_catch
    (sessions <- readdir fs candidateDir ;;
     sessionDetails <-
       forOf (fun acc dirent =>
                record <- materializeFsSession fs cfg candidateId
                            (Dirent.name dirent) ;;
                Ok (acc ++ [record]))
             (filter (fun d => Dirent.isDirectory d = true) sessions) [] ;;
     Ok (sortSessions newDate sessionDetails))
    enoentAsEmpty.

(** [_listFilesystemCandidates] *)
Definition listFilesystemCandidates (fs : FsEnv) (cfg : Config)
  : result (list CandidateInfo.t) :=
  try_catch
    (candidates <- readdir fs (candidateDataPath cfg) ;;
     candidateList <-
       forOf (fun acc dirent =>
                let candidateId := Dirent.name dirent in
                sessions <- listFilesystemSessions fs cfg candidateId ;;
                candidateInfo <- candidateInfoOf candidateId sessions ;;
                Ok (acc ++ [candidateInfo]))
             (filter (fun d => Dirent.isDirectory d = true) candidates) [] ;;
     Ok (sortCandidates newDate candidateList))
    enoentAsEmpty.

(** [commonPrefix.Prefix.replace(prefix, '').replace('/', '')] *)
Definition idOfPrefix (prefix commonPrefix : string) : string :=
  removeFirst (removeFirst commonPrefix prefix) "/".

(** [_listS3Sessions] *)
Definition listS3Sessions (s3 : S3Env) (cfg : Config) (candidateId : string)
  : result (list SessionRecord) :=
  try_catch
    (let prefix := candidateDataPrefix cfg +:+ "/" +:+ candidateId +:+ "/" in
     response <- listObjectsV2 s3 prefix (Some "/") ;;
     sessions <-
       forOf (fun acc commonPrefix =>
                let sessionId := idOfPrefix prefix commonPrefix in
                sessionData <- getS3SessionData s3 cfg candidateId sessionId ;;
                match sessionData with
                | Some record => Ok (acc ++ [record])
                | None => Ok acc
                end)
             (default [] (CommonPrefixes response)) [] ;;
     Ok (sortSessions newDate sessions))
    (fun _ => Ok []).

(** [_listS3Candidates] *)
Definition listS3Candidates (s3 : S3Env) (cfg : Config)
  : result (list CandidateInfo.t) :=
  try_catch
    (let prefix := candidateDataPrefix cfg +:+ "/" in
     response <- listObjectsV2 s3 prefix (Some "/") ;;
     candidateList <-
       forOf (fun acc commonPrefix =>
                let candidateId := idOfPrefix prefix commonPrefix in
                sessions <- listS3Sessions s3 cfg candidateId ;;
                candidateInfo <- candidateInfoOf candidateId sessions ;;
                Ok (acc ++ [candidateInfo]))
             (default [] (CommonPrefixes response)) [] ;;
     Ok (sortCandidates newDate candidateList))
    (fun _ => Ok []).

(** The facade. With a storage type that is neither of the two, both
    listings fall through and return [undefined] ([None]). *)
Definition listCandidateSessions (fs : FsEnv) (s3 : S3Env) (cfg : Config)
  (candidateId : string) : result (option (list SessionRecord)) :=
  if String.eqb (cfg_storageType cfg) "filesystem" then
    l <- listFilesystemSessions fs cfg candidateId ;; Ok (Some l)
  else if String.eqb (cfg_storageType cfg) "s3" then
    l <- listS3Sessions s3 cfg candidateId ;; Ok (Some l)
  else Ok None.

Definition listCandidates (fs : FsEnv) (s3 : S3Env) (cfg : Config)
  : result (option (list CandidateInfo.t)) :=
  if String.eqb (cfg_storageType cfg) "filesystem" then
    l <- listFilesystemCandidates fs cfg ;; Ok (Some l)
  else if String.eqb (cfg_storageType cfg) "s3" then
    l <- listS3Candidates s3 cfg ;; Ok (Some l)
  else Ok None.
End Listings.

(** ** Clock and time stamps *)

(** The civil date of a day number (days since 1970-01-01), in the proleptic
    Gregorian calendar. *)
Definition civilFromDays (days : Z) : Z * Z * Z :=
  let z := days + 719468 in
  let era := z / 146097 in
  let doe := z - era * 146097 in
  let yoe := (doe - doe / 1460 + doe / 36524 - doe / 146096) / 365 in
  let doy := doe - (365 * yoe + yoe / 4 - yoe / 100) in
  let mp := (5 * doy + 2) / 153 in
  let d := doy - (153 * mp + 2) / 5 + 1 in
  let m := if mp <? 10 then mp + 3 else mp - 9 in
  let y := yoe + era * 400 + (if m <=? 2 then 1 else 0) in
  (y, m, d).

(** The day number of a civil date. *)
Definition daysFromCivil (y m d : Z) : Z :=
  let y' := if m <=? 2 then y - 1 else y in
  let era := y' / 400 in
  let yoe := y' - era * 400 in
  let mp := if m <=? 2 then m + 9 else m - 3 in
  let doy := (153 * mp + 2) / 5 + d - 1 in
  let doe := yoe * 365 + yoe / 4 - yoe / 100 + doy in
  era * 146097 + doe - 719468.

Definition digitChar (n : Z) : ascii := ascii_of_nat (48 + Z.to_nat (n mod 10)).

Definition pad2 (n : Z) : string :=
  String (digitChar (n / 10)) (String (digitChar n) EmptyString).
Definition pad3 (n : Z) : string := String (digitChar (n / 100)) (pad2 n).
Definition pad4 (n : Z) : string := String (digitChar (n / 1000)) (pad3 n).

(** [moment(t).format('YYYYMMDD-HHmmss')] for the wall-clock second [t]
    (seconds since the epoch, zone offset added), years 0000 to 9999. *)
Definition formatTimestamp (wall : Z) : string :=
  let '(y, m, d) := civilFromDays (wall / 86400) in
  let s := wall mod 86400 in
  pad4 y +:+ pad2 m +:+ pad2 d +:+ "-"
  +:+ pad2 (s / 3600) +:+ pad2 (s / 60 mod 60) +:+ pad2 (s mod 60).

(** [new Date(ms).toISOString()], years 0000 to 9999. *)
Definition toISOString (ms : Z) : string :=
  let secs := ms / 1000 in
  let '(y, m, d) := civilFromDays (secs / 86400) in
  let s := secs mod 86400 in
  pad4 y +:+ "-" +:+ pad2 m +:+ "-" +:+ pad2 d +:+ "T"
  +:+ pad2 (s / 3600) +:+ ":" +:+ pad2 (s / 60 mod 60) +:+ ":"
  +:+ pad2 (s mod 60) +:+ "." +:+ pad3 (ms mod 1000) +:+ "Z".

Section Clock.
(** The offset from UTC, in seconds, that the configured zone
    ([config.timezone]) has at a given epoch second. *)
Variable zoneOffset : Z -> Z.

(** [generateTimestamp], with the clock reading [now] in milliseconds. *)
Definition generateTimestamp (now : Z) : string :=
  let secs := now / 1000 in
  formatTimestamp (secs + zoneOffset secs).

(** [`${timestamp}-IST`] *)
Definition newSessionId (now : Z) : string := generateTimestamp now +:+ "-IST".
End Clock.

(** ** The write side *)

(** The local file system as the writes see it: the entries of every
    directory and the content of every file, both by path. *)
Record FsState : Type := mkFsState {
  dirs : gmap string (list Dirent.t);
  fileData : gmap string FileContent
}.

(** An object of the bucket: its body and its content type. *)
Record S3Object : Type := mkS3Object {
  body : FileContent;
  contentType : string
}.

(** Which operations reject: the error a write, put, copy or directory
    creation on the given path or key ends with, if any. *)
Definition Faults : Type := string -> option error.

Definition hasEntry (name : string) (l : list Dirent.t) : bool :=
  existsb (fun d => String.eqb (Dirent.name d) name) l.

Definition addEntry (d : Dirent.t) (l : list Dirent.t) : list Dirent.t :=
  if hasEntry (Dirent.name d) l then l else l ++ [d].

(** Make [dir] exist and list [child] in it. *)
Definition linkChild (dir : string) (child : Dirent.t)
  (ds : gmap string (list Dirent.t)) : gmap string (list Dirent.t) :=
  <[dir := addEntry child (default [] (ds !! dir))]> ds.

(** Make [dir] exist. *)
Definition ensureDir (dir : string) (ds : gmap string (list Dirent.t))
  : gmap string (list Dirent.t) :=
  <[dir := default [] (ds !! dir)]> ds.

(** [fs.promises.mkdir(candidateFolder, { recursive: true })] for the
    folder [root/candidateId/sessionId]. *)
Definition mkdirSession (root candidateId sessionId : string) (st : FsState)
  : FsState :=
  let candidateDir := path_join root candidateId in
  let candidateFolder := path_join candidateDir sessionId in
  {| dirs :=
       ensureDir candidateFolder
         (linkChild candidateDir (Dirent.mk sessionId true)
            (linkChild root (Dirent.mk candidateId true) (dirs st)));
     fileData := fileData st |}.

(** What a write is handed for a value: a string is written as it is; a
    value that is neither string nor buffer is passed on unchanged. *)
Definition dataOf (v : jsval) : FileContent :=
  match v with
  | JStr s => PlainText s
  | _ => RawValue v
  end.

(** The [TypeError] with code [ERR_INVALID_ARG_TYPE]; its message is not
    part of the model. *)
Definition invalidArgType : error := TypeError "ERR_INVALID_ARG_TYPE".

(** What [fs.promises.writeFile] does not take for its data: a value that
    is neither string, nor buffer, nor iterable. It rejects with
    [ERR_INVALID_ARG_TYPE] before it opens the file. An array is iterable;
    what becomes of one is left to the faults. *)
Definition writeFileRefuses (data : FileContent) : option error :=
  match data with
  | RawValue (JStr _) | RawValue (JArr _) => None
  | RawValue _ => Some invalidArgType
  | JsonText _ | PlainText _ | Bytes _ => None
  end.

(** What the client of the object store does not take for the [Body] of a
    [PutObjectCommand]: a plain object. Which error it rejects with is not
    part of the model; it is written as the same [TypeError]. What becomes
    of the other values that are neither string nor buffer is left to the
    faults. *)
Definition putObjectRefuses (data : FileContent) : option error :=
  match data with
  | RawValue (JObj _) => Some invalidArgType
  | _ => None
  end.

(** A write that is under way: the name of the artifact below the session
    folder or key, what is written, and the content type the object store
    is told. *)
Record Write : Type := mkWrite {
  w_name : string;
  w_data : FileContent;
  w_type : string
}.

(** The three documents every call writes ([savePromises],
    [uploadPromises]). *)
Definition docWrites (transcript profile metadata : jsval) : list Write :=
  [mkWrite transcriptFilename (dataOf transcript) "text/plain";
   mkWrite profileFilename (JSON_stringify profile) "application/json";
   mkWrite metadataFilename (JSON_stringify metadata) "application/json"].

(** Whether [fs.promises.writeFile(path.join(dir, name), data)] rejects,
    and with what: data it does not take, or what the faults say of the
    path. *)
Definition fsRejects (faults : Faults) (dir : string) (w : Write)
  : option error :=
  match writeFileRefuses (w_data w) with
  | Some e => Some e
  | None => faults (path_join dir (w_name w))
  end.

(** One settled [fs.promises.writeFile(path.join(dir, name), data)]: the new
    state, and the error if it rejected. A rejected write leaves the state
    as it was. *)
Definition fsWrite (faults : Faults) (dir : string) (w : Write) (st : FsState)
  : FsState * option error :=
  match fsRejects faults dir w with
  | Some e => (st, Some e)
  | None =>
      match dirs st !! dir with
      | None => (st, Some (SysError "ENOENT"))
      | Some entries =>
          ({| dirs :=
                <[dir := addEntry (Dirent.mk (w_name w) false) entries]> (dirs st);
              fileData := <[path_join dir (w_name w) := w_data w]> (fileData st) |},
           None)
      end
  end.

(** [fs.promises.copyFile(src, path.join(dir, name))], with [source] what
    lies at [src]: a file holds what a write stored in it. *)
Definition fsCopy (faults : Faults) (source : option FileContent)
  (dir name : string) (st : FsState) : FsState * option error :=
  match source with
  | None => (st, Some (SysError "ENOENT"))
  | Some data => fsWrite faults dir (mkWrite name data "") st
  end.

(** Every write of an array of promises settles, in the order of the array:
    the state after them, and how each one ended. *)
Fixpoint settleAll {S} (put : Write -> S -> S * option error)
  (ws : list Write) (s : S) : S * list (option error) :=
  match ws with
  | [] => (s, [])
  | w :: rest =>
      let '(s1, r) := put w s in
      let '(s2, rs) := settleAll put rest s1 in
      (s2, r :: rs)
  end.

(** [Promise.all]: the first rejection, if there is one. *)
Fixpoint firstError (settled : list (option error)) : option error :=
  match settled with
  | [] => None
  | Some e :: _ => Some e
  | None :: rest => firstError rest
  end.

(** A generated report file ([generatedFiles.html], [generatedFiles.pdf]). *)
Record GeneratedFile : Type := mkGeneratedFile {
  gf_filename : string;
  gf_path : option string;
  gf_buffer : option FileContent
}.

Record GeneratedFiles : Type := mkGeneratedFiles {
  gf_html : option GeneratedFile;
  gf_pdf : option GeneratedFile
}.

(** The object [saveCandidateData] resolves to. [locators] is [paths] on
    the filesystem and [s3Keys] on the object store. *)
Record StorageResult : Type := mkStorageResult {
  sr_storageType : string;
  sr_candidateId : string;
  sr_sessionId : string;
  sr_locators : Slots.t;
  sr_folder : option string;
  sr_bucket : option string
}.

(** [generatedFiles.html && generatedFiles.html.path] *)
Definition truthyPath (g : option GeneratedFile) : option string :=
  match g with
  | Some f =>
      match gf_path f with
      | Some p => if String.eqb p "" then None else Some p
      | None => None
      end
  | None => None
  end.

Definition setOpt (k : ArtifactKind) (v : option string) (s : Slots.t)
  : Slots.t :=
  match v with Some x => Slots.set k x s | None => s end.

(** The three locators every result carries. *)
Definition docLocators (base : string) : Slots.t :=
  Slots.mk None (Some (path_join base transcriptFilename))
    (Some (path_join base profileFilename))
    (Some (path_join base metadataFilename)) None None.

(** [_saveToFilesystem]: the state and how the call ends. The three
    documents are started first; the copy of the upload is awaited next (it
    reads the upload as it lies on disk when the call is made), and
    [Promise.all] over the three documents last. So while the copy is
    awaited no handler is attached to the three documents: one of them that
    is rejected then is an unhandled rejection, and the process ends. (The
    rejection is taken to arrive before the copy has finished. For data
    that [writeFile] refuses it does: the promise is rejected before the
    copy is started. When the copy is rejected too, [Promise.all] is never
    reached, so the rejection stays unhandled whenever it arrives.) Without
    an upload [Promise.all] follows at once, and the call rejects with the
    first rejection.

    The state is the one the started writes leave when each has run its
    course; how far they have come when the process ends is not determined
    by the source. *)
Definition saveToFilesystem (faults : Faults) (cfg : Config) (st : FsState)
  (candidateId sessionId : string) (transcript profile metadata : jsval)
  (generatedFiles : option GeneratedFiles) (audioFile : option UploadedFile)
  : FsState * Ending StorageResult :=
  let candidateFolder :=
    path_join (path_join (candidateDataPath cfg) candidateId) sessionId in
  match faults candidateFolder with
  | Some e => (st, Returns (Throw e))
  | None =>
      let st0 := mkdirSession (candidateDataPath cfg) candidateId sessionId st in
      let savePromises := docWrites transcript profile metadata in
      let '(st1, settled) :=
        settleAll (fsWrite faults candidateFolder) savePromises st0 in
      let paths0 := docLocators candidateFolder in
      let withReports (paths1 : Slots.t) : Slots.t :=
        match generatedFiles with
        | Some g =>
            setOpt Pdf (truthyPath (gf_pdf g))
              (setOpt Html (truthyPath (gf_html g)) paths1)
        | None => paths1
        end in
      let resolved (paths2 : Slots.t) : StorageResult :=
        {| sr_storageType := "filesystem";
           sr_candidateId := candidateId;
           sr_sessionId := sessionId;
           sr_locators := paths2;
           sr_folder := Some candidateFolder;
           sr_bucket := None |} in
      match audioFile with
      | Some file =>
          let audioName := audioFilename sessionId (originalname file) in
          let '(st2, copied) :=
            fsCopy faults (fileData st !! path file) candidateFolder audioName
              st1 in
          match firstError settled with
          | Some e => (st2, ProcessExit e)
          | None =>
              match copied with
              | Some e => (st2, Returns (Throw e))
              | None =>
                  (st2,
                   Returns
                     (Ok (resolved
                            (withReports
                               (Slots.set Audio
                                  (path_join candidateFolder audioName)
                                  paths0)))))
              end
          end
      | None =>
          match firstError settled with
          | Some e => (st1, Returns (Throw e))
          | None => (st1, Returns (Ok (resolved (withReports paths0))))
          end
      end
  end.

(** Whether [_uploadToS3(`${baseKey}/${name}`, content, contentType)]
    rejects, and with what. *)
Definition s3Rejects (faults : Faults) (baseKey : string) (w : Write)
  : option error :=
  match putObjectRefuses (w_data w) with
  | Some e => Some e
  | None => faults (path_join baseKey (w_name w))
  end.

(** One settled [_uploadToS3(`${baseKey}/${name}`, content, contentType)]. *)
Definition s3Put (faults : Faults) (baseKey : string) (w : Write)
  (bk : gmap string S3Object) : gmap string S3Object * option error :=
  match s3Rejects faults baseKey w with
  | Some e => (bk, Some e)
  | None =>
      (<[path_join baseKey (w_name w) := mkS3Object (w_data w) (w_type w)]> bk,
       None)
  end.

(** [uploadToS3], the public upload: only with the object store
    configured. *)
Definition uploadToS3 (faults : Faults) (cfg : Config) (key : string)
  (content : FileContent) (type : string) (bk : gmap string S3Object)
  : gmap string S3Object * result unit :=
  if String.eqb (cfg_storageType cfg) "s3" then
    match putObjectRefuses content with
    | Some e => (bk, Throw e)
    | None =>
        match faults key with
        | Some e => (bk, Throw e)
        | None => (<[key := mkS3Object content type]> bk, Ok tt)
        end
    end
  else (bk, Throw (Error "S3 upload is only available when storage type is s3")).

(** The upload of a generated report that has a buffer
    ([generatedFiles.html && generatedFiles.html.buffer]). *)
Definition generatedWrite (type : string) (g : option GeneratedFile)
  : list Write :=
  match g with
  | Some f =>
      match gf_buffer f with
      | Some b => [mkWrite (gf_filename f) b type]
      | None => []
      end
  | None => []
  end.

Definition generatedWrites (generatedFiles : option GeneratedFiles)
  : list Write :=
  match generatedFiles with
  | Some g =>
      generatedWrite "text/html" (gf_html g)
      ++ generatedWrite "application/pdf" (gf_pdf g)
  | None => []
  end.

(** The key a generated report is recorded under in the result. *)
Definition generatedKey (baseKey : string) (ws : list Write) : option string :=
  match ws with
  | w :: _ => Some (path_join baseKey (w_name w))
  | [] => None
  end.

(** [audioFile.mimetype || 'audio/mpeg'] *)
Definition audioContentType (file : UploadedFile) : string :=
  if String.eqb (mimetype file) "" then "audio/mpeg" else mimetype file.

(** The upload of the audio file, once its buffer is read. *)
Definition audioWrite (sessionId : string) (file : UploadedFile)
  (audioBuffer : FileContent) : Write :=
  mkWrite (audioFilename sessionId (originalname file)) audioBuffer
    (audioContentType file).

(** [_saveToS3]: the bucket and how the call ends. [localRead] is
    [fs.promises.readFile] on the local disk, where the upload lies. The
    three documents are under way while it is awaited, without a handler:
    one of them that is rejected then ends the process, and neither the
    audio nor a report is uploaded (the rejection is taken to arrive before
    the upload is read). The uploads started after the read are handed to
    [Promise.all] at once. The bucket is the one the started uploads leave
    when each has run its course. *)
Definition saveToS3 (faults : Faults) (cfg : Config)
  (localRead : string -> result FileContent) (bk : gmap string S3Object)
  (candidateId sessionId : string) (transcript profile metadata : jsval)
  (generatedFiles : option GeneratedFiles) (audioFile : option UploadedFile)
  : gmap string S3Object * Ending StorageResult :=
  let baseKey :=
    path_join (path_join (candidateDataPrefix cfg) candidateId) sessionId in
  let uploadPromises := docWrites transcript profile metadata in
  let s3Keys0 := docLocators baseKey in
  let html :=
    match generatedFiles with
    | Some g => generatedWrite "text/html" (gf_html g) | None => []
    end in
  let pdf :=
    match generatedFiles with
    | Some g => generatedWrite "application/pdf" (gf_pdf g) | None => []
    end in
  let '(bk1, settled) := settleAll (s3Put faults baseKey) uploadPromises bk in
  let finish (audioUpload : list Write) (s3Keys1 : Slots.t)
    : gmap string S3Object * Ending StorageResult :=
    let s3Keys2 :=
      setOpt Pdf (generatedKey baseKey pdf)
        (setOpt Html (generatedKey baseKey html) s3Keys1) in
    let '(bk2, settled') :=
      settleAll (s3Put faults baseKey) (audioUpload ++ html ++ pdf) bk1 in
    match firstError (settled ++ settled') with
    | Some e => (bk2, Returns (Throw e))
    | None =>
        (bk2, Returns (Ok {| sr_storageType := "s3";
                             sr_candidateId := candidateId;
                             sr_sessionId := sessionId;
                             sr_locators := s3Keys2;
                             sr_folder := None;
                             sr_bucket := Some (bucketName cfg) |}))
    end in
  match audioFile with
  | Some file =>
      match firstError settled with
      | Some e => (bk1, ProcessExit e)
      | None =>
          match localRead (path file) with
          | Throw e => (bk1, Returns (Throw e))
          | Ok audioBuffer =>
              let w := audioWrite sessionId file audioBuffer in
              finish [w] (Slots.set Audio (path_join baseKey (w_name w)) s3Keys0)
          end
      end
  | None => finish [] s3Keys0
  end.

(** What the program holds its data in: the local disk and the bucket. *)
Record World : Type := mkWorld {
  disk : FsState;
  objects : gmap string S3Object
}.

(** The read side of a disk state. *)
Definition fsOf (st : FsState) : FsEnv :=
  {| readdir := fun p =>
       match dirs st !! p with
       | Some entries => Ok entries
       | None => Throw (SysError "ENOENT")
       end;
     readFile := fun p =>
       match fileData st !! p with
       | Some c => Ok c
       | None => Throw (SysError "ENOENT")
       end |}.

(** What a delimiter listing groups a key under: the prefix and the key's
    next segment with its slash, when the key has one below [prefix]. *)
Definition commonPrefixOf (prefix key : string) : option string :=
  let rest := String.substring (String.length prefix)
                (String.length key - String.length prefix) key in
  match String.index 0 "/" rest with
  | Some i => Some (prefix +:+ String.substring 0 (S i) rest)
  | None => None
  end.

Definition someIfAny {A} (l : list A) : option (list A) :=
  match l with [] => None | _ => Some l end.

(** The read side of a bucket. The store lists keys in the order of their
    bytes. *)
Definition s3Of (bk : gmap string S3Object) : S3Env :=
  {| listObjectsV2 := fun prefix delimiter =>
       let keys :=
         merge_sort String.le
           (filter (fun k => startsWith k prefix = true)
                   (map fst (map_to_list bk))) in
       match delimiter with
       | None => Ok (mkListResponse None (someIfAny keys))
       | Some _ =>
           Ok (mkListResponse
                 (someIfAny (remove_dups (omap (commonPrefixOf prefix) keys)))
                 (someIfAny
                    (filter (fun k => commonPrefixOf prefix k = None) keys)))
       end;
     getS3Object := fun key =>
       match bk !! key with
       | Some o => Ok (body o)
       | None => Throw (Error "NoSuchKey")
       end |}.

Section Facade.
Variable zoneOffset : Z -> Z.

(** [saveCandidateData], called when the clock reads [now]. *)
Definition saveCandidateData (faults : Faults) (cfg : Config) (now : Z)
  (w : World) (candidateId : string) (transcript profile metadata : jsval)
  (generatedFiles : option GeneratedFiles) (audioFile : option UploadedFile)
  : World * Ending StorageResult :=
  let timestamp := generateTimestamp zoneOffset now in
  let sessionId := timestamp +:+ "-IST" in
  if String.eqb (cfg_storageType cfg) "filesystem" then
    let '(st, r) :=
      saveToFilesystem faults cfg (disk w) candidateId sessionId transcript
        profile metadata generatedFiles audioFile in
    (mkWorld st (objects w), r)
  else if String.eqb (cfg_storageType cfg) "s3" then
    let '(bk, r) :=
      saveToS3 faults cfg (readFile (fsOf (disk w))) (objects w) candidateId
        sessionId transcript profile metadata generatedFiles audioFile in
    (mkWorld (disk w) bk, r)
  else
    (w, Returns
          (Throw (Error ("Unsupported storage type: " +:+ cfg_storageType cfg)))).

(** The metadata object [processAudio] prepares. *)
Definition processAudioMetadata (cfg : Config) (environment candidateId : string)
  (file : UploadedFile) (now : Z) (rawTranscript formattedDialogue : string)
  : jsval :=
  JObj [("candidateId", JStr candidateId);
        ("originalFilename", JStr (originalname file));
        ("fileSize", JNum (size file));
        ("processedAt", JStr (toISOString now));
        ("rawTranscriptLength", JNum (Z.of_nat (String.length rawTranscript)));
        ("formattedDialogueLength", JNum (Z.of_nat (String.length formattedDialogue)));
        ("dialogueFormatted", JBool true);
        ("storageType", JStr (cfg_storageType cfg));
        ("environment", JStr environment);
        ("sessionId", JNull)].

(** The storing step of [processAudio]: the metadata is prepared when the
    clock reads [now], the storage manager is called when it reads
    [now']. *)
Definition processAudioSave (faults : Faults) (cfg : Config)
  (environment : string) (now now' : Z) (w : World) (candidateId : string)
  (file : UploadedFile) (rawTranscript formattedDialogue : string)
  (profile : jsval) : World * Ending StorageResult :=
  let metadata :=
    processAudioMetadata cfg environment candidateId file now rawTranscript
      formattedDialogue in
  saveCandidateData faults cfg now' w candidateId
    (JObj [("raw", JStr rawTranscript); ("formatted", JStr formattedDialogue)])
    profile metadata None (Some file).
End Facade.

(** A [Date] that reads the ISO format [toISOString] writes
    ([YYYY-MM-DDTHH:mm:ss.sssZ], the milliseconds optional) and takes a
    number as the time value; everything else is an invalid date here. It
    stands in for the engine's [Date] in the examples. *)
Definition digitVal (c : ascii) : option Z :=
  let n := nat_of_ascii c in
  if ((48 <=? n) && (n <=? 57))%nat then Some (Z.of_nat n - 48) else None.

Fixpoint digitsVal (acc : Z) (l : list ascii) : option Z :=
  match l with
  | [] => Some acc
  | c :: rest =>
      match digitVal c with
      | Some d => digitsVal (acc * 10 + d) rest
      | None => None
      end
  end.

Definition numField (s : string) (start len : nat) : option Z :=
  let f := String.substring start len s in
  if (String.length f =? len)%nat
  then digitsVal 0 (String.list_ascii_of_string f) else None.

Definition isoDateParse (s : string) : option Z :=
  let punct :=
    String.eqb (String.substring 4 1 s) "-"
    && String.eqb (String.substring 7 1 s) "-"
    && String.eqb (String.substring 10 1 s) "T"
    && String.eqb (String.substring 13 1 s) ":"
    && String.eqb (String.substring 16 1 s) ":" in
  let tail := String.substring 19 (String.length s - 19) s in
  let millis :=
    if String.eqb tail "Z" then Some 0
    else if String.eqb (String.substring 0 1 tail) "."
            && String.eqb (String.substring 4 2 tail) "Z"
            && (String.length tail =? 5)%nat
    then numField tail 1 3 else None in
  if punct then
    match numField s 0 4, numField s 5 2, numField s 8 2,
          numField s 11 2, numField s 14 2, numField s 17 2, millis with
    | Some y, Some mo, Some d, Some h, Some mi, Some sec, Some ms =>
        if (1 <=? mo) && (mo <=? 12) && (1 <=? d) && (d <=? 31)
           && (h <=? 23) && (mi <=? 59) && (sec <=? 59)
        then Some ((((daysFromCivil y mo d * 24 + h) * 60 + mi) * 60 + sec)
                   * 1000 + ms)
        else None
    | _, _, _, _, _, _, _ => None
    end
  else None.

Definition isoDate (v : jsval) : option Z :=
  match v with
  | JStr s => isoDateParse s
  | JNum z => Some z
  | _ => None
  end.

(** ** Names used in the statements *)

(** [path.join(candidateDataPath, candidateId)] and the session directory
    below it. *)
Definition candidateDirOf (cfg : Config) (candidateId : string) : string :=
  path_join (candidateDataPath cfg) candidateId.
Definition sessionPathOf (cfg : Config) (candidateId sessionId : string)
  : string :=
  path_join (candidateDirOf cfg candidateId) sessionId.

(** [`${candidateDataPrefix}/${candidateId}/${sessionId}`] *)
Definition baseKeyOf (cfg : Config) (candidateId sessionId : string) : string :=
  path_join (path_join (candidateDataPrefix cfg) candidateId) sessionId.

(** The listing prefixes of the object store: the root and one candidate. *)
Definition rootPrefix (cfg : Config) : string := candidateDataPrefix cfg +:+ "/".
Definition candidatePrefix (cfg : Config) (candidateId : string) : string :=
  candidateDataPrefix cfg +:+ "/" +:+ candidateId +:+ "/".

(** A document that cannot be used: the read fails, or [JSON.parse] rejects
    what was read. *)
Definition unusable (read : string -> result FileContent) (loc : string)
  : Prop :=
  match read loc with
  | Throw _ => True
  | Ok content => exists e, JSON_parse content = Throw e
  end.

(** A configuration for each backend, with the defaults of
    [load-config.js]. *)
Definition fsConfig : Config :=
  {| cfg_storageType := "filesystem"; candidateDataPath := "candidate-data";
     bucketName := ""; region := ""; candidateDataPrefix := "" |}.
Definition s3Config : Config :=
  {| cfg_storageType := "s3"; candidateDataPath := "";
     bucketName := "screener"; region := "us-east-1";
     candidateDataPrefix := "candidate-data" |}.

Definition emptyDisk : FsState := {| dirs := ∅; fileData := ∅ |}.
Definition emptyBucket : gmap string S3Object := ∅.
Definition noFaults : Faults := fun _ => None.

(** A disk whose root cannot be listed for lack of permission. *)
Definition lockedFs : FsEnv :=
  {| readdir := fun _ => Throw (SysError "EACCES");
     readFile := fun _ => Throw (SysError "EACCES") |}.

(** An object store that answers every request with an error. *)
Definition brokenS3 : S3Env :=
  {| listObjectsV2 := fun _ _ => Throw (Error "NetworkingError");
     getS3Object := fun _ => Throw (Error "NetworkingError") |}.

(** A document that holds the JSON literal [null]: [JSON.parse] accepts it,
    and reading a property of the result throws. *)
Definition holdsNull (read : string -> result FileContent) (loc : string)
  : Prop :=
  read loc = Ok (JsonText JNull) \/ read loc = Ok (JsonText JUndefined).

(** A session directory the listing can walk: its entries can be read, and
    its metadata document is not the literal [null]. *)
Definition fsSessionWalkable (fs : FsEnv) (cfg : Config)
  (candidate session : string) : Prop :=
  (exists entries, readdir fs (sessionPathOf cfg candidate session) = Ok entries)
  /\ ~ holdsNull (readFile fs)
         (path_join (sessionPathOf cfg candidate session) metadataFilename).

(** The session directories of a candidate directory, as the listing
    filters them. *)
Definition directoriesOf (entries : list Dirent.t) : list string :=
  map Dirent.name (filter (fun d => Dirent.isDirectory d = true) entries).

(** A candidate directory the listing can walk. *)
Definition fsCandidateWalkable (fs : FsEnv) (cfg : Config) (candidate : string)
  : Prop :=
  exists entries,
    readdir fs (candidateDirOf cfg candidate) = Ok entries
    /\ forall session, In session (directoriesOf entries) ->
                       fsSessionWalkable fs cfg candidate session.

(** A session prefix the listing can walk: its objects can be listed, and
    the object found as its metadata is not the literal [null]. *)
Definition s3SessionWalkable (s3 : S3Env) (cfg : Config)
  (candidate session : string) : Prop :=
  exists response,
    listObjectsV2 s3 (baseKeyOf cfg candidate session +:+ "/") None = Ok response
    /\ forall key,
         Slots.metadata (fst (classifyObjects cfg (default [] (Contents response))))
           = Some key ->
         ~ holdsNull (getS3Object s3) key.

(** One turn of each roster loop: the sessions of a candidate, then its
    row. *)
Definition fsRosterRow (newDate : jsval -> option Z) (fs : FsEnv)
  (cfg : Config) (candidate : string) : result CandidateInfo.t :=
  sessions <- listFilesystemSessions newDate fs cfg candidate ;;
  candidateInfoOf candidate sessions.

Definition s3RosterRow (newDate : jsval -> option Z) (s3 : S3Env)
  (cfg : Config) (candidate : string) : result CandidateInfo.t :=
  sessions <- listS3Sessions newDate s3 cfg candidate ;;
  candidateInfoOf candidate sessions.

(** ** What the statements measure *)

(** The time values of the sessions that have a creation date, in the order
    of the list. *)
Definition timestamps (newDate : jsval -> option Z) (l : list SessionRecord)
  : list Z :=
  omap (fun r => if truthy (createdAt r) then newDate (createdAt r) else None) l.

(** Newest first: no session with a creation date comes before a newer
    one. *)
Definition newestFirst (newDate : jsval -> option Z) (l : list SessionRecord)
  : Prop :=
  StronglySorted Z.ge (timestamps newDate l).

(** The sessions without a creation date, in the order of the list. *)
Definition undated (l : list SessionRecord) : list SessionRecord :=
  filter (fun r => truthy (createdAt r) = false) l.

(** ** A sample store

    One candidate, [CAND1], with three sessions: two written with the key
    [processed_at] (in 2020 and in 2024) and, between them, one whose
    metadata is what [processAudio] prepares. A second candidate, [CAND2],
    has a session whose [metadata.json] is cut off and one that is
    intact. *)
Definition sampleUpload : UploadedFile :=
  {| originalname := "interview.mp3"; mimetype := "audio/mpeg";
     path := "uploads/1640995200000-1.mp3"; size := 4096 |}.

Definition metadata2020 : jsval :=
  JObj [("candidateId", JStr "CAND1");
        ("processed_at", JStr "2020-01-01T00:00:00Z");
        ("original_filename", JStr "first.mp3")].
Definition metadata2022 : jsval :=
  processAudioMetadata fsConfig "localhost" "CAND1" sampleUpload 1640995200000
    "hello" "A: hello".
Definition metadata2024 : jsval :=
  JObj [("candidateId", JStr "CAND1");
        ("processed_at", JStr "2024-01-01T00:00:00Z");
        ("original_filename", JStr "third.mp3")].
Definition metadata2023 : jsval :=
  JObj [("candidateId", JStr "CAND2");
        ("processed_at", JStr "2023-07-01T12:00:00Z")].

Definition profileOf (name city : string) (years : Z) : jsval :=
  JObj [("candidate_name", JStr name);
        ("contact", JObj [("location", JStr city)]);
        ("total_experience_years", JNum years);
        ("summary", JStr "n/a")].

Definition sessionEntries : list Dirent.t :=
  [Dirent.mk "candidate_profile.json" false; Dirent.mk "metadata.json" false;
   Dirent.mk "transcript.txt" false].

Definition sampleFiles : list (string * FileContent) :=
  [("CAND1/20200101-000000-IST/metadata.json", JsonText metadata2020);
   ("CAND1/20200101-000000-IST/candidate_profile.json",
    JsonText (profileOf "Asha Rao" "Pune" 2));
   ("CAND1/20200101-000000-IST/transcript.txt", PlainText "first");
   ("CAND1/20220101-000000-IST/metadata.json", JsonText metadata2022);
   ("CAND1/20220101-000000-IST/candidate_profile.json",
    JsonText (profileOf "Asha R." "Mumbai" 4));
   ("CAND1/20220101-000000-IST/transcript.txt", PlainText "second");
   ("CAND1/20240101-000000-IST/metadata.json", JsonText metadata2024);
   ("CAND1/20240101-000000-IST/candidate_profile.json",
    JsonText (profileOf "Asha Rao-Iyer" "Delhi" 6));
   ("CAND1/20240101-000000-IST/transcript.txt", PlainText "third");
   ("CAND2/20230601-120000-IST/metadata.json", PlainText "{ candidateId: CAND2, processed");
   ("CAND2/20230601-120000-IST/candidate_profile.json",
    JsonText (profileOf "Vikram" "Chennai" 9));
   ("CAND2/20230601-120000-IST/transcript.txt", PlainText "cut off");
   ("CAND2/20230701-120000-IST/metadata.json", JsonText metadata2023);
   ("CAND2/20230701-120000-IST/candidate_profile.json",
    JsonText (profileOf "Vikram" "Chennai" 9));
   ("CAND2/20230701-120000-IST/transcript.txt", PlainText "intact")].

Definition sampleDisk : FsState :=
  {| dirs :=
       list_to_map
         [("candidate-data",
           [Dirent.mk "CAND1" true; Dirent.mk "CAND2" true;
            Dirent.mk "README.md" false]);
          ("candidate-data/CAND1",
           [Dirent.mk "20200101-000000-IST" true;
            Dirent.mk "20220101-000000-IST" true;
            Dirent.mk "20240101-000000-IST" true]);
          ("candidate-data/CAND2",
           [Dirent.mk "20230601-120000-IST" true;
            Dirent.mk "20230701-120000-IST" true]);
          ("candidate-data/CAND1/20200101-000000-IST", sessionEntries);
          ("candidate-data/CAND1/20220101-000000-IST", sessionEntries);
          ("candidate-data/CAND1/20240101-000000-IST", sessionEntries);
          ("candidate-data/CAND2/20230601-120000-IST", sessionEntries);
          ("candidate-data/CAND2/20230701-120000-IST", sessionEntries)];
     fileData :=
       list_to_map
         (map (fun kv => ("candidate-data/" +:+ fst kv, snd kv)) sampleFiles) |}.

Definition sampleBucket : gmap string S3Object :=
  list_to_map
    (map (fun kv => ("candidate-data/" +:+ fst kv,
                     mkS3Object (snd kv) "application/octet-stream"))
         sampleFiles).

(** The sample store with the JSON literal [null] in the place of the
    metadata document of the first session of [CAND2], and with it in the
    place of the profile document of that session. *)
Definition nullDocument : string -> string :=
  fun name => "candidate-data/CAND2/20230601-120000-IST/" +:+ name.

Definition nullMetadataDisk : FsState :=
  {| dirs := dirs sampleDisk;
     fileData :=
       <[nullDocument "metadata.json" := JsonText JNull]> (fileData sampleDisk) |}.

Definition nullMetadataBucket : gmap string S3Object :=
  <[nullDocument "metadata.json" := mkS3Object (JsonText JNull) "application/json"]>
    sampleBucket.

Definition nullProfileDisk : FsState :=
  {| dirs := dirs sampleDisk;
     fileData :=
       <[nullDocument "metadata.json" := JsonText metadata2023]>
         (<[nullDocument "candidate_profile.json" := JsonText JNull]>
            (fileData sampleDisk)) |}.

(** The sample bucket with a profile object that is cut off, next to the
    metadata object that is cut off, in the first session of [CAND2]. *)
Definition cutOffBucket : gmap string S3Object :=
  <[nullDocument "candidate_profile.json"
    := mkS3Object (PlainText "{ candidate_name: Vik") "application/json"]>
    sampleBucket.

(** The effect of a write that does not reject, on each backend. *)
Definition fsUpd (dir : string) (w : Write) (st : FsState) : FsState :=
  {| dirs :=
       <[dir := addEntry (Dirent.mk (w_name w) false)
                  (default [] (dirs st !! dir))]> (dirs st);
     fileData := <[path_join dir (w_name w) := w_data w]> (fileData st) |}.

Definition s3Upd (baseKey : string) (w : Write) (bk : gmap string S3Object)
  : gmap string S3Object :=
  <[path_join baseKey (w_name w) := mkS3Object (w_data w) (w_type w)]> bk.

(** The body of the object at a key. *)
Definition bodyAt (bk : gmap string S3Object) (key : string)
  : option FileContent :=
  body <$> (bk !! key).

(** ** The writes of one call *)

(** Where the artifacts of a session go: the session folder, or the key
    prefix of the session. *)
Definition sessionBase (cfg : Config) (candidateId sessionId : string)
  : string :=
  if String.eqb (cfg_storageType cfg) "filesystem"
  then sessionPathOf cfg candidateId sessionId
  else baseKeyOf cfg candidateId sessionId.

(** The writes a call on the filesystem starts: the three documents, and the
    copy of the upload when there is one and it can be read. *)
Definition fsStarted (st : FsState) (sessionId : string)
  (transcript profile metadata : jsval) (audioFile : option UploadedFile)
  : list Write :=
  docWrites transcript profile metadata
  ++ match audioFile with
     | Some file =>
         match fileData st !! path file with
         | Some data =>
             [mkWrite (audioFilename sessionId (originalname file)) data ""]
         | None => []
         end
     | None => []
     end.

(** The uploads a call on the object store starts: the three documents and,
    when none of them ends the process and the upload can be read (or there
    is no upload), the audio and the generated reports. [rejected] tells
    which uploads are rejected. *)
Definition s3Started (rejected : Write -> option error)
  (localRead : string -> result FileContent)
  (sessionId : string) (transcript profile metadata : jsval)
  (generatedFiles : option GeneratedFiles) (audioFile : option UploadedFile)
  : list Write :=
  docWrites transcript profile metadata
  ++ match audioFile with
     | Some file =>
         match firstError (map rejected (docWrites transcript profile metadata))
         with
         | Some _ => []
         | None =>
             match localRead (path file) with
             | Ok audioBuffer =>
                 audioWrite sessionId file audioBuffer
                 :: generatedWrites generatedFiles
             | Throw _ => []
             end
         end
     | None => generatedWrites generatedFiles
     end.

(** Whether a write of a call below [base] is rejected on the configured
    backend. *)
Definition rejectedBy (faults : Faults) (cfg : Config) (base : string)
  (w : Write) : option error :=
  if String.eqb (cfg_storageType cfg) "filesystem"
  then fsRejects faults base w
  else s3Rejects faults base w.

Definition startedWrites (faults : Faults) (cfg : Config) (w : World)
  (candidateId sessionId : string) (transcript profile metadata : jsval)
  (generatedFiles : option GeneratedFiles) (audioFile : option UploadedFile)
  : list Write :=
  if String.eqb (cfg_storageType cfg) "filesystem"
  then fsStarted (disk w) sessionId transcript profile metadata audioFile
  else s3Started (s3Rejects faults (baseKeyOf cfg candidateId sessionId))
         (readFile (fsOf (disk w))) sessionId transcript profile
         metadata generatedFiles audioFile.

(** What the configured backend holds at a path or key. *)
Definition contentAt (cfg : Config) (w : World) (loc : string)
  : option FileContent :=
  if String.eqb (cfg_storageType cfg) "filesystem"
  then fileData (disk w) !! loc
  else bodyAt (objects w) loc.


(** ** Sample calls *)

(** India Standard Time, the default zone of [load-config.js]: five and a
    half hours ahead of UTC throughout. *)
Definition istOffset (secs : Z) : Z := 19800.

(** A disk that holds two uploads and no candidate data yet. *)
Definition uploadsDisk : FsState :=
  {| dirs := list_to_map [("uploads", [Dirent.mk "1704067200100-1.mp3" false;
                                       Dirent.mk "1704067200900-2.mp3" false])];
     fileData := list_to_map [("uploads/1704067200100-1.mp3", Bytes "first take");
                              ("uploads/1704067200900-2.mp3", Bytes "second take")] |}.

Definition uploadsWorld : World := mkWorld uploadsDisk emptyBucket.

Definition firstUpload : UploadedFile :=
  {| originalname := "take.mp3"; mimetype := "audio/mpeg";
     path := "uploads/1704067200100-1.mp3"; size := 10 |}.
Definition secondUpload : UploadedFile :=
  {| originalname := "take.mpeg"; mimetype := "audio/mpeg";
     path := "uploads/1704067200900-2.mp3"; size := 11 |}.

(** The disk is full when the metadata document is written. *)
Definition metadataFault : Faults :=
  fun p =>
    if String.eqb p "candidate-data/CAND1/20240101-053000-IST/metadata.json"
    then Some (SysError "ENOSPC") else None.

(** Two calls for [CAND1] within the second 2024-01-01 05:30:00 IST. *)
Definition firstCall : World * Ending StorageResult :=
  saveCandidateData istOffset noFaults fsConfig 1704067200100 uploadsWorld
    "CAND1" (JStr "first transcript") (profileOf "Asha Rao" "Pune" 2)
    (JObj [("candidateId", JStr "CAND1")]) None (Some firstUpload).
Definition secondCall : World * Ending StorageResult :=
  saveCandidateData istOffset noFaults fsConfig 1704067200900 (fst firstCall)
    "CAND1" (JStr "second transcript") (profileOf "Asha Rao" "Pune" 3)
    (JObj [("candidateId", JStr "CAND1")]) None (Some secondUpload).

(** ** Replacement *)

(** What a call hands to the store for each kind of artifact, if it writes
    that kind: the audio is what lies at the upload's path, the reports are
    written by [saveCandidateData] on the object store only. *)
Definition writtenData (cfg : Config) (w : World)
  (transcript profile metadata : jsval)
  (generatedFiles : option GeneratedFiles) (audioFile : option UploadedFile)
  (kind : ArtifactKind) : option FileContent :=
  match kind with
  | Transcript => Some (dataOf transcript)
  | Profile => Some (JSON_stringify profile)
  | Metadata => Some (JSON_stringify metadata)
  | Audio =>
      match audioFile with
      | Some file => fileData (disk w) !! path file
      | None => None
      end
  | Html =>
      if String.eqb (cfg_storageType cfg) "filesystem" then None
      else match generatedFiles with
           | Some g => match gf_html g with Some f => gf_buffer f | None => None end
           | None => None
           end
  | Pdf =>
      if String.eqb (cfg_storageType cfg) "filesystem" then None
      else match generatedFiles with
           | Some g => match gf_pdf g with Some f => gf_buffer f | None => None end
           | None => None
           end
  end.

(** The artifact of kind [kind] that the first call stored (at the locator
    its result names) is, after the second call, what the second call wrote
    for that kind. *)
Definition replacedAt (cfg : Config) (first : StorageResult) (after : World)
  (second : ArtifactKind -> option FileContent) (kind : ArtifactKind) : Prop :=
  forall loc data,
    Slots.get kind (sr_locators first) = Some loc ->
    second kind = Some data ->
    contentAt cfg after loc = Some data.

(** The names of the reports a call uploads: none on the filesystem. *)
Definition reportNames (cfg : Config) (generatedFiles : option GeneratedFiles)
  : list string :=
  if String.eqb (cfg_storageType cfg) "filesystem" then []
  else map w_name (generatedWrites generatedFiles).

(** What the two sample calls resolve to, and what the second one writes. *)
Definition sampleSession : string := "20240101-053000-IST".
Definition sampleFolder : string := "candidate-data/CAND1/20240101-053000-IST".

Definition resultWithAudio (audioName : string) : StorageResult :=
  {| sr_storageType := "filesystem"; sr_candidateId := "CAND1";
     sr_sessionId := sampleSession;
     sr_locators :=
       Slots.set Audio (path_join sampleFolder audioName)
         (docLocators sampleFolder);
     sr_folder := Some sampleFolder; sr_bucket := None |}.

Definition firstResult : StorageResult :=
  resultWithAudio "audio_20240101-053000-IST.mp3".
Definition secondResult : StorageResult :=
  resultWithAudio "audio_20240101-053000-IST.mpeg".

Definition secondData : ArtifactKind -> option FileContent :=
  writtenData fsConfig (fst firstCall) (JStr "second transcript")
    (profileOf "Asha Rao" "Pune" 3) (JObj [("candidateId", JStr "CAND1")])
    None (Some secondUpload).

(** What [path.extname] keeps track of while it walks down to index [n]:
    no slash lies between [n] and the end it has found, and the dot it has
    found lies in between. *)
Definition extInvariant (path : string) (n : nat) (st : ExtState) : Prop :=
  (matchedSlash st = true -> endIdx st = -1)
  /\ (endIdx st = -1 -> startDot st = -1)
  /\ (endIdx st <> -1 ->
      Z.of_nat n <= endIdx st
      /\ forall j, (n <= j)%nat -> Z.of_nat j < endIdx st ->
                   String.get j path <> Some "/"%char)
  /\ (startDot st <> -1 -> Z.of_nat n <= startDot st < endIdx st).

Definition extFinal (path : string) (st : ExtState) : Prop :=
  startDot st <> -1 -> endIdx st <> -1 ->
  0 <= startDot st < endIdx st
  /\ forall j, startDot st <= Z.of_nat j < endIdx st ->
               String.get j path <> Some "/"%char.


(** ** What the further statements measure *)

(** A session with a creation date that the engine's [Date] can read. *)
Definition dated (newDate : jsval -> option Z) (r : SessionRecord) : Prop :=
  truthy (createdAt r) = true /\ is_Some (newDate (createdAt r)).

(** The time value of a session's creation date. *)
Definition timeOf (newDate : jsval -> option Z) (r : SessionRecord) : Z :=
  default 0 (newDate (createdAt r)).

(** The last name of a listing that the classification takes for [kind]. *)
Definition lastOfKind (kind : ArtifactKind) (names : list string)
  : option string :=
  last (filter (fun file => classify file = Some kind) names).

(** The link the filesystem listing gives a file of a session. *)
Definition fileLink (candidateId sessionId file : string) : string :=
  "/files/"
  +:+ path_join (path_join (path_join "candidate-data" candidateId) sessionId)
        file.

(** A candidate with two sessions, the older one listed first. *)
Definition twoSessionsDisk : FsState :=
  {| dirs :=
       list_to_map
         [("candidate-data", [Dirent.mk "CAND1" true]);
          ("candidate-data/CAND1",
           [Dirent.mk "20200101-000000-IST" true;
            Dirent.mk "20240101-000000-IST" true]);
          ("candidate-data/CAND1/20200101-000000-IST", sessionEntries);
          ("candidate-data/CAND1/20240101-000000-IST", sessionEntries)];
     fileData :=
       list_to_map
         [("candidate-data/CAND1/20200101-000000-IST/metadata.json",
           JsonText metadata2020);
          ("candidate-data/CAND1/20200101-000000-IST/candidate_profile.json",
           JsonText (profileOf "Asha Rao" "Pune" 2));
          ("candidate-data/CAND1/20240101-000000-IST/metadata.json",
           JsonText metadata2024);
          ("candidate-data/CAND1/20240101-000000-IST/candidate_profile.json",
           JsonText (profileOf "Asha Rao-Iyer" "Delhi" 6))] |}.
(** ** The configuration loader ([load-config.js]) *)

(** [process.env] is a map from names to strings ([gmap string string]
    below): a variable is set to a string, or is not set. *)


(** [process.env.K] *)
Definition envGet (env : gmap string string) (k : string) : jsval :=
  match env !! k with Some v => JStr v | None => JUndefined end.

(** [process.env.K || fallback]: an empty string is falsy too. *)
Definition envOr (env : gmap string string) (k fallback : string) : string :=
  match env !! k with
  | Some v => if String.eqb v "" then fallback else v
  | None => fallback
  end.

(** [dotenv.config({ path })]: the variables of the file that the
    environment does not have yet are added to it; the ones it has keep
    their value. A file that cannot be read ([None]) is reported in
    [result.error], which [loadConfig] only logs. *)
Definition dotenv_config (file : option (gmap string string))
  (env : gmap string string) : gmap string string :=
  match file with Some parsed => env ∪ parsed | None => env end.

(** *** [parseInt] without radix, on ASCII input: white space is skipped,
    then a sign, then [0x] selects base sixteen, and the longest run of
    digits is read; no digit gives [NaN] ([None]). The result is exact
    here, the engine's is as long as it stays below 2^53. *)
Definition isSpace (c : ascii) : bool :=
  let n := nat_of_ascii c in
  (((9 <=? n) && (n <=? 13)) || (n =? 32))%nat.

Fixpoint skipSpaces (s : string) : string :=
  match s with
  | String c rest => if isSpace c then skipSpaces rest else s
  | EmptyString => EmptyString
  end.

Definition digitOf (radix : Z) (c : ascii) : option Z :=
  let n := Z.of_nat (nat_of_ascii c) in
  let d :=
    if (48 <=? n) && (n <=? 57) then Some (n - 48)
    else if (97 <=? n) && (n <=? 122) then Some (n - 87)
    else if (65 <=? n) && (n <=? 90) then Some (n - 55)
    else None in
  match d with
  | Some v => if v <? radix then Some v else None
  | None => None
  end.

Fixpoint digitsPrefix (radix : Z) (acc : option Z) (s : string) : option Z :=
  match s with
  | EmptyString => acc
  | String c rest =>
      match digitOf radix c with
      | Some d => digitsPrefix radix (Some (default 0 acc * radix + d)) rest
      | None => acc
      end
  end.

Definition parseIntString (s : string) : option Z :=
  let s1 := skipSpaces s in
  let '(sign, s2) :=
    match s1 with
    | String "-" rest => (-1, rest)
    | String "+" rest => (1, rest)
    | _ => (1, s1)
    end in
  let '(radix, s3) :=
    match s2 with
    | String "0" (String "x" rest) => (16, rest)
    | String "0" (String "X" rest) => (16, rest)
    | _ => (10, s2)
    end in
  Z.mul sign <$> digitsPrefix radix None s3.

(** [parseInt(process.env.K)]: the variable is a string or [undefined],
    which reads as [NaN]. *)
Definition parseInt (v : jsval) : option Z :=
  match v with
  | JStr s => parseIntString s
  | JNum z => Some z
  | _ => None
  end.

(** [n || fallback] for a number: [NaN] and zero are falsy. *)
Definition numOr (n : option Z) (fallback : Z) : Z :=
  match n with
  | Some z => if z =? 0 then fallback else z
  | None => fallback
  end.

(** [s.split(sep)] for a separator of one character. *)
Fixpoint split (sep : ascii) (s : string) : list string :=
  match s with
  | EmptyString => [EmptyString]
  | String c rest =>
      if Ascii.eqb c sep then EmptyString :: split sep rest
      else match split sep rest with
           | h :: t => String c h :: t
           | [] => [String c EmptyString]
           end
  end.

(** A name that [path.join] leaves as it is when it normalises the joined
    path: one segment, neither empty nor [.] nor [..]. *)
Definition plainSegment (s : string) : bool :=
  negb (String.eqb s "") && negb (String.eqb s ".") && negb (String.eqb s "..")
  && negb (hasSlash s).

(** A relative path that [path.join] leaves as it is: all its segments are
    plain. For such a directory and a plain name, [path.join] is
    [path_join]. *)
Definition plainPath (p : string) : bool :=
  forallb plainSegment (split "/" p).

(** [buildStorageConfig] *)
Definition buildStorageConfig (env : gmap string string) : jsval :=
  let storageType := envOr env "STORAGE_TYPE" "filesystem" in
  if String.eqb storageType "s3" then
    JObj [("bucketName", envGet env "S3_BUCKET_NAME");
          ("region", JStr (envOr env "S3_REGION" "us-east-1"));
          ("accessKeyId", envGet env "S3_ACCESS_KEY_ID");
          ("secretAccessKey", envGet env "S3_SECRET_ACCESS_KEY");
          ("candidateDataPrefix",
           JStr (envOr env "S3_CANDIDATE_DATA_PREFIX" "candidate-data"));
          ("processedDataPrefix",
           JStr (envOr env "S3_PROCESSED_DATA_PREFIX" "processed-data"))]
  else
    JObj [("candidateDataPath",
           JStr (envOr env "CANDIDATE_DATA_PATH" "candidate-data"));
          ("processedDataPath",
           JStr (envOr env "PROCESSED_DATA_PATH" "processed-data"))].

(** [getNestedValue]:
    [path.split('.').reduce((current, key) => current?.[key], obj)] *)
Definition getNestedValue (obj : jsval) (path : string) : result jsval :=
  forOf (fun current key => getPropOpt current key) (split "." path) obj.

(** [value === undefined || value === null || value === ''] *)
Definition isMissing (value : jsval) : bool :=
  match value with
  | JUndefined | JNull => true
  | JStr s => String.eqb s ""
  | _ => false
  end.

(** One of the three loops of [validateConfig]: the first path without a
    value is reported. *)
Definition requireAll (complaint : string) (config : jsval)
  (required : list string) : result unit :=
  forOf (fun _ path =>
           value <- getNestedValue config path ;;
           if isMissing value then Throw (Error (complaint +:+ path))
           else Ok tt)
        required tt.

(** [v === s] for a string literal [s]. *)
Definition isString (v : jsval) (s : string) : bool :=
  match v with JStr t => String.eqb t s | _ => false end.

(** [validateConfig] *)
Definition validateConfig (config : jsval) : result unit :=
  _ <- requireAll "Missing required configuration: " config
         ["server.port"; "storage.type"; "openai.apiKey"; "timezone"] ;;
  storage <- getProp config "storage" ;;
  type <- getProp storage "type" ;;
  if isString type "s3" then
    requireAll "Missing required S3 configuration: " config
      ["storage.config.bucketName"; "storage.config.region";
       "storage.config.accessKeyId"; "storage.config.secretAccessKey"]
  else if isString type "filesystem" then
    requireAll "Missing required filesystem configuration: " config
      ["storage.config.candidateDataPath"; "storage.config.processedDataPath"]
  else Ok tt.

(** The environment [loadConfig] works with: [process.env] once the file
    [.env.<NODE_ENV>] is loaded into it. [envFiles] gives the variables of
    a file of the working directory, if it can be read. *)
Definition loadEnv (envFiles : string -> option (gmap string string))
  (processEnv : gmap string string) : gmap string string :=
  let environment := envOr processEnv "NODE_ENV" "localhost" in
  let envFile := ".env." +:+ environment in
  dotenv_config (envFiles envFile) processEnv.

(** The configuration object built from the environment. *)
Definition configOf (env : gmap string string) : jsval :=
  JObj [("environment", JStr (envOr env "NODE_ENV" "localhost"));
        ("server",
         JObj [("port", JNum (numOr (parseInt (envGet env "PORT")) 3000));
               ("host", JStr (envOr env "HOST" "localhost"))]);
        ("storage",
         JObj [("type", JStr (envOr env "STORAGE_TYPE" "filesystem"));
               ("config", buildStorageConfig env)]);
        ("openai",
         JObj [("apiKey", envGet env "OPENAI_API_KEY");
               ("transcriptionModel",
                JStr (envOr env "OPENAI_TRANSCRIPTION_MODEL" "gpt-4o-transcribe"));
               ("extractionModel",
                JStr (envOr env "OPENAI_EXTRACTION_MODEL" "gpt-5"))]);
        ("timezone", JStr (envOr env "TIMEZONE" "Asia/Kolkata"));
        ("logging",
         JObj [("level", JStr (envOr env "LOG_LEVEL" "info"));
               ("enableConsole",
                JBool (bool_decide (env !! "LOG_ENABLE_CONSOLE" = Some "true")))])].

(** [loadConfig] *)
Definition loadConfig (envFiles : string -> option (gmap string string))
  (processEnv : gmap string string) : result jsval :=
  let config := configOf (loadEnv envFiles processEnv) in
  _ <- validateConfig config ;;
  Ok config.

(** [getCurrentEnvironment] and [isEnvironment] *)
Definition getCurrentEnvironment (processEnv : gmap string string) : string :=
  envOr processEnv "NODE_ENV" "localhost".
Definition isEnvironment (processEnv : gmap string string)
  (environment : string) : bool :=
  String.eqb (getCurrentEnvironment processEnv) environment.

(** What the storage manager keeps of a configuration: [storageType] and the
    fields of [storageConfig] it reads. A field the configuration does not
    have is [undefined], written out as a template literal writes it. *)
Definition textOf (v : jsval) : string :=
  match v with JStr s => s | _ => "undefined" end.

Definition storageManagerConfig (config : jsval) : result Config :=
  storage <- getProp config "storage" ;;
  type <- getProp storage "type" ;;
  storageConfig <- getProp storage "config" ;;
  candidateDataPath <- getProp storageConfig "candidateDataPath" ;;
  bucketName <- getProp storageConfig "bucketName" ;;
  region <- getProp storageConfig "region" ;;
  candidateDataPrefix <- getProp storageConfig "candidateDataPrefix" ;;
  Ok {| cfg_storageType := textOf type;
        candidateDataPath := textOf candidateDataPath;
        bucketName := textOf bucketName;
        region := textOf region;
        candidateDataPrefix := textOf candidateDataPrefix |}.

(** Sample environments. *)
Definition noEnvFiles : string -> option (gmap string string) := fun _ => None.
Definition keyOnlyEnvironment : gmap string string :=
  {[ "OPENAI_API_KEY" := "sk-test" ]}.
Definition s3Environment : gmap string string :=
  list_to_map [("OPENAI_API_KEY", "sk-test"); ("STORAGE_TYPE", "s3");
               ("S3_BUCKET_NAME", "screener"); ("S3_ACCESS_KEY_ID", "AKIA");
               ("S3_SECRET_ACCESS_KEY", "secret")].
Definition gcsEnvironment : gmap string string :=
  list_to_map [("OPENAI_API_KEY", "sk-test"); ("STORAGE_TYPE", "gcs")].
(** ** The dialogue formatter ([audioUtils.js]) *)

(** [s.trim()] on ASCII white space. *)
Fixpoint trimEnd (s : string) : string :=
  match s with
  | EmptyString => EmptyString
  | String c rest =>
      let kept := trimEnd rest in
      if isSpace c && String.eqb kept "" then EmptyString else String c kept
  end.

Definition trim (s : string) : string := trimEnd (skipSpaces s).

(** [v[i]] *)
Definition getIndex (v : jsval) (i : nat) : result jsval :=
  match v with
  | JUndefined | JNull =>
      Throw (TypeError "Cannot read properties of null or undefined")
  | JArr items => Ok (nth i items JUndefined)
  | JStr s =>
      Ok (match String.get i s with
          | Some c => JStr (String c EmptyString)
          | None => JUndefined
          end)
  | _ => Ok JUndefined
  end.

(** [content.trim()] *)
Definition js_trim (content : jsval) : result string :=
  match content with
  | JStr s => Ok (trim s)
  | JUndefined | JNull =>
      Throw (TypeError "Cannot read properties of null or undefined (reading 'trim')")
  | _ => Throw (TypeError "content.trim is not a function")
  end.

(** A line feed, and a double quote. *)
Definition LF : string := String (ascii_of_nat 10) EmptyString.
Definition quote : string := String (ascii_of_nat 34) EmptyString.

(** The text [formatTranscriptToDialogue] falls back to. *)
Definition rawWithNote (rawTranscript : string) : string :=
  "[Note: Dialogue formatting failed, showing raw transcript]" +:+ LF +:+ LF
  +:+ rawTranscript.

(** [formatTranscriptToDialogue]. [completion] is what
    [client.chat.completions.create] answers to the two messages built from
    the raw transcript. *)
Definition formatTranscriptToDialogue (completion : string -> result jsval)
  (rawTranscript : string) : result string :=
  try_catch
    (response <- completion rawTranscript ;;
     choices <- getProp response "choices" ;;
     first <- getIndex choices 0 ;;
     message <- getProp first "message" ;;
     content <- getProp message "content" ;;
     js_trim content)
    (fun _ => Ok (rawWithNote rawTranscript)).

(** ** The local disk, once more: removing a file *)

(** [error.message]. The message of a system error is cut down to its
    code. *)
Definition messageOf (e : error) : string :=
  match e with
  | SysError code => code
  | TypeError msg | SyntaxError msg | Error msg => msg
  end.

(** [fs.existsSync(p)] *)
Definition existsSync (st : FsState) (p : string) : bool :=
  bool_decide (is_Some (fileData st !! p)) || bool_decide (is_Some (dirs st !! p)).

(** [path.dirname(p)] for a path without trailing slash. *)
Definition dirname (p : string) : string :=
  if hasSlash p
  then String.substring 0 (String.length p - String.length (lastSegment p) - 1) p
  else ".".

(** [fs.unlinkSync(p)]: the file is taken off the disk and out of the
    listing of its directory; what is not a file cannot be unlinked. *)
Definition unlinkSync (faults : Faults) (p : string) (st : FsState)
  : FsState * option error :=
  match faults p with
  | Some e => (st, Some e)
  | None =>
      match fileData st !! p with
      | None =>
          (st, Some (SysError (if bool_decide (is_Some (dirs st !! p))
                               then "EPERM" else "ENOENT")))
      | Some _ =>
          ({| dirs :=
                match dirs st !! dirname p with
                | Some entries =>
                    <[dirname p :=
                        filter (fun d => Dirent.name d <> lastSegment p) entries]>
                      (dirs st)
                | None => dirs st
                end;
              fileData := delete p (fileData st) |},
           None)
      end
  end.

(** [if (fs.existsSync(p)) { fs.unlinkSync(p); }] *)
Definition removeIfExists (faults : Faults) (p : string) (st : FsState)
  : FsState * option error :=
  if existsSync st p then unlinkSync faults p st else (st, None).

(** ** The report generator ([pdfUtils.js]) *)

Section ReportGenerator.
Variable zoneOffset : Z -> Z.
Variable faults : Faults.
(** [generateHTML]: the page for a profile and its metadata, made when the
    clock reads the third argument. It is a template of the profile's
    fields and is not spelled out here; reading a field of a profile that
    is [null] makes it throw. *)
Variable generateHTML : jsval -> jsval -> Z -> result string.
(** The browser: launching it, loading the page and printing it give the
    bytes of the PDF, closing it ends the session. *)
Variable renderPdf : string -> result FileContent.
Variable closeBrowser : result unit.

(** [throw new Error(`PDF generation failed: ${error.message}`)] *)
Definition pdfFailure (e : error) : error :=
  Error ("PDF generation failed: " +:+ messageOf e).

(** [generateCandidatePDF(candidateProfile, metadata, outputDir)], called
    when the clock reads [now]: with an output directory the two reports
    are written into it, without one they are returned as buffers. *)
Definition generateCandidatePDF (candidateProfile metadata : jsval)
  (outputDir : option string) (now : Z) (st : FsState)
  : FsState * result GeneratedFiles :=
  match (htmlContent <- generateHTML candidateProfile metadata now ;;
         stem <- candidateName candidateProfile ;;
         Ok (htmlContent, stem)) with
  | Throw e => (st, Throw (pdfFailure e))
  | Ok (htmlContent, stem) =>
      let timestamp := generateTimestamp zoneOffset now in
      let htmlName := htmlFilename stem timestamp in
      let pdfName := pdfFilename stem timestamp in
      match outputDir with
      | Some dir =>
          let '(st1, written) :=
            fsWrite faults dir (mkWrite htmlName (PlainText htmlContent) "text/html")
              st in
          match written with
          | Some e => (st1, Throw (pdfFailure e))
          | None =>
              match renderPdf htmlContent with
              | Throw e => (st1, Throw (pdfFailure e))
              | Ok pdf =>
                  let '(st2, printed) :=
                    fsWrite faults dir (mkWrite pdfName pdf "application/pdf") st1 in
                  match printed with
                  | Some e => (st2, Throw (pdfFailure e))
                  | None =>
                      match closeBrowser with
                      | Throw e => (st2, Throw (pdfFailure e))
                      | Ok _ =>
                          (st2,
                           Ok {| gf_html :=
                                   Some (mkGeneratedFile htmlName
                                           (Some (path_join dir htmlName)) None);
                                 gf_pdf :=
                                   Some (mkGeneratedFile pdfName
                                           (Some (path_join dir pdfName)) None) |})
                      end
                  end
              end
          end
      | None =>
          match (pdf <- renderPdf htmlContent ;; _ <- closeBrowser ;; Ok pdf) with
          | Throw e => (st, Throw (pdfFailure e))
          | Ok pdf =>
              (st,
               Ok {| gf_html :=
                       Some (mkGeneratedFile htmlName None
                               (Some (PlainText htmlContent)));
                     gf_pdf := Some (mkGeneratedFile pdfName None (Some pdf)) |})
          end
      end
  end.
End ReportGenerator.

(** ** The controllers ([audioController.js]) *)

(** What a handler answers: the status and the body. *)
Inductive Body : Type :=
| ErrorBody (title message : string)
| FailureBody (title : string) (cause : error)
| ProcessedBody (data : jsval) (storage : StorageResult) (summary : jsval)
| CandidatesBody (candidateCount : nat) (candidates : list CandidateInfo.t)
    (storageType : string)
| SessionsBody (candidateId : string) (sessionsCount : nat)
    (sessions : list SessionRecord) (storageType : string)
| FileBody (contentType filename : string) (content : FileContent)
| HealthBody.

Record Response : Type := mkResponse {
  res_status : Z;
  res_body : Body
}.

(** [{ ...obj, k: v }] *)
Fixpoint setKey (k : string) (v : jsval) (props : list (string * jsval))
  : list (string * jsval) :=
  match props with
  | [] => [(k, v)]
  | (k', v') :: rest =>
      if String.eqb k k' then (k, v) :: rest else (k', v') :: setKey k v rest
  end.

Definition withKey (k : string) (v : jsval) (obj : jsval) : jsval :=
  match obj with
  | JObj props => JObj (setKey k v props)
  | _ => JObj [(k, v)]
  end.

(** A route parameter that is there and not empty. *)
Definition given (param : option string) : option string :=
  match param with
  | Some s => if String.eqb s "" then None else Some s
  | None => None
  end.

Section Controllers.
Variable zoneOffset : Z -> Z.
Variable newDate : jsval -> option Z.
Variable faults : Faults.
Variable cfg : Config.
Variable environment : string.
(** The calls to the language model: [transcribe], the completion
    [formatTranscriptToDialogue] asks for, and [extractProfile]. *)
Variable transcribe : string -> result string.
Variable formatCompletion : string -> result jsval.
Variable extractProfile : string -> result jsval.
Variable generateHTML : jsval -> jsval -> Z -> result string.
Variable renderPdf : string -> result FileContent.
Variable closeBrowser : result unit.

(** The block "Generate PDF and HTML files after storage is set up" of
    [processAudio]: whatever it throws is logged, and the request goes on
    with the storage result as far as it was updated. *)
Definition generateReports (candidateId : string) (profile metadata : jsval)
  (storageResult : StorageResult) (now : Z) (w : World)
  : World * StorageResult :=
  let pdfMetadata :=
    withKey "sessionId" (JStr (sr_sessionId storageResult))
      (withKey "candidateId" (JStr candidateId) metadata) in
  if String.eqb (cfg_storageType cfg) "filesystem" then
    let '(st, generated) :=
      generateCandidatePDF zoneOffset faults generateHTML renderPdf closeBrowser
        profile pdfMetadata (sr_folder storageResult) now (disk w) in
    match generated with
    | Ok g =>
        (mkWorld st (objects w),
         {| sr_storageType := sr_storageType storageResult;
            sr_candidateId := sr_candidateId storageResult;
            sr_sessionId := sr_sessionId storageResult;
            sr_locators :=
              setOpt Pdf (gf_pdf g ≫= gf_path)
                (setOpt Html (gf_html g ≫= gf_path) (sr_locators storageResult));
            sr_folder := sr_folder storageResult;
            sr_bucket := sr_bucket storageResult |})
    | Throw _ => (mkWorld st (objects w), storageResult)
    end
  else
    let '(st, generated) :=
      generateCandidatePDF zoneOffset faults generateHTML renderPdf closeBrowser
        profile pdfMetadata None now (disk w) in
    match generated with
    | Throw _ => (mkWorld st (objects w), storageResult)
    | Ok g =>
        let baseKey :=
          path_join (path_join (candidateDataPrefix cfg) candidateId)
            (sr_sessionId storageResult) in
        let upload (type : string) (kind : ArtifactKind)
              (file : option GeneratedFile)
              (acc : gmap string S3Object * StorageResult)
          : (gmap string S3Object * StorageResult) * option error :=
          match file with
          | Some f =>
              match gf_buffer f with
              | Some buffer =>
                  let key := path_join baseKey (gf_filename f) in
                  let '(bk, r) := uploadToS3 faults cfg key buffer type (fst acc) in
                  match r with
                  | Throw e => ((bk, snd acc), Some e)
                  | Ok _ =>
                      ((bk,
                        {| sr_storageType := sr_storageType (snd acc);
                           sr_candidateId := sr_candidateId (snd acc);
                           sr_sessionId := sr_sessionId (snd acc);
                           sr_locators := Slots.set kind key (sr_locators (snd acc));
                           sr_folder := sr_folder (snd acc);
                           sr_bucket := sr_bucket (snd acc) |}),
                       None)
                  end
              | None => (acc, None)
              end
          | None => (acc, None)
          end in
        let '(acc1, r1) :=
          upload "text/html" Html (gf_html g) (objects w, storageResult) in
        match r1 with
        | Some _ => (mkWorld st (fst acc1), snd acc1)
        | None =>
            let '(acc2, _) := upload "application/pdf" Pdf (gf_pdf g) acc1 in
            (mkWorld st (fst acc2), snd acc2)
        end
    end.

(** The [metadata] of the answer of [processAudio]. *)
Definition processedSummary (candidateId : string) (file : UploadedFile)
  (rawTranscript formattedDialogue : string) (metadata : jsval) : jsval :=
  JObj [("candidateId", JStr candidateId);
        ("original_filename", JStr (originalname file));
        ("raw_transcript_length", JNum (Z.of_nat (String.length rawTranscript)));
        ("formatted_dialogue_length",
         JNum (Z.of_nat (String.length formattedDialogue)));
        ("dialogue_formatted", JBool true);
        ("processed_at",
         match getProp metadata "processedAt" with Ok v => v | Throw _ => JUndefined end);
        ("storage_type", JStr (cfg_storageType cfg))].

(** The [try] block of [processAudio]: the state it leaves, and the answer
    or what it throws, unless the process ends while the session is
    stored. The clock is read for the metadata ([now]), by the storage
    manager ([now']) and by the report generator ([now'']). *)
Definition processAudioTry (candidateId : string) (file : UploadedFile)
  (now now' now'' : Z) (w : World) : World * Ending Response :=
  match (rawTranscript <- transcribe (path file) ;;
         formattedDialogue <-
           formatTranscriptToDialogue formatCompletion rawTranscript ;;
         profile <- extractProfile rawTranscript ;;
         Ok (rawTranscript, formattedDialogue, profile)) with
  | Throw e => (w, Returns (Throw e))
  | Ok (rawTranscript, formattedDialogue, profile) =>
      let metadata :=
        processAudioMetadata cfg environment candidateId file now rawTranscript
          formattedDialogue in
      let '(w1, saved) :=
        processAudioSave zoneOffset faults cfg environment now now' w candidateId
          file rawTranscript formattedDialogue profile in
      match saved with
      | ProcessExit e => (w1, ProcessExit e)
      | Returns (Throw e) => (w1, Returns (Throw e))
      | Returns (Ok storageResult) =>
          let '(w2, storageResult') :=
            generateReports candidateId profile metadata storageResult now'' w1 in
          let '(st3, removed) := removeIfExists faults (path file) (disk w2) in
          match removed with
          | Some e => (mkWorld st3 (objects w2), Returns (Throw e))
          | None =>
              (mkWorld st3 (objects w2),
               Returns
                 (Ok (mkResponse 200
                        (ProcessedBody profile storageResult'
                           (processedSummary candidateId file rawTranscript
                              formattedDialogue metadata)))))
          end
      end
  end.

(** [processAudio]. An answer is [Ok]; [Throw] is an exception that leaves
    the handler, which happens only when the clean-up in its [catch] block
    throws. When the process ends in the [try] block there is no answer,
    and the [catch] block is not run. *)
Definition processAudio (candidateId : option string)
  (file : option UploadedFile) (now now' now'' : Z) (w : World)
  : World * Ending Response :=
  match given candidateId with
  | None =>
      (w, Returns
            (Ok (mkResponse 400
                   (ErrorBody "No candidateId provided"
                      "Please provide a candidateId"))))
  | Some candidate =>
      match file with
      | None =>
          (w, Returns
                (Ok (mkResponse 400
                       (ErrorBody "No MP3 file provided"
                          ("Please upload an MP3 file using the " +:+ quote
                           +:+ "audio" +:+ quote +:+ " field")))))
      | Some f =>
          let '(w1, outcome) := processAudioTry candidate f now now' now'' w in
          match outcome with
          | ProcessExit e => (w1, ProcessExit e)
          | Returns (Ok response) => (w1, Returns (Ok response))
          | Returns (Throw e) =>
              let '(st2, removed) := removeIfExists faults (path f) (disk w1) in
              match removed with
              | Some e' => (mkWorld st2 (objects w1), Returns (Throw e'))
              | None =>
                  (mkWorld st2 (objects w1),
                   Returns
                     (Ok (mkResponse 500 (FailureBody "Processing failed" e))))
              end
          end
      end
  end.

(** [getCandidates], over the read side of the two backends. *)
Definition getCandidates (fs : FsEnv) (s3 : S3Env) : Response :=
  match listCandidates newDate fs s3 cfg with
  | Ok (Some candidates) =>
      mkResponse 200
        (CandidatesBody (length candidates) candidates (cfg_storageType cfg))
  | Ok None =>
      mkResponse 500
        (FailureBody "Failed to retrieve candidates"
           (TypeError "Cannot read properties of undefined (reading 'length')"))
  | Throw e => mkResponse 500 (FailureBody "Failed to retrieve candidates" e)
  end.

(** [getCandidateSessions] *)
Definition getCandidateSessions (fs : FsEnv) (s3 : S3Env)
  (candidateId : option string) : Response :=
  match given candidateId with
  | None => mkResponse 400 (ErrorBody "Missing candidateId" "Candidate ID is required")
  | Some candidate =>
      match listCandidateSessions newDate fs s3 cfg candidate with
      | Ok (Some sessions) =>
          mkResponse 200
            (SessionsBody candidate (length sessions) sessions
               (cfg_storageType cfg))
      | Ok None =>
          mkResponse 500
            (FailureBody "Failed to retrieve sessions"
               (TypeError "Cannot read properties of undefined (reading 'length')"))
      | Throw e => mkResponse 500 (FailureBody "Failed to retrieve sessions" e)
      end
  end.
End Controllers.

(** [healthCheck] *)
Definition healthCheck : Response := mkResponse 200 HealthBody.

(** The [switch] of [serveFile]: the content type of an extension. *)
Definition contentTypeOf (ext : string) : string :=
  if String.eqb ext ".mp3" then "audio/mpeg"
  else if String.eqb ext ".txt" then "text/plain"
  else if String.eqb ext ".json" then "application/json"
  else if String.eqb ext ".html" then "text/html"
  else if String.eqb ext ".pdf" then "application/pdf"
  else "application/octet-stream".

(** [serveFile], for the path after [/files/]. The path is resolved against
    the working directory, which the paths of the disk are relative to; dot
    segments are not resolved here. What is there but is no file cannot be
    streamed. The [Content-Length] header is left out. *)
Definition serveFile (st : FsState) (filePath : option string) : Response :=
  match given filePath with
  | None =>
      mkResponse 400 (ErrorBody "File path required" "Please provide a valid file path")
  | Some p =>
      if negb (startsWith p "candidate-data/") then
        mkResponse 403
          (ErrorBody "Access denied" "File access is restricted to candidate data")
      else if negb (existsSync st p) then
        mkResponse 404
          (ErrorBody "File not found" "The requested file does not exist")
      else
        match fileData st !! p with
        | Some content =>
            mkResponse 200
              (FileBody (contentTypeOf (toLowerCase (extname p))) (lastSegment p)
                 content)
        | None =>
            mkResponse 500
              (ErrorBody "File streaming error" "Failed to stream the requested file")
        end
  end.
(** ** Sample runs of the controller *)

(** A language model that transcribes and extracts, and whose dialogue
    formatting is out of order; a page generator; a browser that cannot be
    launched, and one that prints. *)
Definition sampleTranscribe : string -> result string := fun _ => Ok "hello".
Definition noCompletion : string -> result jsval :=
  fun _ => Throw (Error "429 Too Many Requests").
Definition sampleExtract : string -> result jsval :=
  fun _ => Ok (profileOf "Asha Rao" "Pune" 2).
Definition failingExtract : string -> result jsval :=
  fun _ => Throw (SyntaxError "Unexpected end of JSON input").
Definition sampleHTML : jsval -> jsval -> Z -> result string :=
  fun _ _ _ => Ok "<html></html>".
Definition noBrowser : string -> result FileContent :=
  fun _ => Throw (Error "Failed to launch the browser process").
Definition samplePrint : string -> result FileContent :=
  fun _ => Ok (Bytes "%PDF-1.4").

(** One request for [CAND1], with the first upload, on the filesystem:
    the metadata is prepared, the session stored and the report generated
    within the second 2024-01-01 05:30:00 IST. *)
Definition sampleRequest (extract : string -> result jsval)
  (print : string -> result FileContent) : World * Ending Response :=
  processAudio istOffset noFaults fsConfig "localhost" sampleTranscribe
    noCompletion extract sampleHTML print (Ok tt) (Some "CAND1")
    (Some firstUpload) 1704067200050 1704067200100 1704067200200 uploadsWorld.

(** ** What [serveFile] tells the client about each kind of artifact *)
Definition typeOfKind (kind : ArtifactKind) : string :=
  match kind with
  | Audio => "audio/mpeg"
  | Transcript => "text/plain"
  | Profile | Metadata => "application/json"
  | Html => "text/html"
  | Pdf => "application/pdf"
  end.

(** A character an extension is made of: neither dot nor slash. *)
Definition plainChar (c : ascii) : Prop := c <> "."%char /\ c <> "/"%char.

(** What [path.extname] holds once it has walked past the last dot of a
    name that has characters before and after it. *)
Definition extFound (dot len : nat) (st : ExtState) : Prop :=
  startDot st = Z.of_nat dot /\ endIdx st = Z.of_nat len
  /\ (preDotState st = 1 \/ preDotState st = -1).

(** The reports for the session of the first call, generated into its
    folder when the browser cannot be launched. *)
Definition reportsWithoutBrowser : FsState * result GeneratedFiles :=
  generateCandidatePDF istOffset noFaults sampleHTML noBrowser (Ok tt)
    (profileOf "Asha Rao" "Pune" 2) (JObj [("candidateId", JStr "CAND1")])
    (Some sampleFolder) 1704067200200 (disk (fst firstCall)).

(** The first sample call when the metadata document cannot be written (the
    disk is full, or the put is refused), on either backend, with the upload
    or without. *)
Definition faultyCall (cfg : Config) (audioFile : option UploadedFile)
  : World * Ending StorageResult :=
  saveCandidateData istOffset metadataFault cfg 1704067200100 uploadsWorld
    "CAND1" (JStr "first transcript") (profileOf "Asha Rao" "Pune" 2)
    (JObj [("candidateId", JStr "CAND1")]) None audioFile.



(** ** The one-call pipeline ([processAudioFile] of [audioUtils.js]) *)

(** A destructuring default, [const { k = d } = options]: it applies when
    the property is [undefined]. *)
Definition orDefault (v d : jsval) : jsval :=
  match v with JUndefined => d | _ => v end.

(** [processAudioFile(filePath, options)], with [formatDialogue] what
    [options.formatDialogue] reads as; the models and prompts named by the
    other options go to the calls to the language model, which are
    parameters here. The clock reads [now] when the result is built. *)
Definition processAudioFile (transcribe : string -> result string)
  (formatCompletion : string -> result jsval)
  (extractProfile : string -> result jsval)
  (formatDialogue : jsval) (filePath : string) (now : Z) : result jsval :=
  rawTranscript <- transcribe filePath ;;
  formattedDialogue <-
    (if truthy (orDefault formatDialogue (JBool true))
     then text <- formatTranscriptToDialogue formatCompletion rawTranscript ;;
          Ok (JStr text)
     else Ok JNull) ;;
  profile <- extractProfile rawTranscript ;;
  Ok (JObj
        [("rawTranscript", JStr rawTranscript);
         ("formattedDialogue", formattedDialogue);
         ("transcript", js_or formattedDialogue (JStr rawTranscript));
         ("profile", profile);
         ("metadata",
          JObj [("raw_transcript_length",
                 JNum (Z.of_nat (String.length rawTranscript)));
                ("formatted_dialogue_length",
                 match formattedDialogue with
                 | JStr text =>
                     if truthy formattedDialogue
                     then JNum (Z.of_nat (String.length text)) else JNull
                 | _ => JNull
                 end);
                ("dialogue_formatted", JBool (truthy formattedDialogue));
                ("processed_at", JStr (toISOString now))])]).

(** The session folder of the first request cannot be made. *)
Definition folderFault : Faults :=
  fun p =>
    if String.eqb p "candidate-data/CAND1/20240101-053000-IST"
    then Some (SysError "EACCES") else None.

(** The sample request when nothing fails but what the program itself
    causes, on either backend, and when the folder cannot be made. *)
Definition requestOn (faults : Faults) (cfg : Config) : World * Ending Response :=
  processAudio istOffset faults cfg "localhost" sampleTranscribe noCompletion
    sampleExtract sampleHTML samplePrint (Ok tt) (Some "CAND1")
    (Some firstUpload) 1704067200050 1704067200100 1704067200200 uploadsWorld.

(* ===================================================================== *)
(** * Part II. Properties                                                 *)
(* ===================================================================== *)

Example extname_samples :
  extname "interview.MP3" = ".MP3" /\ extname "a.tar.gz" = ".gz"
  /\ extname ".bashrc" = "" /\ extname "a." = "." /\ extname "noext" = ""
  /\ extname ".." = "" /\ extname "dir.d/file" = "" /\ extname "x/y.wav/" = ".wav".
Proof. repeat split; vm_compute; reflexivity. Qed.

Example classify_samples :
  classify "audio_20240101-000000-IST.mp3" = Some Audio
  /\ classify "John_Doe__profile_20240101-000000.html" = Some Html
  /\ classify "audio_20240101-000000-IST.MP3" = None
  /\ classify "notes.md" = None.
Proof. repeat split; vm_compute; reflexivity. Qed.

(** ** Strings *)

Lemma app_cons (c : ascii) (s t : string) :
  String c s +:+ t = String c (s +:+ t).
Proof. reflexivity. Qed.

Lemma app_nil_l (t : string) : "" +:+ t = t.
Proof. reflexivity. Qed.

Lemma app_assoc_str (a b c : string) : (a +:+ b) +:+ c = a +:+ (b +:+ c).
Proof.
  induction a as [|x a IH]; [reflexivity|].
  rewrite !app_cons, IH. reflexivity.
Qed.

Lemma length_app_str (a b : string) :
  String.length (a +:+ b) = (String.length a + String.length b)%nat.
Proof.
  induction a as [|x a IH]; [reflexivity|].
  rewrite app_cons. simpl. rewrite IH. reflexivity.
Qed.

Lemma substring_all (s : string) : String.substring 0 (String.length s) s = s.
Proof. induction s as [|x s IH]; simpl; [reflexivity | rewrite IH; reflexivity]. Qed.

Lemma substring_skip_app (p q : string) :
  String.substring (String.length p) (String.length q) (p +:+ q) = q.
Proof.
  induction p as [|x p IH]; [apply substring_all|].
  rewrite app_cons. simpl. exact IH.
Qed.

Lemma substring_split (k : nat) (s : string) :
  (k <= String.length s)%nat ->
  s = String.substring 0 k s +:+ String.substring k (String.length s - k) s.
Proof.
  revert k. induction s as [|x s IH]; intros k Hk.
  - destruct k; reflexivity.
  - destruct k as [|k].
    + change (String.substring 0 0 (String x s)) with "".
      rewrite app_nil_l, Nat.sub_0_r, substring_all. reflexivity.
    + simpl in Hk. simpl. rewrite app_cons. f_equal. apply IH. lia.
Qed.

Lemma startsWith_app (p s : string) : startsWith (p +:+ s) p = true.
Proof.
  unfold startsWith. induction p as [|x p IH]; [destruct s; reflexivity|].
  rewrite app_cons. simpl. destruct (ascii_dec x x); [exact IH | congruence].
Qed.

(** [endsWith], as a statement about concatenation. *)
Lemma endsWith_app (p suf : string) : endsWith (p +:+ suf) suf = true.
Proof.
  unfold endsWith. rewrite length_app_str.
  replace (String.length p + String.length suf - String.length suf)%nat
    with (String.length p) by lia.
  rewrite substring_skip_app, String.eqb_refl, andb_true_r.
  apply Nat.leb_le. lia.
Qed.

Lemma endsWith_inv (s suf : string) :
  endsWith s suf = true -> exists p, s = p +:+ suf.
Proof.
  unfold endsWith. intros H. apply andb_true_iff in H as [Hle Heq].
  apply Nat.leb_le in Hle. apply String.eqb_eq in Heq.
  exists (String.substring 0 (String.length s - String.length suf) s).
  pose proof (substring_split (String.length s - String.length suf) s) as Hs.
  replace (String.length s - (String.length s - String.length suf))%nat
    with (String.length suf) in Hs by lia.
  rewrite Heq in Hs. apply Hs. lia.
Qed.

(** With suffixes of the same length, [endsWith] compares them. *)
Lemma endsWith_same_length (p a b : string) :
  String.length a = String.length b ->
  endsWith (p +:+ a) b = String.eqb a b.
Proof.
  intros Hlen. unfold endsWith. rewrite length_app_str, <- Hlen.
  replace (String.length p + String.length a - String.length a)%nat
    with (String.length p) by lia.
  rewrite substring_skip_app.
  replace (String.length a <=? String.length p + String.length a)%nat
    with true by (symmetry; apply Nat.leb_le; lia).
  reflexivity.
Qed.

(** A string that ends with [a +:+ b] ends with [b]. *)
Lemma endsWith_tail (s a b : string) :
  endsWith s (a +:+ b) = true -> endsWith s b = true.
Proof.
  intros H. apply endsWith_inv in H as [p ->].
  rewrite <- app_assoc_str. apply endsWith_app.
Qed.

(** Two suffixes whose last characters differ exclude each other. *)
Lemma endsWith_last_differs (p a b : string) (x y : ascii) :
  x <> y -> endsWith (p +:+ a +:+ String x "") (b +:+ String y "") = false.
Proof.
  intros Hxy. destruct (endsWith _ _) eqn:E; [|reflexivity].
  apply endsWith_tail in E. rewrite <- app_assoc_str in E.
  rewrite endsWith_same_length in E by reflexivity.
  apply String.eqb_eq in E. congruence.
Qed.

Lemma lastSegment_no_slash (f : string) : hasSlash f = false -> lastSegment f = f.
Proof.
  intros H. destruct f as [|c f]; [reflexivity|].
  cbn [lastSegment]. rewrite H. reflexivity.
Qed.

Lemma hasSlash_app_slash (p f : string) : hasSlash (p +:+ "/" +:+ f) = true.
Proof.
  induction p as [|d p IHp]; [reflexivity|].
  rewrite app_cons. cbn [hasSlash]. rewrite IHp. apply orb_true_r.
Qed.

Lemma lastSegment_app (p f : string) :
  hasSlash f = false -> lastSegment (p +:+ "/" +:+ f) = f.
Proof.
  intros Hf. induction p as [|c p IH].
  - rewrite app_nil_l. change ("/" +:+ f) with (String "/" f).
    cbn [lastSegment hasSlash]. simpl. apply lastSegment_no_slash, Hf.
  - pose proof (hasSlash_app_slash (String c p) f) as Hs.
    rewrite app_cons in *. cbn [lastSegment]. rewrite Hs. exact IH.
Qed.

(** ** The key scheme: classification of generated names *)

Lemma classify_audio_mp3 (sessionId : string) :
  classify ("audio_" +:+ sessionId +:+ ".mp3") = Some Audio.
Proof.
  unfold classify. rewrite startsWith_app.
  rewrite <- app_assoc_str, endsWith_app. reflexivity.
Qed.

(** A name that ends with [.html] and is none of the fixed names. *)
Lemma classify_html (p : string) : classify (p +:+ ".html") = Some Html.
Proof.
  unfold classify.
  rewrite (endsWith_last_differs p ".htm" ".mp" "l" "3" ltac:(discriminate)
           : endsWith (p +:+ ".html") ".mp3" = false).
  rewrite andb_false_r.
  pose proof (endsWith_app p ".html") as E.
  repeat match goal with
  | |- context [String.eqb (p +:+ ".html") ?f] =>
      destruct (String.eqb_spec (p +:+ ".html") f) as [Heq|_];
      [rewrite Heq in E; vm_compute in E; discriminate|]
  end.
  rewrite E. reflexivity.
Qed.

Lemma classify_pdf (p : string) : classify (p +:+ ".pdf") = Some Pdf.
Proof.
  unfold classify.
  rewrite (endsWith_last_differs p ".pd" ".mp" "f" "3" ltac:(discriminate)
           : endsWith (p +:+ ".pdf") ".mp3" = false).
  rewrite andb_false_r.
  pose proof (endsWith_app p ".pdf") as E.
  repeat match goal with
  | |- context [String.eqb (p +:+ ".pdf") ?f] =>
      destruct (String.eqb_spec (p +:+ ".pdf") f) as [Heq|_];
      [rewrite Heq in E; vm_compute in E; discriminate|]
  end.
  rewrite (endsWith_last_differs p ".pd" ".htm" "f" "l" ltac:(discriminate)
           : endsWith (p +:+ ".pdf") ".html" = false).
  rewrite E. reflexivity.
Qed.

(** The round trip of the key scheme, for every kind, when the audio file
    keeps the extension [.mp3]. *)
Lemma classify_artifactFilename (kind : ArtifactKind)
  (sessionId original candidateName timestamp : string) :
  (kind = Audio -> audioExtension original = ".mp3") ->
  classify (artifactFilename kind sessionId original candidateName timestamp)
  = Some kind.
Proof.
  intros Hext. destruct kind; cbn [artifactFilename]; try reflexivity.
  - unfold audioFilename. rewrite Hext by reflexivity. apply classify_audio_mp3.
  - unfold htmlFilename. rewrite <- !app_assoc_str. apply classify_html.
  - unfold pdfFilename. rewrite <- !app_assoc_str. apply classify_pdf.
Qed.

Lemma classify_artifactFilename_witness :
  classify (artifactFilename Audio "20240101-000000-IST" "interview.mp3"
              "John_Doe_" "20240101-000000") = Some Audio.
Proof. apply classify_artifactFilename. intros _. vm_compute. reflexivity. Defined.

(** A name [audio_<sessionId>.MP3] passes none of the tests. *)
Lemma classify_audio_uppercase (sessionId : string) :
  classify ("audio_" +:+ sessionId +:+ ".MP3") = None.
Proof.
  unfold classify. rewrite <- app_assoc_str.
  set (p := "audio_" +:+ sessionId).
  rewrite (endsWith_same_length p ".MP3" ".mp3") by reflexivity.
  rewrite andb_false_r.
  pose proof (startsWith_app "audio_" sessionId) as E. fold p in E.
  repeat match goal with
  | |- context [String.eqb (p +:+ ".MP3") ?f] =>
      destruct (String.eqb_spec (p +:+ ".MP3") f) as [Heq|_];
      [exfalso; subst p; rewrite <- app_assoc_str in Heq; discriminate Heq|]
  end.
  rewrite (endsWith_last_differs p ".MP" ".htm" "3" "l" ltac:(discriminate)
           : endsWith (p +:+ ".MP3") ".html" = false).
  rewrite (endsWith_last_differs p ".MP" ".pd" "3" "f" ltac:(discriminate)
           : endsWith (p +:+ ".MP3") ".pdf" = false).
  reflexivity.
Qed.

(** C1, at the failing input: an upload named [interview.MP3] passes the
    upload filter (its extension is compared in lower case), the write side
    stores it as [audio_<sessionId>.MP3], and the listings' classification
    of that name finds no artifact kind, so the round trip from [Audio]
    ends in nothing. *)
Theorem audio_roundtrip_fails_on_uppercase_extension (sessionId : string) :
  fileFilter "application/octet-stream" "interview.MP3" = true
  /\ artifactFilename Audio sessionId "interview.MP3" "" ""
     = "audio_" +:+ sessionId +:+ ".MP3"
  /\ classify (artifactFilename Audio sessionId "interview.MP3" "" "") = None.
Proof.
  split; [vm_compute; reflexivity|].
  assert (E : artifactFilename Audio sessionId "interview.MP3" "" ""
              = "audio_" +:+ sessionId +:+ ".MP3").
  { cbn [artifactFilename]. unfold audioFilename.
    replace (audioExtension "interview.MP3") with ".MP3"
      by (vm_compute; reflexivity).
    reflexivity. }
  split; [exact E|]. rewrite E. apply classify_audio_uppercase.
Qed.

(** An audio upload whose name ends in [.pdf] (accepted by its MIME type)
    comes back as a [Pdf] artifact rather than as [Audio]. *)
Lemma audio_named_pdf_classified_as_pdf (sessionId : string) :
  fileFilter "audio/mpeg" "talk.pdf" = true
  /\ classify (artifactFilename Audio sessionId "talk.pdf" "" "") = Some Pdf.
Proof.
  split; [vm_compute; reflexivity|].
  cbn [artifactFilename]. unfold audioFilename.
  replace (audioExtension "talk.pdf") with ".pdf" by (vm_compute; reflexivity).
  rewrite <- app_assoc_str. apply classify_pdf.
Qed.

(** ** Report file names *)

Lemma replaceNonAlnum_map (name : string) :
  String.list_ascii_of_string (replaceNonAlnum name)
  = map (fun c => if isAlnum c then c else "_"%char)
        (String.list_ascii_of_string name).
Proof. induction name as [|c s IH]; simpl; [reflexivity | rewrite IH; reflexivity]. Qed.

Lemma replaceNonAlnum_allowed (name : string) (c : ascii) :
  In c (String.list_ascii_of_string (replaceNonAlnum name)) ->
  isAlnum c = true \/ c = "_"%char.
Proof.
  rewrite replaceNonAlnum_map, in_map_iff. intros [x [Hx _]].
  destruct (isAlnum x) eqn:E; subst; auto.
Qed.

(** C10. For the name ["John/Doe!"] the two report names are built on the
    stem [John_Doe_]; every character of a sanitized name is a letter, a
    digit or the underscore (so neither [/] nor [!]); and a profile whose
    [candidate_name] is absent or empty gets the stem [candidate]. *)
Theorem report_filenames_use_sanitized_stem :
  (forall (rest : list (string * jsval)) (timestamp : string),
     generatedFilenames (JObj (("candidate_name", JStr "John/Doe!") :: rest))
       timestamp
     = Ok ("John_Doe_" +:+ "_profile_" +:+ timestamp +:+ ".html",
           "John_Doe_" +:+ "_profile_" +:+ timestamp +:+ ".pdf"))
  /\ (forall (name : string) (c : ascii),
        In c (String.list_ascii_of_string (replaceNonAlnum name)) ->
        (isAlnum c = true \/ c = "_"%char) /\ c <> "/"%char /\ c <> "!"%char)
  /\ (forall (candidateProfile name : jsval) (timestamp : string),
        getProp candidateProfile "candidate_name" = Ok name ->
        truthy name = false ->
        generatedFilenames candidateProfile timestamp
        = Ok ("candidate" +:+ "_profile_" +:+ timestamp +:+ ".html",
              "candidate" +:+ "_profile_" +:+ timestamp +:+ ".pdf")).
Proof.
  split; [|split].
  - intros rest timestamp. reflexivity.
  - intros name c Hc. apply replaceNonAlnum_allowed in Hc.
    split; [exact Hc|].
    split; intros ->; destruct Hc as [Hc|Hc]; vm_compute in Hc; discriminate.
  - intros candidateProfile name timestamp Hget Hfalsy.
    unfold generatedFilenames, candidateName. rewrite Hget. cbn [bind].
    rewrite Hfalsy. reflexivity.
Qed.

Lemma report_filenames_use_sanitized_stem_witness :
  generatedFilenames (JObj [("summary", JStr "n/a")]) "20240101-053000"
  = Ok ("candidate_profile_20240101-053000.html",
        "candidate_profile_20240101-053000.pdf").
Proof.
  apply (proj2 (proj2 report_filenames_use_sanitized_stem)
           (JObj [("summary", JStr "n/a")]) JUndefined "20240101-053000");
    reflexivity.
Defined.

(** ** The sort rearranges, it neither drops nor adds *)
Section ArraySortPermutation.
Context {A : Type}.
Variable comparefn : A -> A -> option Z.

Lemma binaryInsert_Permutation (sorted : list A) (pivot : A) :
  Permutation (binaryInsert comparefn sorted pivot) (sorted ++ [pivot]).
Proof.
  unfold binaryInsert.
  set (k := insertionPoint comparefn _ _ _ _ _).
  rewrite <- (firstn_skipn k sorted) at 3.
  rewrite <- app_assoc. apply Permutation_app_head.
  change (pivot :: skipn k sorted) with ([pivot] ++ skipn k sorted).
  apply Permutation_app_comm.
Qed.

Lemma binaryInsertionSort_Permutation (rest run : list A) :
  Permutation (binaryInsertionSort comparefn run rest) (run ++ rest).
Proof.
  unfold binaryInsertionSort. revert run.
  induction rest as [|x rest IH]; intros run; cbn [fold_left].
  - rewrite app_nil_r. reflexivity.
  - rewrite IH, binaryInsert_Permutation, <- app_assoc. reflexivity.
Qed.

Lemma countAndMakeRun_Permutation (l : list A) :
  Permutation (fst (countAndMakeRun comparefn l)
               ++ snd (countAndMakeRun comparefn l)) l.
Proof.
  unfold countAndMakeRun.
  destruct l as [|x0 [|x1 rest]]; cbn [fst snd]; try (rewrite app_nil_r; reflexivity).
  set (n := S (S _)). set (l := x0 :: x1 :: rest).
  transitivity (firstn n l ++ skipn n l); [|rewrite firstn_skipn; reflexivity].
  apply Permutation_app_tail.
  destruct (_ <? 0); [symmetry; apply Permutation_rev | reflexivity].
Qed.

Lemma Array_sort_Permutation (l : list A) :
  Permutation (Array_sort comparefn l) l.
Proof.
  unfold Array_sort.
  pose proof (countAndMakeRun_Permutation l) as H.
  destruct (countAndMakeRun comparefn l) as [run rest]; cbn [fst snd] in H.
  rewrite binaryInsertionSort_Permutation. exact H.
Qed.

Lemma Array_sort_length (l : list A) :
  length (Array_sort comparefn l) = length l.
Proof. apply Permutation_length, Array_sort_Permutation. Qed.

Lemma Array_sort_nil : Array_sort comparefn [] = [].
Proof. reflexivity. Qed.
End ArraySortPermutation.

(** ** Loops that collect *)

(** A loop that appends one record per element succeeds when every element
    yields one, and returns the records in the order of the elements. *)
Lemma forOf_collect {A B} (f : A -> result B) (xs : list A) (acc : list B) :
  (forall x, In x xs -> exists r, f x = Ok r) ->
  exists rs,
    forOf (fun acc x => r <- f x ;; Ok (acc ++ [r])) xs acc = Ok (acc ++ rs)
    /\ Forall2 (fun x r => f x = Ok r) xs rs.
Proof.
  revert acc. induction xs as [|x xs IH]; intros acc Hall.
  - exists []. rewrite app_nil_r. split; [reflexivity | constructor].
  - destruct (Hall x (or_introl eq_refl)) as [r Hr].
    destruct (IH (acc ++ [r]) (fun y Hy => Hall y (or_intror Hy))) as [rs [Hrs Hf]].
    exists (r :: rs). cbn [forOf]. rewrite Hr. cbn [bind]. rewrite Hrs.
    rewrite <- app_assoc. split; [reflexivity | constructor; assumption].
Qed.

(** The first element that throws ends the loop with its exception. *)
Lemma forOf_throw {A B} (f : A -> result B) (xs ys : list A) (x : A)
  (acc : list B) (e : error) :
  (forall y, In y xs -> exists r, f y = Ok r) ->
  f x = Throw e ->
  forOf (fun acc x => r <- f x ;; Ok (acc ++ [r])) (xs ++ x :: ys) acc = Throw e.
Proof.
  revert acc. induction xs as [|y xs IH]; intros acc Hall Hx.
  - cbn [app forOf]. rewrite Hx. reflexivity.
  - destruct (Hall y (or_introl eq_refl)) as [r Hr].
    cbn [app forOf]. rewrite Hr. cbn [bind].
    apply IH; [intros z Hz; apply Hall; right; exact Hz | exact Hx].
Qed.

(** ** The listings and their errors *)

Lemma loadMetadata_total (read : string -> result FileContent)
  (loc : option string) : exists v, loadMetadata read loc = Ok v.
Proof.
  destruct loc as [p|]; cbn [loadMetadata]; [|eauto].
  destruct (read p) as [c|e]; cbn [bind try_catch]; [|eauto].
  destruct (JSON_parse c); cbn [try_catch]; eauto.
Qed.

Lemma loadProfile_total (read : string -> result FileContent)
  (loc : option string) : exists v, loadProfile read loc = Ok v.
Proof.
  destruct loc as [p|]; cbn [loadProfile]; [|eauto].
  match goal with |- exists v, try_catch ?m _ = _ => destruct m end;
    cbn [try_catch]; eauto.
Qed.

Lemma loadMetadata_unusable (read : string -> result FileContent)
  (loc : string) :
  unusable read loc -> loadMetadata read (Some loc) = Ok (JObj []).
Proof.
  unfold unusable. cbn [loadMetadata].
  destruct (read loc) as [c|e]; cbn [bind try_catch]; [|reflexivity].
  intros [e ->]. reflexivity.
Qed.

Lemma loadProfile_unusable (read : string -> result FileContent)
  (loc : string) :
  unusable read loc -> loadProfile read (Some loc) = Ok (JObj []).
Proof.
  unfold unusable. cbn [loadProfile].
  destruct (read loc) as [c|e]; cbn [bind try_catch]; [|reflexivity].
  intros [e ->]. reflexivity.
Qed.

Section ListingErrors.
Variable newDate : jsval -> option Z.
Variables (fs : FsEnv) (s3 : S3Env) (cfg : Config).

Lemma listFilesystemCandidates_readdir_error (e : error) :
  readdir fs (candidateDataPath cfg) = Throw e ->
  listFilesystemCandidates newDate fs cfg = enoentAsEmpty e.
Proof. intros H. unfold listFilesystemCandidates. rewrite H. reflexivity. Qed.

Lemma listFilesystemCandidates_empty :
  readdir fs (candidateDataPath cfg) = Ok [] ->
  listFilesystemCandidates newDate fs cfg = Ok [].
Proof. intros H. unfold listFilesystemCandidates. rewrite H. reflexivity. Qed.

Lemma listFilesystemSessions_readdir_error (candidateId : string) (e : error) :
  readdir fs (candidateDirOf cfg candidateId) = Throw e ->
  listFilesystemSessions newDate fs cfg candidateId = enoentAsEmpty e.
Proof.
  intros H. unfold listFilesystemSessions. fold (candidateDirOf cfg candidateId).
  rewrite H. reflexivity.
Qed.

Lemma listFilesystemSessions_empty (candidateId : string) :
  readdir fs (candidateDirOf cfg candidateId) = Ok [] ->
  listFilesystemSessions newDate fs cfg candidateId = Ok [].
Proof.
  intros H. unfold listFilesystemSessions. fold (candidateDirOf cfg candidateId).
  rewrite H. reflexivity.
Qed.

Lemma enoentAsEmpty_enoent {A} : @enoentAsEmpty A (SysError "ENOENT") = Ok [].
Proof. reflexivity. Qed.

Lemma enoentAsEmpty_other {A} (e : error) :
  error_code e <> Some "ENOENT" -> @enoentAsEmpty A e = Throw e.
Proof. intros H. unfold enoentAsEmpty. destruct (decide _); [contradiction | reflexivity]. Qed.

Lemma listS3Sessions_total (candidateId : string) :
  exists l, listS3Sessions newDate s3 cfg candidateId = Ok l.
Proof.
  unfold listS3Sessions.
  match goal with |- exists l, try_catch ?m _ = _ => destruct m end;
    cbn [try_catch]; eauto.
Qed.

Lemma listS3Candidates_total :
  exists l, listS3Candidates newDate s3 cfg = Ok l.
Proof.
  unfold listS3Candidates.
  match goal with |- exists l, try_catch ?m _ = _ => destruct m end;
    cbn [try_catch]; eauto.
Qed.

Lemma listS3Sessions_list_error (candidateId : string) (e : error) :
  listObjectsV2 s3 (candidatePrefix cfg candidateId) (Some "/") = Throw e ->
  listS3Sessions newDate s3 cfg candidateId = Ok [].
Proof.
  intros H. unfold listS3Sessions. fold (candidatePrefix cfg candidateId).
  cbv zeta. rewrite H. reflexivity.
Qed.

Lemma listS3Candidates_list_error (e : error) :
  listObjectsV2 s3 (rootPrefix cfg) (Some "/") = Throw e ->
  listS3Candidates newDate s3 cfg = Ok [].
Proof.
  intros H. unfold listS3Candidates. fold (rootPrefix cfg).
  cbv zeta. rewrite H. reflexivity.
Qed.

Lemma listS3Sessions_no_prefixes (candidateId : string) (response : ListResponse) :
  listObjectsV2 s3 (candidatePrefix cfg candidateId) (Some "/") = Ok response ->
  default [] (CommonPrefixes response) = [] ->
  listS3Sessions newDate s3 cfg candidateId = Ok [].
Proof.
  intros H Hnone. unfold listS3Sessions. fold (candidatePrefix cfg candidateId).
  cbv zeta. rewrite H. cbn [bind]. rewrite Hnone. reflexivity.
Qed.

Lemma listS3Candidates_no_prefixes (response : ListResponse) :
  listObjectsV2 s3 (rootPrefix cfg) (Some "/") = Ok response ->
  default [] (CommonPrefixes response) = [] ->
  listS3Candidates newDate s3 cfg = Ok [].
Proof.
  intros H Hnone. unfold listS3Candidates. fold (rootPrefix cfg).
  cbv zeta. rewrite H. cbn [bind]. rewrite Hnone. reflexivity.
Qed.

(** The record of a session prefix whose listing succeeds and whose metadata
    object cannot be used. *)
Lemma getS3SessionData_unusable_metadata (candidate session : string)
  (response : ListResponse) (key : string) :
  listObjectsV2 s3 (baseKeyOf cfg candidate session +:+ "/") None
    = Ok response ->
  Slots.metadata (fst (classifyObjects cfg (default [] (Contents response))))
    = Some key ->
  unusable (getS3Object s3) key ->
  exists r, getS3SessionData s3 cfg candidate session = Ok (Some r)
            /\ sessionId r = session /\ metadata r = JObj []
            /\ createdAt r = JNull.
Proof.
  intros Hlist Hslot Hbad. unfold getS3SessionData.
  fold (baseKeyOf cfg candidate session). cbv zeta.
  rewrite Hlist. cbn [bind]. rewrite Hslot.
  rewrite (loadMetadata_unusable _ _ Hbad). cbn [bind].
  destruct (loadProfile_total (getS3Object s3)
              (Slots.profile (fst (classifyObjects cfg (default [] (Contents response))))))
    as [prof ->].
  cbn [bind getProp assoc default js_or truthy try_catch].
  eexists. split; [reflexivity|]. cbn. auto.
Qed.
End ListingErrors.

(** C6. With the filesystem configured, a root directory that does not exist
    or has no entry lists no candidate, and a candidate directory that does
    not exist lists no session; with the object store configured, a root or
    candidate prefix under which the store reports no common prefix lists
    nothing either. None of these raises an error. *)
Theorem empty_or_missing_root_lists_nothing (newDate : jsval -> option Z)
  (fs : FsEnv) (s3 : S3Env) (cfg : Config) (candidateId : string) :
  (cfg_storageType cfg = "filesystem" ->
   (readdir fs (candidateDataPath cfg) = Throw (SysError "ENOENT")
    \/ readdir fs (candidateDataPath cfg) = Ok []) ->
   listCandidates newDate fs s3 cfg = Ok (Some []))
  /\ (cfg_storageType cfg = "filesystem" ->
      readdir fs (candidateDirOf cfg candidateId) = Throw (SysError "ENOENT") ->
      listCandidateSessions newDate fs s3 cfg candidateId = Ok (Some []))
  /\ (cfg_storageType cfg = "s3" ->
      (exists response,
         listObjectsV2 s3 (rootPrefix cfg) (Some "/") = Ok response
         /\ default [] (CommonPrefixes response) = []) ->
      listCandidates newDate fs s3 cfg = Ok (Some []))
  /\ (cfg_storageType cfg = "s3" ->
      (exists response,
         listObjectsV2 s3 (candidatePrefix cfg candidateId) (Some "/") = Ok response
         /\ default [] (CommonPrefixes response) = []) ->
      listCandidateSessions newDate fs s3 cfg candidateId = Ok (Some [])).
Proof.
  repeat split.
  - intros Ht [H|H]; unfold listCandidates; rewrite Ht; cbn [String.eqb].
    + rewrite (listFilesystemCandidates_readdir_error _ _ _ _ H). reflexivity.
    + rewrite (listFilesystemCandidates_empty _ _ _ H). reflexivity.
  - intros Ht H. unfold listCandidateSessions. rewrite Ht.
    rewrite (listFilesystemSessions_readdir_error _ _ _ _ _ H). reflexivity.
  - intros Ht [response [H Hnone]]. unfold listCandidates. rewrite Ht.
    rewrite (listS3Candidates_no_prefixes _ _ _ _ H Hnone). reflexivity.
  - intros Ht [response [H Hnone]]. unfold listCandidateSessions. rewrite Ht.
    rewrite (listS3Sessions_no_prefixes _ _ _ _ _ H Hnone). reflexivity.
Qed.

Lemma empty_or_missing_root_lists_nothing_witness :
  listCandidates isoDate (fsOf emptyDisk) (s3Of emptyBucket) fsConfig
    = Ok (Some [])
  /\ listCandidateSessions isoDate (fsOf emptyDisk) (s3Of emptyBucket) fsConfig
       "CAND1" = Ok (Some [])
  /\ listCandidates isoDate (fsOf emptyDisk) (s3Of emptyBucket) s3Config
       = Ok (Some [])
  /\ listCandidateSessions isoDate (fsOf emptyDisk) (s3Of emptyBucket) s3Config
       "CAND1" = Ok (Some []).
Proof.
  pose proof (empty_or_missing_root_lists_nothing isoDate (fsOf emptyDisk)
                (s3Of emptyBucket) fsConfig "CAND1") as [H1 [H2 _]].
  pose proof (empty_or_missing_root_lists_nothing isoDate (fsOf emptyDisk)
                (s3Of emptyBucket) s3Config "CAND1") as [_ [_ [H3 H4]]].
  split; [|split; [|split]].
  - apply H1; [reflexivity | left; reflexivity].
  - apply H2; reflexivity.
  - apply H3; [reflexivity | eexists; split; reflexivity].
  - apply H4; [reflexivity | eexists; split; reflexivity].
Defined.

(** ** The session materializer *)

Lemma classify_Metadata (file : string) :
  classify file = Some Metadata <-> file = "metadata.json".
Proof.
  split; [|intros ->; reflexivity].
  unfold classify.
  destruct (startsWith file "audio_" && endsWith file ".mp3"); [discriminate|].
  destruct (String.eqb file "transcript.txt"); [discriminate|].
  destruct (String.eqb file "candidate_profile.json"); [discriminate|].
  destruct (String.eqb_spec file "metadata.json") as [->|_]; [reflexivity|].
  destruct (endsWith file ".html"); [discriminate|].
  destruct (endsWith file ".pdf"); discriminate.
Qed.

Lemma classify_Profile (file : string) :
  classify file = Some Profile <-> file = "candidate_profile.json".
Proof.
  split; [|intros ->; reflexivity].
  unfold classify.
  destruct (startsWith file "audio_" && endsWith file ".mp3"); [discriminate|].
  destruct (String.eqb file "transcript.txt"); [discriminate|].
  destruct (String.eqb_spec file "candidate_profile.json") as [->|_]; [reflexivity|].
  destruct (String.eqb file "metadata.json"); [discriminate|].
  destruct (endsWith file ".html"); [discriminate|].
  destruct (endsWith file ".pdf"); discriminate.
Qed.

Lemma Slots_get_set (k k' : ArtifactKind) (v : string) (s : Slots.t) :
  Slots.get k (Slots.set k' v s)
  = if decide (k = k') then Some v else Slots.get k s.
Proof. destruct k, k'; reflexivity. Qed.

(** One turn of the classification loop, seen from the metadata slot. *)
Lemma classifyEntry_metadata (acc : Slots.t * Slots.t) (file loc link : string) :
  Slots.metadata (fst (classifyEntry acc file loc link))
  = if decide (file = "metadata.json") then Some loc
    else Slots.metadata (fst acc).
Proof.
  unfold classifyEntry. destruct (decide (file = "metadata.json")) as [->|Hne].
  - reflexivity.
  - destruct (classify file) as [k|] eqn:Ek; [|reflexivity].
    cbn [fst]. change Slots.metadata with (Slots.get Metadata).
    rewrite Slots_get_set. destruct (decide (Metadata = k)) as [<-|]; [|reflexivity].
    apply classify_Metadata in Ek. contradiction.
Qed.

(** On the filesystem the metadata slot can only hold the path of
    [metadata.json] in the session directory, and holds it when that name is
    listed. *)
Lemma classifyFiles_metadata (candidate session sessionDir : string)
  (names : list string) :
  Slots.metadata (fst (classifyFiles candidate session sessionDir names))
  = if decide ("metadata.json" ∈ names)
    then Some (path_join sessionDir "metadata.json") else None.
Proof.
  unfold classifyFiles.
  change (@None string) with (Slots.metadata (fst (Slots.empty, Slots.empty))).
  generalize (Slots.empty, Slots.empty).
  induction names as [|f names IH]; intros acc.
  - destruct (decide _) as [Hin|]; [inversion Hin | reflexivity].
  - cbn [fold_left]. rewrite IH, classifyEntry_metadata.
    destruct (decide ("metadata.json" ∈ names)) as [Hin|Hnin].
    + destruct (decide ("metadata.json" ∈ f :: names)) as [|Hn];
        [reflexivity | exfalso; apply Hn, elem_of_cons; right; exact Hin].
    + destruct (decide (f = "metadata.json")) as [->|Hne].
      * destruct (decide ("metadata.json" ∈ "metadata.json" :: names)) as [|Hn];
          [reflexivity | exfalso; apply Hn, elem_of_cons; left; reflexivity].
      * destruct (decide ("metadata.json" ∈ f :: names)) as [Hin|];
          [|reflexivity].
        apply elem_of_cons in Hin as [Heq|Hin]; [congruence | contradiction].
Qed.

Lemma getProp_object (props : list (string * jsval)) (k : string) :
  getProp (JObj props) k = Ok (default JUndefined (assoc k props)).
Proof. reflexivity. Qed.

Lemma getProp_total (v : jsval) (k : string) :
  v <> JNull -> v <> JUndefined -> exists x, getProp v k = Ok x.
Proof. intros Hn Hu. destruct v; cbn [getProp]; eauto; contradiction. Qed.

Lemma getPropOpt_total (v : jsval) (k : string) : exists x, getPropOpt v k = Ok x.
Proof. destruct v; cbn [getPropOpt getProp]; eauto. Qed.

(** What [loadMetadata] returns is [null] only for a document that holds
    the literal [null]. *)
Lemma loadMetadata_not_null (read : string -> result FileContent)
  (loc : option string) (v : jsval) :
  loadMetadata read loc = Ok v ->
  (forall p, loc = Some p -> ~ holdsNull read p) ->
  v <> JNull /\ v <> JUndefined.
Proof.
  intros H Hnn. destruct loc as [p|]; cbn [loadMetadata] in H.
  - specialize (Hnn p eq_refl). unfold holdsNull in Hnn.
    destruct (read p) as [c|e]; cbn [bind try_catch] in H.
    + destruct c; cbn [JSON_parse try_catch] in H; inversion H; subst;
        try (split; discriminate).
      split; intros ->; apply Hnn; auto.
    + inversion H. split; discriminate.
  - inversion H. split; discriminate.
Qed.

Section Materializer.
Variables (fs : FsEnv) (s3 : S3Env) (cfg : Config).

(** What a successful materialization on the filesystem went through. *)
Lemma materializeFsSession_inv (candidate session : string) (r : SessionRecord) :
  materializeFsSession fs cfg candidate session = Ok r ->
  exists entries md prof pa ofn,
    let dir := sessionPathOf cfg candidate session in
    let slots := classifyFiles candidate session dir (map Dirent.name entries) in
    readdir fs dir = Ok entries
    /\ loadMetadata (readFile fs) (Slots.metadata (fst slots)) = Ok md
    /\ loadProfile (readFile fs) (Slots.profile (fst slots)) = Ok prof
    /\ getProp md "processed_at" = Ok pa
    /\ getProp md "original_filename" = Ok ofn
    /\ r = {| sessionId := session; candidateId := candidate;
              storageType := "filesystem"; sessionPath := Some dir;
              bucket := None; files := fst slots; links := snd slots;
              metadata := md; candidateProfile := prof;
              createdAt := js_or pa JNull;
              originalFilename := js_or ofn JNull |}.
Proof.
  unfold materializeFsSession, readdirNames.
  fold (candidateDirOf cfg candidate). fold (sessionPathOf cfg candidate session).
  cbv zeta. intros H.
  destruct (readdir fs _) as [entries|e]; cbn [bind] in H; [|discriminate].
  destruct (loadMetadata _ _) as [md|e] eqn:Emd; cbn [bind] in H; [|discriminate].
  destruct (loadProfile _ _) as [prof|e] eqn:Eprof; cbn [bind] in H; [|discriminate].
  destruct (getProp md "processed_at") as [pa|e] eqn:Epa; cbn [bind] in H; [|discriminate].
  destruct (getProp md "original_filename") as [ofn|e] eqn:Eofn; cbn [bind] in H; [|discriminate].
  inversion H. exists entries, md, prof, pa, ofn. auto 10.
Qed.

Lemma materializeFsSession_sessionId (candidate session : string) (r : SessionRecord) :
  materializeFsSession fs cfg candidate session = Ok r -> sessionId r = session.
Proof.
  intros H. apply materializeFsSession_inv in H as (? & ? & ? & ? & ? & H).
  cbv zeta in H. destruct H as (_ & _ & _ & _ & _ & ->). reflexivity.
Qed.

(** A session directory that can be walked yields a record. *)
Lemma materializeFsSession_total (candidate session : string) :
  fsSessionWalkable fs cfg candidate session ->
  exists r, materializeFsSession fs cfg candidate session = Ok r.
Proof.
  intros [[entries Hdir] Hnn].
  unfold materializeFsSession, readdirNames.
  fold (candidateDirOf cfg candidate). fold (sessionPathOf cfg candidate session).
  cbv zeta. rewrite Hdir. cbn [bind].
  destruct (loadMetadata_total (readFile fs)
    (Slots.metadata (fst (classifyFiles candidate session
       (sessionPathOf cfg candidate session) (map Dirent.name entries))))) as [md Hmd].
  rewrite Hmd. cbn [bind].
  destruct (loadProfile_total (readFile fs)
    (Slots.profile (fst (classifyFiles candidate session
       (sessionPathOf cfg candidate session) (map Dirent.name entries))))) as [prof ->].
  cbn [bind].
  destruct (loadMetadata_not_null _ _ _ Hmd) as [Hn Hu].
  { intros p Hp. rewrite classifyFiles_metadata in Hp.
    destruct (decide _); [|discriminate]. inversion Hp. exact Hnn. }
  destruct (getProp_total md "processed_at" Hn Hu) as [pa ->].
  destruct (getProp_total md "original_filename" Hn Hu) as [ofn ->].
  cbn [bind]. eauto.
Qed.

(** The record of a session whose metadata document cannot be used has the
    empty metadata object and no creation date; one whose profile document
    cannot be used has the empty profile object. *)
Lemma materializeFsSession_unusable (candidate session : string)
  (r : SessionRecord) :
  materializeFsSession fs cfg candidate session = Ok r ->
  (forall p, Slots.metadata (files r) = Some p -> unusable (readFile fs) p ->
             metadata r = JObj [] /\ createdAt r = JNull
             /\ originalFilename r = JNull)
  /\ (forall p, Slots.profile (files r) = Some p -> unusable (readFile fs) p ->
                candidateProfile r = JObj []).
Proof.
  intros H. apply materializeFsSession_inv in H
    as (entries & md & prof & pa & ofn & H).
  cbv zeta in H. destruct H as (_ & Hmd & Hprof & Hpa & Hofn & ->).
  cbn [files metadata createdAt originalFilename candidateProfile]. split.
  - intros p Hp Hbad. rewrite Hp, (loadMetadata_unusable _ _ Hbad) in Hmd.
    inversion Hmd; subst md. cbn in Hpa, Hofn. inversion Hpa. inversion Hofn.
    auto.
  - intros p Hp Hbad. rewrite Hp, (loadProfile_unusable _ _ Hbad) in Hprof.
    inversion Hprof. reflexivity.
Qed.

(** The same three facts on the object store. *)
Lemma getS3SessionData_inv (candidate session : string) (r : SessionRecord) :
  getS3SessionData s3 cfg candidate session = Ok (Some r) ->
  exists response md prof pa ofn,
    let slots := classifyObjects cfg (default [] (Contents response)) in
    listObjectsV2 s3 (baseKeyOf cfg candidate session +:+ "/") None = Ok response
    /\ loadMetadata (getS3Object s3) (Slots.metadata (fst slots)) = Ok md
    /\ loadProfile (getS3Object s3) (Slots.profile (fst slots)) = Ok prof
    /\ getProp md "processed_at" = Ok pa
    /\ getProp md "original_filename" = Ok ofn
    /\ r = {| sessionId := session; candidateId := candidate;
              storageType := "s3"; sessionPath := None;
              bucket := Some (bucketName cfg); files := fst slots;
              links := snd slots; metadata := md; candidateProfile := prof;
              createdAt := js_or pa JNull;
              originalFilename := js_or ofn JNull |}.
Proof.
  unfold getS3SessionData. fold (baseKeyOf cfg candidate session).
  cbv zeta. intros H.
  destruct (listObjectsV2 s3 _ None) as [response|e]; cbn [bind try_catch] in H;
    [|discriminate].
  destruct (loadMetadata _ _) as [md|e] eqn:Emd; cbn [bind try_catch] in H; [|discriminate].
  destruct (loadProfile _ _) as [prof|e] eqn:Eprof; cbn [bind try_catch] in H; [|discriminate].
  destruct (getProp md "processed_at") as [pa|e] eqn:Epa; cbn [bind try_catch] in H; [|discriminate].
  destruct (getProp md "original_filename") as [ofn|e] eqn:Eofn; cbn [bind try_catch] in H; [|discriminate].
  inversion H. exists response, md, prof, pa, ofn. auto 10.
Qed.

Lemma getS3SessionData_sessionId (candidate session : string) (r : SessionRecord) :
  getS3SessionData s3 cfg candidate session = Ok (Some r) -> sessionId r = session.
Proof.
  intros H. apply getS3SessionData_inv in H as (? & ? & ? & ? & ? & H).
  cbv zeta in H. destruct H as (_ & _ & _ & _ & _ & ->). reflexivity.
Qed.

Lemma getS3SessionData_total (candidate session : string) :
  s3SessionWalkable s3 cfg candidate session ->
  exists r, getS3SessionData s3 cfg candidate session = Ok (Some r).
Proof.
  intros [response [Hlist Hnn]].
  unfold getS3SessionData. fold (baseKeyOf cfg candidate session).
  cbv zeta. rewrite Hlist. cbn [bind].
  destruct (loadMetadata_total (getS3Object s3)
    (Slots.metadata (fst (classifyObjects cfg (default [] (Contents response))))))
    as [md Hmd].
  rewrite Hmd. cbn [bind].
  destruct (loadProfile_total (getS3Object s3)
    (Slots.profile (fst (classifyObjects cfg (default [] (Contents response))))))
    as [prof ->].
  cbn [bind].
  destruct (loadMetadata_not_null _ _ _ Hmd) as [Hn Hu]; [exact Hnn|].
  destruct (getProp_total md "processed_at" Hn Hu) as [pa ->].
  destruct (getProp_total md "original_filename" Hn Hu) as [ofn ->].
  cbn [bind try_catch]. eauto.
Qed.

Lemma getS3SessionData_unusable (candidate session : string) (r : SessionRecord) :
  getS3SessionData s3 cfg candidate session = Ok (Some r) ->
  (forall p, Slots.metadata (files r) = Some p -> unusable (getS3Object s3) p ->
             metadata r = JObj [] /\ createdAt r = JNull
             /\ originalFilename r = JNull)
  /\ (forall p, Slots.profile (files r) = Some p -> unusable (getS3Object s3) p ->
                candidateProfile r = JObj []).
Proof.
  intros H. apply getS3SessionData_inv in H
    as (response & md & prof & pa & ofn & H).
  cbv zeta in H. destruct H as (_ & Hmd & Hprof & Hpa & Hofn & ->).
  cbn [files metadata createdAt originalFilename candidateProfile]. split.
  - intros p Hp Hbad. rewrite Hp, (loadMetadata_unusable _ _ Hbad) in Hmd.
    inversion Hmd; subst md. cbn in Hpa, Hofn. inversion Hpa. inversion Hofn.
    auto.
  - intros p Hp Hbad. rewrite Hp, (loadProfile_unusable _ _ Hbad) in Hprof.
    inversion Hprof. reflexivity.
Qed.
End Materializer.

(** ** Walking the listings *)

Lemma forOf_ext {A S} (body1 body2 : S -> A -> result S) (xs : list A) (acc : S) :
  (forall acc x, body1 acc x = body2 acc x) ->
  forOf body1 xs acc = forOf body2 xs acc.
Proof.
  intros Hext. revert acc. induction xs as [|x xs IH]; intros acc; [reflexivity|].
  cbn [forOf]. rewrite Hext. destruct (body2 acc x); cbn [bind]; auto.
Qed.

(** A collecting loop that succeeded got one record from every element. *)
Lemma forOf_collect_inv {A B} (f : A -> result B) (xs : list A)
  (acc out : list B) :
  forOf (fun acc x => r <- f x ;; Ok (acc ++ [r])) xs acc = Ok out ->
  exists rs, out = acc ++ rs /\ Forall2 (fun x r => f x = Ok r) xs rs.
Proof.
  revert acc. induction xs as [|x xs IH]; intros acc H; cbn [forOf] in H.
  - inversion H. exists []. rewrite app_nil_r. split; [reflexivity | constructor].
  - destruct (f x) as [r|e] eqn:Hr; cbn [bind] in H; [|discriminate].
    apply IH in H as [rs [-> HF]]. exists (r :: rs).
    rewrite <- app_assoc. split; [reflexivity | constructor; assumption].
Qed.

(** The loop of the object-store session listing, which skips the prefixes
    that yield [null]. *)
Lemma forOf_collect_some {A B} (f : A -> result (option B)) (xs : list A)
  (acc : list B) :
  (forall x, In x xs -> exists r, f x = Ok (Some r)) ->
  exists rs,
    forOf (fun acc x =>
             o <- f x ;;
             match o with Some r => Ok (acc ++ [r]) | None => Ok acc end)
          xs acc = Ok (acc ++ rs)
    /\ Forall2 (fun x r => f x = Ok (Some r)) xs rs.
Proof.
  revert acc. induction xs as [|x xs IH]; intros acc Hall.
  - exists []. rewrite app_nil_r. split; [reflexivity | constructor].
  - destruct (Hall x (or_introl eq_refl)) as [r Hr].
    destruct (IH (acc ++ [r]) (fun y Hy => Hall y (or_intror Hy))) as [rs [Hrs Hf]].
    exists (r :: rs). cbn [forOf]. rewrite Hr. cbn [bind]. rewrite Hrs.
    rewrite <- app_assoc. split; [reflexivity | constructor; assumption].
Qed.

Lemma Forall2_map_eq {A B C} (P : A -> B -> Prop) (g : B -> C) (h : A -> C)
  (xs : list A) (rs : list B) :
  Forall2 P xs rs -> (forall x r, P x r -> g r = h x) -> map g rs = map h xs.
Proof.
  intros HF Hp. induction HF as [|x r xs rs Hxr _ IH]; [reflexivity|].
  cbn [map]. rewrite IH, (Hp x r Hxr). reflexivity.
Qed.

Lemma Forall2_In_r {A B} (P : A -> B -> Prop) (xs : list A) (rs : list B) (r : B) :
  Forall2 P xs rs -> In r rs -> exists x, In x xs /\ P x r.
Proof.
  intros HF. induction HF as [|x r' xs rs Hxr _ IH]; intros Hin; [destruct Hin|].
  destruct Hin as [->|Hin]; [exists x; split; [left; reflexivity | exact Hxr]|].
  destruct (IH Hin) as [y [Hy Hp]]. exists y. split; [right; exact Hy | exact Hp].
Qed.

Lemma In_directoriesOf (entries : list Dirent.t) (d : Dirent.t) :
  In d (filter (fun d => Dirent.isDirectory d = true) entries) ->
  In (Dirent.name d) (directoriesOf entries).
Proof. intros H. unfold directoriesOf. apply in_map, H. Qed.

(** The row of a candidate: its count is the number of sessions, and the
    rest is read off the first session of the list. *)
Lemma candidateInfoOf_total (candidate : string) (sessions : list SessionRecord) :
  exists row,
    candidateInfoOf candidate sessions = Ok row
    /\ CandidateInfo.candidateId row = candidate
    /\ CandidateInfo.sessionCount row = length sessions
    /\ match sessions with
       | [] =>
           CandidateInfo.lastActivity row = JNull
           /\ CandidateInfo.name row = JNull
           /\ CandidateInfo.location row = JNull
           /\ CandidateInfo.experience row = JNull
       | first :: _ =>
           CandidateInfo.lastActivity row = createdAt first
           /\ getPropOpt (candidateProfile first) "name"
              = Ok (CandidateInfo.name row)
           /\ getPropOpt (candidateProfile first) "location"
              = Ok (CandidateInfo.location row)
           /\ getPropOpt (candidateProfile first) "experience"
              = Ok (CandidateInfo.experience row)
       end.
Proof.
  destruct sessions as [|first rest]; cbn [candidateInfoOf].
  - eexists. split; [reflexivity|]. cbn. repeat split; reflexivity.
  - destruct (getPropOpt_total (candidateProfile first) "name") as [n Hn].
    destruct (getPropOpt_total (candidateProfile first) "location") as [l Hl].
    destruct (getPropOpt_total (candidateProfile first) "experience") as [x Hx].
    rewrite Hn, Hl, Hx. cbn [bind].
    eexists. split; [reflexivity|]. cbn. repeat split; reflexivity.
Qed.

Section ListingWalk.
Variable newDate : jsval -> option Z.
Variables (fs : FsEnv) (s3 : S3Env) (cfg : Config).

(** Every session directory that can be walked is in the listing, and every
    element of the listing is the record of its session. *)
Lemma listFilesystemSessions_walk (candidate : string) (entries : list Dirent.t) :
  readdir fs (candidateDirOf cfg candidate) = Ok entries ->
  (forall session, In session (directoriesOf entries) ->
                   fsSessionWalkable fs cfg candidate session) ->
  exists l,
    listFilesystemSessions newDate fs cfg candidate = Ok l
    /\ Permutation (map sessionId l) (directoriesOf entries)
    /\ forall r, In r l ->
                 materializeFsSession fs cfg candidate (sessionId r) = Ok r.
Proof.
  intros Hdir Hwalk. unfold listFilesystemSessions.
  fold (candidateDirOf cfg candidate). rewrite Hdir. cbn [bind].
  set (xs := filter (fun d => Dirent.isDirectory d = true) entries).
  destruct (forOf_collect
              (fun d => materializeFsSession fs cfg candidate (Dirent.name d))
              xs []) as [rs [Hrs HF]].
  { intros d Hd. apply materializeFsSession_total, Hwalk, In_directoriesOf, Hd. }
  rewrite Hrs. cbn [app bind try_catch].
  exists (sortSessions newDate rs). split; [reflexivity|]. split.
  - unfold sortSessions. rewrite (Array_sort_Permutation _ rs).
    unfold directoriesOf. fold xs.
    erewrite (Forall2_map_eq _ sessionId Dirent.name xs rs HF); [reflexivity|].
    intros d r Hr. cbv beta in Hr. apply (materializeFsSession_sessionId _ _ _ _ _ Hr).
  - intros r Hr.
    apply (Permutation_in _ (Array_sort_Permutation _ rs)) in Hr.
    destruct (Forall2_In_r _ _ _ _ HF Hr) as [d [_ Hd]]. cbv beta in Hd.
    rewrite (materializeFsSession_sessionId _ _ _ _ _ Hd). exact Hd.
Qed.

Lemma listS3Sessions_walk (candidate : string) (response : ListResponse) :
  listObjectsV2 s3 (candidatePrefix cfg candidate) (Some "/") = Ok response ->
  (forall commonPrefix, In commonPrefix (default [] (CommonPrefixes response)) ->
     s3SessionWalkable s3 cfg candidate
       (idOfPrefix (candidatePrefix cfg candidate) commonPrefix)) ->
  exists l,
    listS3Sessions newDate s3 cfg candidate = Ok l
    /\ Permutation (map sessionId l)
         (map (idOfPrefix (candidatePrefix cfg candidate))
              (default [] (CommonPrefixes response)))
    /\ forall r, In r l ->
                 getS3SessionData s3 cfg candidate (sessionId r) = Ok (Some r).
Proof.
  intros Hlist Hwalk. unfold listS3Sessions.
  fold (candidatePrefix cfg candidate). cbv zeta. rewrite Hlist. cbn [bind].
  set (xs := default [] (CommonPrefixes response)).
  destruct (forOf_collect_some
              (fun cp => getS3SessionData s3 cfg candidate
                           (idOfPrefix (candidatePrefix cfg candidate) cp))
              xs []) as [rs [Hrs HF]].
  { intros cp Hcp. apply getS3SessionData_total, Hwalk, Hcp. }
  rewrite Hrs. cbn [app bind try_catch].
  exists (sortSessions newDate rs). split; [reflexivity|]. split.
  - unfold sortSessions. rewrite (Array_sort_Permutation _ rs).
    erewrite (Forall2_map_eq _ sessionId _ xs rs HF); [reflexivity|].
    intros cp r Hr. cbv beta in Hr. apply (getS3SessionData_sessionId _ _ _ _ _ Hr).
  - intros r Hr.
    apply (Permutation_in _ (Array_sort_Permutation _ rs)) in Hr.
    destruct (Forall2_In_r _ _ _ _ HF Hr) as [cp [_ Hcp]]. cbv beta in Hcp.
    rewrite (getS3SessionData_sessionId _ _ _ _ _ Hcp). exact Hcp.
Qed.
End ListingWalk.

Section RosterWalk.
Variable newDate : jsval -> option Z.
Variables (fs : FsEnv) (s3 : S3Env) (cfg : Config).

Lemma fsRosterRow_candidateId (candidate : string) (row : CandidateInfo.t) :
  fsRosterRow newDate fs cfg candidate = Ok row ->
  CandidateInfo.candidateId row = candidate.
Proof.
  unfold fsRosterRow. destruct (listFilesystemSessions _ _ _ _) as [l|e];
    cbn [bind]; [|discriminate].
  destruct (candidateInfoOf_total candidate l) as [row' [-> [Hid _]]].
  intros H. inversion H as [Hrow]. rewrite <- Hrow. exact Hid.
Qed.

Lemma s3RosterRow_candidateId (candidate : string) (row : CandidateInfo.t) :
  s3RosterRow newDate s3 cfg candidate = Ok row ->
  CandidateInfo.candidateId row = candidate.
Proof.
  unfold s3RosterRow. destruct (listS3Sessions _ _ _ _) as [l|e];
    cbn [bind]; [|discriminate].
  destruct (candidateInfoOf_total candidate l) as [row' [-> [Hid _]]].
  intros H. inversion H as [Hrow]. rewrite <- Hrow. exact Hid.
Qed.

Lemma s3RosterRow_total (candidate : string) :
  exists row, s3RosterRow newDate s3 cfg candidate = Ok row.
Proof.
  unfold s3RosterRow.
  destruct (listS3Sessions_total newDate s3 cfg candidate) as [l ->]. cbn [bind].
  destruct (candidateInfoOf_total candidate l) as [row [-> _]]. eauto.
Qed.

(** The filesystem roster, written with one step per candidate. *)
Lemma listFilesystemCandidates_unfold :
  listFilesystemCandidates newDate fs cfg
  = try_catch
      (candidates <- readdir fs (candidateDataPath cfg) ;;
       candidateList <-
         forOf (fun acc d =>
                  row <- fsRosterRow newDate fs cfg (Dirent.name d) ;;
                  Ok (acc ++ [row]))
               (filter (fun d => Dirent.isDirectory d = true) candidates) [] ;;
       Ok (sortCandidates newDate candidateList))
      enoentAsEmpty.
Proof.
  unfold listFilesystemCandidates. f_equal.
  destruct (readdir fs (candidateDataPath cfg)) as [candidates|e]; [|reflexivity].
  cbn [bind]. f_equal. apply forOf_ext. intros acc d. unfold fsRosterRow.
  destruct (listFilesystemSessions _ _ _ _); reflexivity.
Qed.

Lemma listS3Candidates_unfold :
  listS3Candidates newDate s3 cfg
  = try_catch
      (response <- listObjectsV2 s3 (rootPrefix cfg) (Some "/") ;;
       candidateList <-
         forOf (fun acc commonPrefix =>
                  row <- s3RosterRow newDate s3 cfg
                           (idOfPrefix (rootPrefix cfg) commonPrefix) ;;
                  Ok (acc ++ [row]))
               (default [] (CommonPrefixes response)) [] ;;
       Ok (sortCandidates newDate candidateList))
      (fun _ => Ok []).
Proof.
  unfold listS3Candidates. fold (rootPrefix cfg). cbv zeta. f_equal.
  destruct (listObjectsV2 s3 (rootPrefix cfg) (Some "/")) as [response|e];
    [|reflexivity].
  cbn [bind]. f_equal. apply forOf_ext. intros acc cp. unfold s3RosterRow.
  destruct (listS3Sessions _ _ _ _); reflexivity.
Qed.

(** Every row of a roster is the row of its candidate. *)
Lemma listFilesystemCandidates_rows (rows : list CandidateInfo.t)
  (row : CandidateInfo.t) :
  listFilesystemCandidates newDate fs cfg = Ok rows -> In row rows ->
  fsRosterRow newDate fs cfg (CandidateInfo.candidateId row) = Ok row.
Proof.
  rewrite listFilesystemCandidates_unfold. intros H Hin.
  destruct (readdir fs (candidateDataPath cfg)) as [candidates|e];
    cbn [bind try_catch] in H.
  - destruct (forOf _ _ _) as [out|e] eqn:Hloop; cbn [bind try_catch] in H.
    + inversion H. subst rows.
      apply (Permutation_in _ (Array_sort_Permutation _ out)) in Hin.
      apply forOf_collect_inv in Hloop as [rs [-> HF]]. cbn [app] in Hin.
      destruct (Forall2_In_r _ _ _ _ HF Hin) as [d [_ Hd]]. cbv beta in Hd.
      rewrite (fsRosterRow_candidateId _ _ Hd). exact Hd.
    + unfold enoentAsEmpty in H. destruct (decide _); inversion H.
      subst rows. destruct Hin.
  - unfold enoentAsEmpty in H. destruct (decide _); inversion H.
    subst rows. destruct Hin.
Qed.

Lemma listS3Candidates_rows (rows : list CandidateInfo.t)
  (row : CandidateInfo.t) :
  listS3Candidates newDate s3 cfg = Ok rows -> In row rows ->
  s3RosterRow newDate s3 cfg (CandidateInfo.candidateId row) = Ok row.
Proof.
  rewrite listS3Candidates_unfold. intros H Hin.
  destruct (listObjectsV2 s3 (rootPrefix cfg) (Some "/")) as [response|e];
    cbn [bind try_catch] in H.
  - destruct (forOf _ _ _) as [out|e] eqn:Hloop; cbn [bind try_catch] in H.
    + inversion H. subst rows.
      apply (Permutation_in _ (Array_sort_Permutation _ out)) in Hin.
      apply forOf_collect_inv in Hloop as [rs [-> HF]]. cbn [app] in Hin.
      destruct (Forall2_In_r _ _ _ _ HF Hin) as [cp [_ Hcp]]. cbv beta in Hcp.
      rewrite (s3RosterRow_candidateId _ _ Hcp). exact Hcp.
    + inversion H. subst rows. destruct Hin.
  - inversion H. subst rows. destruct Hin.
Qed.

(** A roster whose candidate directories can all be walked has a row for
    each of them. *)
Lemma listFilesystemCandidates_walk (entries : list Dirent.t) :
  readdir fs (candidateDataPath cfg) = Ok entries ->
  (forall candidate, In candidate (directoriesOf entries) ->
                     fsCandidateWalkable fs cfg candidate) ->
  exists rows,
    listFilesystemCandidates newDate fs cfg = Ok rows
    /\ Permutation (map CandidateInfo.candidateId rows) (directoriesOf entries).
Proof.
  intros Hdir Hwalk. rewrite listFilesystemCandidates_unfold, Hdir. cbn [bind].
  set (xs := filter (fun d => Dirent.isDirectory d = true) entries).
  destruct (forOf_collect (fun d => fsRosterRow newDate fs cfg (Dirent.name d))
              xs []) as [rs [Hrs HF]].
  { intros d Hd.
    destruct (Hwalk _ (In_directoriesOf _ _ Hd)) as [sub [Hsub Hall]].
    destruct (listFilesystemSessions_walk newDate fs cfg _ _ Hsub Hall)
      as [l [Hl _]].
    unfold fsRosterRow. rewrite Hl. cbn [bind].
    destruct (candidateInfoOf_total (Dirent.name d) l) as [row [-> _]]. eauto. }
  rewrite Hrs. cbn [app bind try_catch].
  exists (sortCandidates newDate rs). split; [reflexivity|].
  unfold sortCandidates. rewrite (Array_sort_Permutation _ rs).
  unfold directoriesOf. fold xs.
  erewrite (Forall2_map_eq _ CandidateInfo.candidateId Dirent.name xs rs HF);
    [reflexivity|].
  intros d r Hr. cbv beta in Hr. apply (fsRosterRow_candidateId _ _ Hr).
Qed.

(** On the object store a roster has a row for every common prefix of the
    root listing, whatever the sessions below hold. *)
Lemma listS3Candidates_walk (response : ListResponse) :
  listObjectsV2 s3 (rootPrefix cfg) (Some "/") = Ok response ->
  exists rows,
    listS3Candidates newDate s3 cfg = Ok rows
    /\ Permutation (map CandidateInfo.candidateId rows)
         (map (idOfPrefix (rootPrefix cfg))
              (default [] (CommonPrefixes response))).
Proof.
  intros Hlist. rewrite listS3Candidates_unfold, Hlist. cbn [bind].
  set (xs := default [] (CommonPrefixes response)).
  destruct (forOf_collect
              (fun cp => s3RosterRow newDate s3 cfg (idOfPrefix (rootPrefix cfg) cp))
              xs []) as [rs [Hrs HF]].
  { intros cp _. apply s3RosterRow_total. }
  rewrite Hrs. cbn [app bind try_catch].
  exists (sortCandidates newDate rs). split; [reflexivity|].
  unfold sortCandidates. rewrite (Array_sort_Permutation _ rs).
  erewrite (Forall2_map_eq _ CandidateInfo.candidateId _ xs rs HF);
    [reflexivity|].
  intros cp r Hr. cbv beta in Hr. apply (s3RosterRow_candidateId _ _ Hr).
Qed.
End RosterWalk.

(** A metadata or profile document that cannot be read, or that
    [JSON.parse] rejects, does not end a listing. On both backends: when
    the session directories (prefixes) of a candidate can be walked, which
    asks that no metadata document holds the literal [null], the session
    listing returns one record for each of them, and the record of a
    session whose metadata (profile) document cannot be used carries the
    empty metadata (profile) object; and the roster has one row for every
    candidate. *)
Lemma unusable_document_keeps_listing (newDate : jsval -> option Z)
  (fs : FsEnv) (s3 : S3Env) (cfg : Config) :
  (forall candidate entries,
     readdir fs (candidateDirOf cfg candidate) = Ok entries ->
     (forall session, In session (directoriesOf entries) ->
                      fsSessionWalkable fs cfg candidate session) ->
     exists l,
       listFilesystemSessions newDate fs cfg candidate = Ok l
       /\ Permutation (map sessionId l) (directoriesOf entries)
       /\ forall r, In r l ->
            (forall p, Slots.metadata (files r) = Some p ->
                       unusable (readFile fs) p ->
                       metadata r = JObj [] /\ createdAt r = JNull)
            /\ (forall p, Slots.profile (files r) = Some p ->
                          unusable (readFile fs) p ->
                          candidateProfile r = JObj []))
  /\ (forall entries,
        readdir fs (candidateDataPath cfg) = Ok entries ->
        (forall candidate, In candidate (directoriesOf entries) ->
                           fsCandidateWalkable fs cfg candidate) ->
        exists rows,
          listFilesystemCandidates newDate fs cfg = Ok rows
          /\ Permutation (map CandidateInfo.candidateId rows)
               (directoriesOf entries))
  /\ (forall candidate response,
        listObjectsV2 s3 (candidatePrefix cfg candidate) (Some "/") = Ok response ->
        (forall commonPrefix,
           In commonPrefix (default [] (CommonPrefixes response)) ->
           s3SessionWalkable s3 cfg candidate
             (idOfPrefix (candidatePrefix cfg candidate) commonPrefix)) ->
        exists l,
          listS3Sessions newDate s3 cfg candidate = Ok l
          /\ Permutation (map sessionId l)
               (map (idOfPrefix (candidatePrefix cfg candidate))
                    (default [] (CommonPrefixes response)))
          /\ forall r, In r l ->
               (forall p, Slots.metadata (files r) = Some p ->
                          unusable (getS3Object s3) p ->
                          metadata r = JObj [] /\ createdAt r = JNull)
               /\ (forall p, Slots.profile (files r) = Some p ->
                             unusable (getS3Object s3) p ->
                             candidateProfile r = JObj []))
  /\ (forall response,
        listObjectsV2 s3 (rootPrefix cfg) (Some "/") = Ok response ->
        exists rows,
          listS3Candidates newDate s3 cfg = Ok rows
          /\ Permutation (map CandidateInfo.candidateId rows)
               (map (idOfPrefix (rootPrefix cfg))
                    (default [] (CommonPrefixes response)))).
Proof.
  split; [|split; [|split]].
  - intros candidate entries Hdir Hwalk.
    destruct (listFilesystemSessions_walk newDate fs cfg _ _ Hdir Hwalk)
      as [l [Hl [Hperm Hrec]]].
    exists l. split; [exact Hl|]. split; [exact Hperm|].
    intros r Hr.
    destruct (materializeFsSession_unusable fs cfg _ _ _ (Hrec r Hr)) as [Hm Hp].
    split; [|exact Hp].
    intros p Hslot Hbad. destruct (Hm p Hslot Hbad) as [H1 [H2 _]]. auto.
  - apply listFilesystemCandidates_walk.
  - intros candidate response Hlist Hwalk.
    destruct (listS3Sessions_walk newDate s3 cfg _ _ Hlist Hwalk)
      as [l [Hl [Hperm Hrec]]].
    exists l. split; [exact Hl|]. split; [exact Hperm|].
    intros r Hr.
    destruct (getS3SessionData_unusable s3 cfg _ _ _ (Hrec r Hr)) as [Hm Hp].
    split; [|exact Hp].
    intros p Hslot Hbad. destruct (Hm p Hslot Hbad) as [H1 [H2 _]]. auto.
  - apply listS3Candidates_walk.
Qed.

Example unusable_document_keeps_listing_sample :
  exists l,
    listFilesystemSessions isoDate (fsOf sampleDisk) fsConfig "CAND2" = Ok l
    /\ Permutation (map sessionId l)
         (directoriesOf [Dirent.mk "20230601-120000-IST" true;
                         Dirent.mk "20230701-120000-IST" true])
    /\ forall r, In r l ->
         (forall p, Slots.metadata (files r) = Some p ->
                    unusable (readFile (fsOf sampleDisk)) p ->
                    metadata r = JObj [] /\ createdAt r = JNull)
         /\ (forall p, Slots.profile (files r) = Some p ->
                       unusable (readFile (fsOf sampleDisk)) p ->
                       candidateProfile r = JObj []).
Proof.
  apply (proj1 (unusable_document_keeps_listing isoDate (fsOf sampleDisk)
                  (s3Of sampleBucket) fsConfig) "CAND2").
  - vm_compute. reflexivity.
  - intros session Hin. vm_compute in Hin.
    destruct Hin as [<-|[<-|[]]]; (split;
      [eexists; vm_compute; reflexivity
      | intros [H|H]; vm_compute in H; discriminate H]).
Qed.

(** The cut-off metadata document of the sample store is one that cannot be
    used, and its session is listed with the empty metadata object next to
    its intact sibling. *)
Example sample_cut_off_metadata :
  unusable (readFile (fsOf sampleDisk))
    "candidate-data/CAND2/20230601-120000-IST/metadata.json"
  /\ exists r1 r2,
       listFilesystemSessions isoDate (fsOf sampleDisk) fsConfig "CAND2"
         = Ok [r1; r2]
       /\ sessionId r1 = "20230601-120000-IST" /\ metadata r1 = JObj []
       /\ sessionId r2 = "20230701-120000-IST" /\ metadata r2 = metadata2023.
Proof.
  split.
  - unfold unusable. vm_compute. eexists. reflexivity.
  - do 2 eexists. split; [vm_compute; reflexivity|]. cbn. auto.
Qed.

(** A metadata document that holds the literal [null] is accepted by
    [JSON.parse]; reading [processed_at] off it throws, which ends the
    filesystem listing and makes the object store skip the session. *)
Lemma null_metadata_document (fs : FsEnv) (s3 : S3Env) (cfg : Config)
  (candidate session : string) (entries : list Dirent.t)
  (response : ListResponse) (key : string) :
  (readdir fs (sessionPathOf cfg candidate session) = Ok entries ->
   "metadata.json" ∈ map Dirent.name entries ->
   readFile fs (path_join (sessionPathOf cfg candidate session) "metadata.json")
     = Ok (JsonText JNull) ->
   exists msg, materializeFsSession fs cfg candidate session
               = Throw (TypeError msg))
  /\ (listObjectsV2 s3 (baseKeyOf cfg candidate session +:+ "/") None
        = Ok response ->
      Slots.metadata (fst (classifyObjects cfg (default [] (Contents response))))
        = Some key ->
      getS3Object s3 key = Ok (JsonText JNull) ->
      getS3SessionData s3 cfg candidate session = Ok None).
Proof.
  split.
  - intros Hdir Hin Hread. unfold materializeFsSession, readdirNames.
    fold (candidateDirOf cfg candidate). fold (sessionPathOf cfg candidate session).
    cbv zeta. rewrite Hdir. cbn [bind]. rewrite classifyFiles_metadata.
    destruct (decide _); [|contradiction].
    cbn [loadMetadata]. rewrite Hread. cbn [bind JSON_parse try_catch].
    destruct (loadProfile_total (readFile fs)
      (Slots.profile (fst (classifyFiles candidate session
         (sessionPathOf cfg candidate session) (map Dirent.name entries)))))
      as [prof ->].
    cbn [bind getProp]. eauto.
  - intros Hlist Hslot Hread. unfold getS3SessionData.
    fold (baseKeyOf cfg candidate session). cbv zeta. rewrite Hlist.
    cbn [bind]. rewrite Hslot. cbn [loadMetadata]. rewrite Hread.
    cbn [bind JSON_parse try_catch].
    destruct (loadProfile_total (getS3Object s3)
      (Slots.profile (fst (classifyObjects cfg (default [] (Contents response))))))
      as [prof ->].
    reflexivity.
Qed.

(** C7, at the failing input. In the sample store the [metadata.json] of the
    first session of [CAND2] is replaced by the JSON literal [null], which
    [JSON.parse] accepts. Reading [processed_at] off it throws outside the
    [try] that guards the parsing. On the filesystem the session listing of
    [CAND2] throws, so the intact sibling session is not listed either, and
    the roster throws, so no candidate is listed; on the object store the
    session is left out of the listing, and the roster counts one session
    for [CAND2]. The same literal in the place of the profile document is
    tolerated, as its fields are read inside the [try]: both sessions are
    listed, the first with the empty profile object. *)
Theorem null_metadata_aborts_the_listing :
  listCandidateSessions isoDate (fsOf nullMetadataDisk) (s3Of nullMetadataBucket)
    fsConfig "CAND2"
  = Throw (TypeError "Cannot read properties of null or undefined: processed_at")
  /\ listCandidates isoDate (fsOf nullMetadataDisk) (s3Of nullMetadataBucket)
       fsConfig
     = Throw (TypeError "Cannot read properties of null or undefined: processed_at")
  /\ (exists r,
        listCandidateSessions isoDate (fsOf nullMetadataDisk)
          (s3Of nullMetadataBucket) s3Config "CAND2" = Ok (Some [r])
        /\ sessionId r = "20230701-120000-IST")
  /\ (exists rows row,
        listCandidates isoDate (fsOf nullMetadataDisk) (s3Of nullMetadataBucket)
          s3Config = Ok (Some rows)
        /\ In row rows
        /\ CandidateInfo.candidateId row = "CAND2"
        /\ CandidateInfo.sessionCount row = 1%nat)
  /\ (exists r1 r2,
        listCandidateSessions isoDate (fsOf nullProfileDisk)
          (s3Of nullMetadataBucket) fsConfig "CAND2" = Ok (Some [r1; r2])
        /\ sessionId r1 = "20230601-120000-IST"
        /\ candidateProfile r1 = JObj []
        /\ sessionId r2 = "20230701-120000-IST").
Proof.
  split; [vm_compute; reflexivity|].
  split; [vm_compute; reflexivity|].
  split; [eexists; split; [vm_compute; reflexivity | reflexivity]|].
  split.
  - do 2 eexists. split; [vm_compute; reflexivity|].
    split; [left; reflexivity|]. split; reflexivity.
  - do 2 eexists. split; [vm_compute; reflexivity|]. cbn. auto.
Qed.

(** ** What the object store tolerates *)

(** The loop of the object-store session listing over prefixes none of
    which throws: the list holds the records that were found. *)
Lemma forOf_skipping {A B} (f : A -> result (option B)) (xs : list A)
  (acc : list B) :
  (forall x, In x xs -> exists o, f x = Ok o) ->
  exists out,
    forOf (fun acc x =>
             o <- f x ;;
             match o with Some r => Ok (acc ++ [r]) | None => Ok acc end)
          xs acc = Ok out
    /\ forall r, In r out <->
                 In r acc \/ exists x, In x xs /\ f x = Ok (Some r).
Proof.
  revert acc. induction xs as [|x xs IH]; intros acc Hall.
  - exists acc. split; [reflexivity|]. intros r. split; [auto|].
    intros [H|[x [[] _]]]. exact H.
  - destruct (Hall x (or_introl eq_refl)) as [o Ho].
    destruct (IH (match o with Some r => acc ++ [r] | None => acc end)
                (fun y Hy => Hall y (or_intror Hy))) as [out [Hout Hin]].
    exists out. split.
    + cbn [forOf]. rewrite Ho. cbn [bind]. destruct o; cbn [bind]; exact Hout.
    + intros r. rewrite Hin. split.
      * intros [H|[y [Hy Hf]]]; [|right; exists y; split; [right|]; assumption].
        destruct o as [r0|]; [|left; exact H].
        apply in_app_or in H as [H|[<-|[]]]; [left; exact H|].
        right. exists x. split; [left; reflexivity | exact Ho].
      * intros [H|[y [[<-|Hy] Hf]]].
        -- left. destruct o; [apply in_or_app; left|]; exact H.
        -- left. rewrite Hf in Ho. inversion Ho. apply in_or_app. right. left.
           reflexivity.
        -- right. exists y. split; assumption.
Qed.

Lemma getS3SessionData_returns (s3 : S3Env) (cfg : Config)
  (candidate session : string) :
  exists o, getS3SessionData s3 cfg candidate session = Ok o.
Proof.
  unfold getS3SessionData.
  match goal with |- exists o, try_catch ?m _ = _ => destruct m end;
    cbn [try_catch]; eauto.
Qed.

(** The session listing of the object store holds the records of the session
    prefixes for which one could be built. *)
Lemma listS3Sessions_members (newDate : jsval -> option Z) (s3 : S3Env)
  (cfg : Config) (candidate : string) (response : ListResponse) :
  listObjectsV2 s3 (candidatePrefix cfg candidate) (Some "/") = Ok response ->
  exists l,
    listS3Sessions newDate s3 cfg candidate = Ok l
    /\ forall r, In r l <->
         exists commonPrefix,
           In commonPrefix (default [] (CommonPrefixes response))
           /\ getS3SessionData s3 cfg candidate
                (idOfPrefix (candidatePrefix cfg candidate) commonPrefix)
              = Ok (Some r).
Proof.
  intros Hlist. unfold listS3Sessions.
  fold (candidatePrefix cfg candidate). cbv zeta. rewrite Hlist. cbn [bind].
  destruct (forOf_skipping
              (fun cp => getS3SessionData s3 cfg candidate
                           (idOfPrefix (candidatePrefix cfg candidate) cp))
              (default [] (CommonPrefixes response)) [])
    as [out [Hout Hin]].
  { intros cp _. apply getS3SessionData_returns. }
  rewrite Hout. cbn [bind try_catch].
  exists (sortSessions newDate out). split; [reflexivity|].
  intros r. unfold sortSessions.
  rewrite <- !list_elem_of_In, (Array_sort_Permutation _ out), !list_elem_of_In.
  rewrite Hin. split; [intros [[]|H]; exact H | auto].
Qed.

(** C5. With the object store configured, both listings always return a
    list, and return the empty list when their listing request fails. A
    document of one session that cannot be read or parsed is tolerated where
    it occurs: when the listing request of a candidate succeeds, the session
    listing holds exactly the records of the session prefixes for which a
    record could be built; a session whose own listing succeeds and whose
    metadata object cannot be used is among them, with the empty metadata
    object and without creation date; every listed session whose profile
    object cannot be used carries the empty profile object; and a session
    with such a profile is listed when its metadata does not hold the
    literal [null]. The roster has a row for every candidate prefix,
    whatever the sessions below hold. With the filesystem configured, an
    error of [readdir] other than [ENOENT] reaches the caller. *)
Theorem object_store_swallows_listing_failures (newDate : jsval -> option Z)
  (fs : FsEnv) (s3 : S3Env) (cfg : Config) (candidate : string) :
  (cfg_storageType cfg = "s3" ->
   (exists l, listCandidates newDate fs s3 cfg = Ok (Some l))
   /\ (exists l, listCandidateSessions newDate fs s3 cfg candidate = Ok (Some l))
   /\ (forall e, listObjectsV2 s3 (rootPrefix cfg) (Some "/") = Throw e ->
                 listCandidates newDate fs s3 cfg = Ok (Some []))
   /\ (forall e,
         listObjectsV2 s3 (candidatePrefix cfg candidate) (Some "/") = Throw e ->
         listCandidateSessions newDate fs s3 cfg candidate = Ok (Some []))
   /\ (forall response,
         listObjectsV2 s3 (candidatePrefix cfg candidate) (Some "/") = Ok response ->
         exists l,
           listCandidateSessions newDate fs s3 cfg candidate = Ok (Some l)
           /\ (forall r, In r l <->
                 exists commonPrefix,
                   In commonPrefix (default [] (CommonPrefixes response))
                   /\ getS3SessionData s3 cfg candidate
                        (idOfPrefix (candidatePrefix cfg candidate) commonPrefix)
                      = Ok (Some r))
           /\ (forall commonPrefix sessionResponse key,
                 In commonPrefix (default [] (CommonPrefixes response)) ->
                 listObjectsV2 s3
                   (baseKeyOf cfg candidate
                      (idOfPrefix (candidatePrefix cfg candidate) commonPrefix)
                    +:+ "/") None = Ok sessionResponse ->
                 Slots.metadata
                   (fst (classifyObjects cfg
                           (default [] (Contents sessionResponse)))) = Some key ->
                 unusable (getS3Object s3) key ->
                 exists r,
                   In r l
                   /\ sessionId r
                      = idOfPrefix (candidatePrefix cfg candidate) commonPrefix
                   /\ files r
                      = fst (classifyObjects cfg
                               (default [] (Contents sessionResponse)))
                   /\ metadata r = JObj [] /\ createdAt r = JNull)
           /\ (forall r key,
                 In r l -> Slots.profile (files r) = Some key ->
                 unusable (getS3Object s3) key ->
                 candidateProfile r = JObj [])
           /\ (forall commonPrefix key,
                 In commonPrefix (default [] (CommonPrefixes response)) ->
                 s3SessionWalkable s3 cfg candidate
                   (idOfPrefix (candidatePrefix cfg candidate) commonPrefix) ->
                 exists r,
                   In r l
                   /\ sessionId r
                      = idOfPrefix (candidatePrefix cfg candidate) commonPrefix
                   /\ (Slots.profile (files r) = Some key ->
                       unusable (getS3Object s3) key ->
                       candidateProfile r = JObj [])))
   /\ (forall response,
         listObjectsV2 s3 (rootPrefix cfg) (Some "/") = Ok response ->
         exists rows,
           listCandidates newDate fs s3 cfg = Ok (Some rows)
           /\ Permutation (map CandidateInfo.candidateId rows)
                (map (idOfPrefix (rootPrefix cfg))
                     (default [] (CommonPrefixes response)))))
  /\ (cfg_storageType cfg = "filesystem" ->
      (forall e, error_code e <> Some "ENOENT" ->
                 readdir fs (candidateDataPath cfg) = Throw e ->
                 listCandidates newDate fs s3 cfg = Throw e)
      /\ (forall e, error_code e <> Some "ENOENT" ->
                    readdir fs (candidateDirOf cfg candidate) = Throw e ->
                    listCandidateSessions newDate fs s3 cfg candidate = Throw e)).
Proof.
  split.
  - intros Ht. unfold listCandidates, listCandidateSessions. rewrite Ht.
    cbn [String.eqb Ascii.eqb Bool.eqb].
    split; [|split; [|split; [|split; [|split]]]].
    + destruct (listS3Candidates_total newDate s3 cfg) as [l ->]. eauto.
    + destruct (listS3Sessions_total newDate s3 cfg candidate) as [l ->]. eauto.
    + intros e H. rewrite (listS3Candidates_list_error _ _ _ _ H). reflexivity.
    + intros e H. rewrite (listS3Sessions_list_error _ _ _ _ _ H). reflexivity.
    + intros response Hlist.
      destruct (listS3Sessions_members newDate s3 cfg candidate response Hlist)
        as [l [-> Hin]].
      exists l. split; [reflexivity|]. split; [exact Hin|].
      split; [|split].
      * intros cp rsp key Hcp Hl Hs Hu.
        destruct (getS3SessionData_unusable_metadata s3 cfg candidate _ rsp key
                    Hl Hs Hu) as [r [Hr [Hid [Hm Hc]]]].
        exists r. split; [apply Hin; eauto|]. split; [exact Hid|].
        split; [|auto].
        destruct (getS3SessionData_inv s3 cfg _ _ _ Hr)
          as (rsp' & md & prof & pa & ofn & Hinv).
        cbv zeta in Hinv. destruct Hinv as (Hl' & _ & _ & _ & _ & ->).
        rewrite Hl in Hl'. inversion Hl'. reflexivity.
      * intros r key Hr Hslot Hu. apply Hin in Hr as [cp [_ Hcp]].
        apply (proj2 (getS3SessionData_unusable s3 cfg _ _ _ Hcp) key Hslot Hu).
      * intros cp key Hcp Hwalk.
        destruct (getS3SessionData_total s3 cfg _ _ Hwalk) as [r Hr].
        exists r. split; [apply Hin; eauto|].
        split; [apply (getS3SessionData_sessionId _ _ _ _ _ Hr)|].
        apply (proj2 (getS3SessionData_unusable s3 cfg _ _ _ Hr) key).
    + intros response Hlist.
      destruct (listS3Candidates_walk newDate s3 cfg response Hlist)
        as [rows [-> Hperm]].
      exists rows. split; [reflexivity | exact Hperm].
  - intros Ht. unfold listCandidates, listCandidateSessions. rewrite Ht.
    cbn [String.eqb Ascii.eqb Bool.eqb]. split.
    + intros e Hcode H.
      rewrite (listFilesystemCandidates_readdir_error _ _ _ _ H).
      rewrite (enoentAsEmpty_other _ Hcode). reflexivity.
    + intros e Hcode H.
      rewrite (listFilesystemSessions_readdir_error _ _ _ _ _ H).
      rewrite (enoentAsEmpty_other _ Hcode). reflexivity.
Qed.

Lemma object_store_swallows_listing_failures_witness :
  listCandidates isoDate lockedFs brokenS3 s3Config = Ok (Some [])
  /\ listCandidateSessions isoDate lockedFs brokenS3 s3Config "CAND1"
     = Ok (Some [])
  /\ (exists l r,
        listCandidateSessions isoDate lockedFs (s3Of cutOffBucket) s3Config
          "CAND2" = Ok (Some l)
        /\ In r l
        /\ sessionId r = "20230601-120000-IST"
        /\ metadata r = JObj [] /\ createdAt r = JNull
        /\ candidateProfile r = JObj [])
  /\ listCandidates isoDate lockedFs brokenS3 fsConfig
     = Throw (SysError "EACCES")
  /\ listCandidateSessions isoDate lockedFs brokenS3 fsConfig "CAND1"
     = Throw (SysError "EACCES").
Proof.
  pose proof (object_store_swallows_listing_failures isoDate lockedFs brokenS3
                s3Config "CAND1") as [Hs3 _].
  pose proof (object_store_swallows_listing_failures isoDate lockedFs
                (s3Of cutOffBucket) s3Config "CAND2") as [Hsample _].
  pose proof (object_store_swallows_listing_failures isoDate lockedFs brokenS3
                fsConfig "CAND1") as [_ Hfs].
  destruct (Hs3 eq_refl) as [_ [_ [H1 [H2 _]]]].
  destruct (Hsample eq_refl) as [_ [_ [_ [_ [H5 _]]]]].
  destruct (Hfs eq_refl) as [H3 H4].
  split; [|split; [|split; [|split]]].
  - apply (H1 (Error "NetworkingError")). reflexivity.
  - apply (H2 (Error "NetworkingError")). reflexivity.
  - destruct (H5 (mkListResponse
                    (Some ["candidate-data/CAND2/20230601-120000-IST/";
                           "candidate-data/CAND2/20230701-120000-IST/"])
                    None)) as (l & Hl & _ & Hmeta & Hprofile & _);
      [vm_compute; reflexivity|].
    destruct (Hmeta "candidate-data/CAND2/20230601-120000-IST/"
                (mkListResponse None
                   (Some ["candidate-data/CAND2/20230601-120000-IST/candidate_profile.json";
                          "candidate-data/CAND2/20230601-120000-IST/metadata.json";
                          "candidate-data/CAND2/20230601-120000-IST/transcript.txt"]))
                "candidate-data/CAND2/20230601-120000-IST/metadata.json")
      as (r & Hr & Hid & Hfiles & Hm & Hc).
    + left. reflexivity.
    + vm_compute. reflexivity.
    + vm_compute. reflexivity.
    + unfold unusable. vm_compute. eexists. reflexivity.
    + exists l, r. split; [exact Hl|]. split; [exact Hr|].
      split; [exact Hid|]. split; [exact Hm|]. split; [exact Hc|].
      apply (Hprofile r
               "candidate-data/CAND2/20230601-120000-IST/candidate_profile.json"
               Hr).
      * rewrite Hfiles. vm_compute. reflexivity.
      * unfold unusable. vm_compute. eexists. reflexivity.
  - apply H3; [discriminate | reflexivity].
  - apply H4; [discriminate | reflexivity].
Defined.

(** ** The order of the listings *)

(** C2, at the failing input. The candidate [CAND1] of the sample store has
    a session without creation date between one of 2020 and one of 2024.
    Both backends return the three sessions in the order they were listed
    in: the session of 2020 stands before the session of 2024, so the
    listing is not newest first. *)
Theorem session_listing_not_newest_first_around_undated :
  (exists l,
     listCandidateSessions isoDate (fsOf sampleDisk) (s3Of sampleBucket)
       fsConfig "CAND1" = Ok (Some l)
     /\ map createdAt l
        = [JStr "2020-01-01T00:00:00Z"; JNull; JStr "2024-01-01T00:00:00Z"]
     /\ timestamps isoDate l = [1577836800000; 1704067200000]
     /\ ~ newestFirst isoDate l)
  /\ (exists l,
        listCandidateSessions isoDate (fsOf sampleDisk) (s3Of sampleBucket)
          s3Config "CAND1" = Ok (Some l)
        /\ map createdAt l
           = [JStr "2020-01-01T00:00:00Z"; JNull; JStr "2024-01-01T00:00:00Z"]
        /\ timestamps isoDate l = [1577836800000; 1704067200000]
        /\ ~ newestFirst isoDate l).
Proof.
  assert (Hns : ~ StronglySorted Z.ge [1577836800000; 1704067200000]).
  { intros H. inversion H as [|? ? _ Hall]. inversion Hall as [|? ? Hge _]. lia. }
  split; eexists; (split; [vm_compute; reflexivity|]);
    (split; [vm_compute; reflexivity|]);
    (split; [vm_compute; reflexivity|]);
    unfold newestFirst;
    match goal with
    | |- ~ StronglySorted _ ?t =>
        replace t with [1577836800000; 1704067200000]
          by (vm_compute; reflexivity)
    end; exact Hns.
Qed.

(** C4, at the failing input. For [CAND1] of the sample store both backends
    build the roster row from the session of 2020, the first of the
    listing, although the candidate has a session of 2024: name, location,
    experience and last activity are those of the older session. *)
Theorem roster_row_not_from_newest_session :
  (exists rows row,
     listCandidates isoDate (fsOf sampleDisk) (s3Of sampleBucket) fsConfig
       = Ok (Some rows)
     /\ In row rows
     /\ CandidateInfo.candidateId row = "CAND1"
     /\ CandidateInfo.sessionCount row = 3%nat
     /\ CandidateInfo.lastActivity row = JStr "2020-01-01T00:00:00Z"
     /\ CandidateInfo.name row = JStr "Asha Rao"
     /\ CandidateInfo.location row = JStr "Pune"
     /\ CandidateInfo.experience row = JNum 2)
  /\ (exists rows row,
        listCandidates isoDate (fsOf sampleDisk) (s3Of sampleBucket) s3Config
          = Ok (Some rows)
        /\ In row rows
        /\ CandidateInfo.candidateId row = "CAND1"
        /\ CandidateInfo.sessionCount row = 3%nat
        /\ CandidateInfo.lastActivity row = JStr "2020-01-01T00:00:00Z"
        /\ CandidateInfo.name row = JStr "Asha Rao"
        /\ CandidateInfo.location row = JStr "Pune"
        /\ CandidateInfo.experience row = JNum 2)
  /\ (exists l newest,
        listCandidateSessions isoDate (fsOf sampleDisk) (s3Of sampleBucket)
          fsConfig "CAND1" = Ok (Some l)
        /\ In newest l
        /\ createdAt newest = JStr "2024-01-01T00:00:00Z"
        /\ getPropOpt (candidateProfile newest) "name" = Ok (JStr "Asha Rao-Iyer")
        /\ dateDiff isoDate (createdAt newest) (JStr "2020-01-01T00:00:00Z")
           = Some 126230400000).
Proof.
  split; [|split].
  - do 2 eexists. split; [vm_compute; reflexivity|].
    split; [left; reflexivity|]. cbn. repeat split; reflexivity.
  - do 2 eexists. split; [vm_compute; reflexivity|].
    split; [left; reflexivity|]. cbn. repeat split; reflexivity.
  - do 2 eexists. split; [vm_compute; reflexivity|].
    split; [right; right; left; reflexivity|]. cbn.
    split; [reflexivity|]. split; [reflexivity|]. vm_compute. reflexivity.
Qed.

(** ** Writes that settle *)

Section SettleAll.
Context {S : Type}.
Variable put : Write -> S -> S * option error.
Variable good : S -> Prop.
Variable upd : Write -> S -> S.
Variable look : S -> string -> option FileContent.
Variable loc : Write -> string.
Variable fault : Write -> option error.

Hypothesis put_spec : forall w s, good s ->
  put w s = (match fault w with Some _ => s | None => upd w s end, fault w).
Hypothesis upd_good : forall w s, good s -> good (upd w s).
Hypothesis look_upd_eq : forall w s, look (upd w s) (loc w) = Some (w_data w).
Hypothesis look_upd_ne : forall w s l, l <> loc w -> look (upd w s) l = look s l.

Lemma put_good (w : Write) (s : S) : good s -> good (fst (put w s)).
Proof.
  intros Hs. rewrite (put_spec w s Hs). cbn [fst].
  destruct (fault w); [exact Hs | apply upd_good, Hs].
Qed.

Lemma settleAll_good (ws : list Write) (s : S) :
  good s -> good (fst (settleAll put ws s)).
Proof.
  revert s. induction ws as [|w ws IH]; intros s Hs; [exact Hs|].
  cbn [settleAll]. pose proof (put_good w s Hs) as Hg.
  destruct (put w s) as [s1 r]. cbn [fst] in Hg. specialize (IH s1 Hg).
  destruct (settleAll put ws s1) as [s2 rs]. exact IH.
Qed.

(** How the writes ended is read off the faults. *)
Lemma settleAll_settled (ws : list Write) (s : S) :
  good s -> snd (settleAll put ws s) = map fault ws.
Proof.
  revert s. induction ws as [|w ws IH]; intros s Hs; [reflexivity|].
  cbn [settleAll]. pose proof (put_good w s Hs) as Hg.
  rewrite (put_spec w s Hs) in *. cbn [fst] in Hg.
  specialize (IH _ Hg).
  destruct (settleAll put ws _) as [s2 rs]. cbn [snd map] in *.
  rewrite IH. reflexivity.
Qed.

(** A place none of the writes targets is left as it was. *)
Lemma settleAll_frame (ws : list Write) (s : S) (l : string) :
  good s -> ~ In l (map loc ws) ->
  look (fst (settleAll put ws s)) l = look s l.
Proof.
  revert s. induction ws as [|w ws IH]; intros s Hs Hl; [reflexivity|].
  cbn [settleAll]. pose proof (put_good w s Hs) as Hg.
  rewrite (put_spec w s Hs) in *. cbn [fst] in Hg.
  assert (Hrest : ~ In l (map loc ws)) by (intros H; apply Hl; right; exact H).
  specialize (IH _ Hg Hrest).
  destruct (settleAll put ws _) as [s2 rs]. cbn [fst] in *.
  rewrite IH. destruct (fault w); [reflexivity|].
  apply look_upd_ne. intros ->. apply Hl. left. reflexivity.
Qed.

(** A write that did not reject, and whose place no later write of the call
    targets, is there when all have settled: no other write's rejection
    takes it back. *)
Lemma settleAll_kept (pre post : list Write) (w : Write) (s : S) :
  good s -> fault w = None -> ~ In (loc w) (map loc post) ->
  look (fst (settleAll put (pre ++ w :: post) s)) (loc w) = Some (w_data w).
Proof.
  revert s. induction pre as [|v pre IH]; intros s Hs Hw Hpost.
  - cbn [app settleAll]. rewrite (put_spec w s Hs), Hw.
    pose proof (settleAll_frame post (upd w s) (loc w) (upd_good w s Hs) Hpost) as Hf.
    destruct (settleAll put post (upd w s)) as [s2 rs]. cbn [fst] in *.
    rewrite Hf. apply look_upd_eq.
  - cbn [app settleAll]. pose proof (put_good v s Hs) as Hg.
    destruct (put v s) as [s1 r]. cbn [fst] in Hg.
    specialize (IH s1 Hg Hw Hpost).
    destruct (settleAll put (pre ++ w :: post) s1) as [s2 rs]. exact IH.
Qed.

Lemma settleAll_app (ws1 ws2 : list Write) (s : S) :
  settleAll put (ws1 ++ ws2) s
  = (fst (settleAll put ws2 (fst (settleAll put ws1 s))),
     snd (settleAll put ws1 s) ++ snd (settleAll put ws2 (fst (settleAll put ws1 s)))).
Proof.
  revert s. induction ws1 as [|w ws1 IH]; intros s.
  - cbn [app settleAll fst snd]. destruct (settleAll put ws2 s); reflexivity.
  - cbn [app settleAll]. destruct (put w s) as [s1 r]. rewrite IH.
    destruct (settleAll put ws1 s1) as [s2 rs]. reflexivity.
Qed.
End SettleAll.

Lemma firstError_faulty {W} (fault : W -> option error) (ws : list W) :
  (exists w, In w ws /\ fault w <> None) ->
  exists e, firstError (map fault ws) = Some e.
Proof.
  induction ws as [|v ws IH]; intros [w [Hin Hf]]; [destruct Hin|].
  cbn [map firstError]. destruct (fault v) as [e|] eqn:Ev; [eauto|].
  apply IH. destruct Hin as [->|Hin]; [congruence | eauto].
Qed.

Lemma firstError_none {W} (fault : W -> option error) (ws : list W) :
  firstError (map fault ws) = None -> forall w, In w ws -> fault w = None.
Proof.
  intros H w Hin. destruct (fault w) as [e|] eqn:Ew; [|reflexivity].
  destruct (firstError_faulty fault ws) as [e' He'];
    [exists w; split; [exact Hin | congruence] | congruence].
Qed.

Lemma firstError_clean {W} (fault : W -> option error) (ws : list W) :
  (forall w, In w ws -> fault w = None) -> firstError (map fault ws) = None.
Proof.
  induction ws as [|v ws IH]; intros H; [reflexivity|].
  cbn [map firstError]. rewrite (H v (or_introl eq_refl)).
  apply IH. intros w Hw. apply H. right. exact Hw.
Qed.

Lemma firstError_app (a b : list (option error)) :
  firstError (a ++ b)
  = match firstError a with Some e => Some e | None => firstError b end.
Proof.
  induction a as [|[e|] a IH]; cbn [app firstError]; [reflexivity | reflexivity|].
  exact IH.
Qed.

(** *** On the filesystem *)

Lemma fsRejects_writable (faults : Faults) (dir : string) (w : Write) :
  writeFileRefuses (w_data w) = None ->
  fsRejects faults dir w = faults (path_join dir (w_name w)).
Proof. intros H. unfold fsRejects. rewrite H. reflexivity. Qed.

Lemma fsWrite_spec (faults : Faults) (dir : string) (w : Write) (st : FsState) :
  is_Some (dirs st !! dir) ->
  fsWrite faults dir w st
  = (match fsRejects faults dir w with
     | Some _ => st
     | None => fsUpd dir w st
     end, fsRejects faults dir w).
Proof.
  intros [entries He]. unfold fsWrite, fsUpd.
  destruct (fsRejects _ _ _); [reflexivity|]. rewrite He. reflexivity.
Qed.

Lemma fsUpd_good (dir : string) (w : Write) (st : FsState) :
  is_Some (dirs st !! dir) -> is_Some (dirs (fsUpd dir w st) !! dir).
Proof. intros _. unfold fsUpd. cbn [dirs]. rewrite lookup_insert_eq. eauto. Qed.

Lemma fsUpd_look_eq (dir : string) (w : Write) (st : FsState) :
  fileData (fsUpd dir w st) !! path_join dir (w_name w) = Some (w_data w).
Proof. unfold fsUpd. cbn [fileData]. apply lookup_insert_eq. Qed.

Lemma fsUpd_look_ne (dir : string) (w : Write) (st : FsState) (l : string) :
  l <> path_join dir (w_name w) ->
  fileData (fsUpd dir w st) !! l = fileData st !! l.
Proof. intros H. unfold fsUpd. cbn [fileData]. apply lookup_insert_ne. congruence. Qed.

Lemma mkdirSession_good (root candidate session : string) (st : FsState) :
  is_Some (dirs (mkdirSession root candidate session st)
           !! path_join (path_join root candidate) session).
Proof. unfold mkdirSession, ensureDir. cbn [dirs]. rewrite lookup_insert_eq. eauto. Qed.


(** How the writes into a folder that is there ended is read off what is
    rejected, and the folder is still there afterwards. *)
Lemma fsSettled (faults : Faults) (folder : string) (ws : list Write)
  (st : FsState) :
  is_Some (dirs st !! folder) ->
  snd (settleAll (fsWrite faults folder) ws st) = map (fsRejects faults folder) ws
  /\ is_Some (dirs (fst (settleAll (fsWrite faults folder) ws st)) !! folder).
Proof.
  intros Hst. split.
  - apply (settleAll_settled _ (fun s => is_Some (dirs s !! folder))
             (fsUpd folder) (fsRejects faults folder)).
    + intros w s Hs. apply fsWrite_spec, Hs.
    + intros w s Hs. apply fsUpd_good, Hs.
    + exact Hst.
  - apply (settleAll_good _ (fun s => is_Some (dirs s !! folder))
             (fsUpd folder) (fsRejects faults folder)).
    + intros w s Hs. apply fsWrite_spec, Hs.
    + intros w s Hs. apply fsUpd_good, Hs.
    + exact Hst.
Qed.

Section FilesystemSave.
Variables (faults : Faults) (cfg : Config) (st : FsState).
Variables (candidate session : string) (transcript profile metadata : jsval).
Variables (generatedFiles : option GeneratedFiles) (audioFile : option UploadedFile).

Let folder := sessionPathOf cfg candidate session.
Let docs := docWrites transcript profile metadata.
Let started := fsStarted st session transcript profile metadata audioFile.
Let outcome :=
  saveToFilesystem faults cfg st candidate session transcript profile metadata
    generatedFiles audioFile.
Let st0 := mkdirSession (candidateDataPath cfg) candidate session st.

Lemma saveToFilesystem_mkdir_fails (e : error) :
  faults folder = Some e -> outcome = (st, Returns (Throw e)).
Proof.
  intros H. unfold outcome, saveToFilesystem.
  fold (candidateDirOf cfg candidate). fold (sessionPathOf cfg candidate session).
  fold folder. rewrite H. reflexivity.
Qed.

(** The call, once the folder is made: the documents settle, the upload is
    copied, and the ending is read off the two. *)
Lemma saveToFilesystem_unfold :
  faults folder = None ->
  exists res,
    outcome
    = match audioFile with
      | Some file =>
          let '(st2, copied) :=
            fsCopy faults (fileData st !! path file) folder
              (audioFilename session (originalname file))
              (fst (settleAll (fsWrite faults folder) docs st0)) in
          match firstError (map (fsRejects faults folder) docs) with
          | Some e => (st2, ProcessExit e)
          | None =>
              match copied with
              | Some e => (st2, Returns (Throw e))
              | None => (st2, Returns (Ok res))
              end
          end
      | None =>
          (fst (settleAll (fsWrite faults folder) docs st0),
           match firstError (map (fsRejects faults folder) docs) with
           | Some e => Returns (Throw e)
           | None => Returns (Ok res)
           end)
      end
    /\ sr_sessionId res = session
    /\ Slots.transcript (sr_locators res) = Some (path_join folder transcriptFilename)
    /\ Slots.profile (sr_locators res) = Some (path_join folder profileFilename)
    /\ Slots.metadata (sr_locators res) = Some (path_join folder metadataFilename)
    /\ Slots.audio (sr_locators res)
       = match audioFile with
         | Some file =>
             Some (path_join folder (audioFilename session (originalname file)))
         | None => None
         end.
Proof.
  intros H.
  destruct (fsSettled faults folder docs st0 (mkdirSession_good _ _ _ _))
    as [Hdocs _].
  unfold outcome, saveToFilesystem.
  fold (candidateDirOf cfg candidate). fold (sessionPathOf cfg candidate session).
  fold folder. rewrite H. fold st0. fold docs.
  destruct (settleAll (fsWrite faults folder) docs st0) as [st1 settled].
  cbn [fst snd] in Hdocs |- *. subst settled.
  destruct audioFile as [file|].
  - eexists. split.
    + destruct (fsCopy faults _ folder _ st1) as [st2 copied].
      destruct (firstError _); [reflexivity|].
      destruct copied; reflexivity.
    + cbn [sr_sessionId sr_locators]. split; [reflexivity|].
      destruct generatedFiles as [g|];
        [destruct (truthyPath (gf_html g)), (truthyPath (gf_pdf g))|];
        cbn; auto.
  - eexists. split.
    + destruct (firstError _); reflexivity.
    + cbn [sr_sessionId sr_locators]. split; [reflexivity|].
      destruct generatedFiles as [g|];
        [destruct (truthyPath (gf_html g)), (truthyPath (gf_pdf g))|];
        cbn; auto.
Qed.

(** The disk after the call is the disk after the writes it started. *)
Lemma saveToFilesystem_state :
  faults folder = None ->
  fst outcome = fst (settleAll (fsWrite faults folder) started st0).
Proof.
  intros H. destruct (saveToFilesystem_unfold H) as [res [-> _]].
  unfold started, fsStarted. fold docs. rewrite settleAll_app. cbn [fst].
  destruct audioFile as [file|].
  - unfold fsCopy. destruct (fileData st !! path file) as [data|].
    + cbn [settleAll].
      destruct (fsWrite faults folder _ _) as [st2 copied]. cbn [fst].
      destruct (firstError _); [reflexivity|]. destruct copied; reflexivity.
    + cbn [settleAll fst]. destruct (firstError _); reflexivity.
  - reflexivity.
Qed.

(** With an upload, a document that is rejected ends the process; without
    one, it makes the call reject. *)
Lemma saveToFilesystem_document_rejected :
  faults folder = None ->
  (exists w, In w docs /\ fsRejects faults folder w <> None) ->
  exists e,
    firstError (map (fsRejects faults folder) docs) = Some e
    /\ snd outcome
       = match audioFile with
         | Some _ => ProcessExit e
         | None => Returns (Throw e)
         end.
Proof.
  intros H Hbad. destruct (saveToFilesystem_unfold H) as [res [-> _]].
  destruct (firstError_faulty _ _ Hbad) as [e He]. exists e.
  split; [exact He|]. rewrite He.
  destruct audioFile as [file|]; [|reflexivity].
  destruct (fsCopy faults _ folder _ _) as [st2 copied]. reflexivity.
Qed.

(** A copy that is rejected, or an upload that cannot be read, makes the
    call reject when the documents are written. *)
Lemma saveToFilesystem_copy_rejected (file : UploadedFile) (data : FileContent)
  (e : error) :
  faults folder = None -> audioFile = Some file ->
  (forall w, In w docs -> fsRejects faults folder w = None) ->
  fileData st !! path file = Some data ->
  fsRejects faults folder
    (mkWrite (audioFilename session (originalname file)) data "") = Some e ->
  snd outcome = Throw e.
Proof.
  intros H Ha Hdocs Hsrc Hcopy.
  destruct (saveToFilesystem_unfold H) as [res [-> _]]. rewrite Ha.
  destruct (fsSettled faults folder docs st0 (mkdirSession_good _ _ _ _))
    as [_ Hgood].
  unfold fsCopy. rewrite Hsrc, (fsWrite_spec _ _ _ _ Hgood), Hcopy.
  rewrite (firstError_clean _ _ Hdocs). reflexivity.
Qed.

Lemma saveToFilesystem_unreadable_upload (file : UploadedFile) :
  faults folder = None -> audioFile = Some file ->
  fileData st !! path file = None ->
  snd outcome = Throw (SysError "ENOENT")
  \/ exists e, snd outcome = ProcessExit e.
Proof.
  intros H Ha Hsrc. destruct (saveToFilesystem_unfold H) as [res [-> _]].
  rewrite Ha. unfold fsCopy. rewrite Hsrc.
  destruct (firstError _) as [e|]; [right; exists e; reflexivity|].
  left. reflexivity.
Qed.

(** What a call that resolved returns: no write it started was rejected. *)
Lemma saveToFilesystem_result (res : StorageResult) :
  snd outcome = Ok res ->
  faults folder = None
  /\ (forall w, In w started -> fsRejects faults folder w = None)
  /\ sr_sessionId res = session
  /\ Slots.transcript (sr_locators res) = Some (path_join folder transcriptFilename)
  /\ Slots.profile (sr_locators res) = Some (path_join folder profileFilename)
  /\ Slots.metadata (sr_locators res) = Some (path_join folder metadataFilename)
  /\ Slots.audio (sr_locators res)
     = match audioFile with
       | Some file =>
           Some (path_join folder (audioFilename session (originalname file)))
       | None => None
       end.
Proof.
  intros Hres.
  destruct (faults folder) as [e|] eqn:H.
  { rewrite (saveToFilesystem_mkdir_fails e H) in Hres. discriminate. }
  split; [reflexivity|].
  destruct (saveToFilesystem_unfold H) as [res' [Hout Hlocs]].
  destruct (fsSettled faults folder docs st0 (mkdirSession_good _ _ _ _))
    as [_ Hgood].
  rewrite Hout in Hres. clear Hout.
  assert (Hgoal : (forall w, In w started -> fsRejects faults folder w = None)
                  /\ res' = res); [|destruct Hgoal as [Hg <-]; auto].
  unfold started, fsStarted. fold docs.
  destruct audioFile as [file|].
  - unfold fsCopy in Hres.
    destruct (fileData st !! path file) as [data|].
    + rewrite (fsWrite_spec _ _ _ _ Hgood) in Hres.
      destruct (firstError _) eqn:E; [destruct (fsRejects _ _ _); discriminate|].
      destruct (fsRejects faults folder (mkWrite _ data "")) eqn:Ec;
        [discriminate|].
      cbn [snd] in Hres. inversion Hres. split; [|reflexivity].
      intros w Hw. apply in_app_or in Hw as [Hw|[<-|[]]]; [|exact Ec].
      apply (firstError_none _ _ E w Hw).
    + destruct (firstError _); discriminate.
  - cbn [snd] in Hres.
    destruct (firstError _) eqn:E; [discriminate|].
    inversion Hres. split; [|reflexivity].
    intros w Hw. rewrite app_nil_r in Hw. apply (firstError_none _ _ E w Hw).
Qed.

(** A write of the call that was not rejected is on disk when all have run
    their course, whatever happened to the others. *)
Lemma saveToFilesystem_kept (pre post : list Write) (w : Write) :
  faults folder = None ->
  started = pre ++ w :: post ->
  fsRejects faults folder w = None ->
  ~ In (path_join folder (w_name w))
       (map (fun v => path_join folder (w_name v)) post) ->
  fileData (fst outcome) !! path_join folder (w_name w) = Some (w_data w).
Proof.
  intros H Hsplit Hw Hpost. rewrite (saveToFilesystem_state H), Hsplit.
  apply (settleAll_kept _ (fun s => is_Some (dirs s !! folder)) (fsUpd folder)
           (fun s l => fileData s !! l) (fun v => path_join folder (w_name v))
           (fsRejects faults folder)).
  - intros v s Hs. apply fsWrite_spec, Hs.
  - intros v s Hs. apply fsUpd_good, Hs.
  - intros v s. apply fsUpd_look_eq.
  - intros v s l Hl. apply fsUpd_look_ne, Hl.
  - apply mkdirSession_good.
  - exact Hw.
  - exact Hpost.
Qed.
End FilesystemSave.

(** *** On the object store *)

Lemma s3Rejects_writable (faults : Faults) (baseKey : string) (w : Write) :
  putObjectRefuses (w_data w) = None ->
  s3Rejects faults baseKey w = faults (path_join baseKey (w_name w)).
Proof. intros H. unfold s3Rejects. rewrite H. reflexivity. Qed.

Lemma s3Put_spec (faults : Faults) (baseKey : string) (w : Write)
  (bk : gmap string S3Object) :
  s3Put faults baseKey w bk
  = (match s3Rejects faults baseKey w with
     | Some _ => bk
     | None => s3Upd baseKey w bk
     end, s3Rejects faults baseKey w).
Proof. unfold s3Put, s3Upd. destruct (s3Rejects _ _ _); reflexivity. Qed.

Lemma s3Upd_look_eq (baseKey : string) (w : Write) (bk : gmap string S3Object) :
  bodyAt (s3Upd baseKey w bk) (path_join baseKey (w_name w)) = Some (w_data w).
Proof. unfold bodyAt, s3Upd. rewrite lookup_insert_eq. reflexivity. Qed.

Lemma s3Upd_look_ne (baseKey : string) (w : Write) (bk : gmap string S3Object)
  (l : string) :
  l <> path_join baseKey (w_name w) -> bodyAt (s3Upd baseKey w bk) l = bodyAt bk l.
Proof.
  intros H. unfold bodyAt, s3Upd. rewrite lookup_insert_ne by congruence.
  reflexivity.
Qed.

(** How uploads ended is read off what is rejected. *)
Lemma s3Settled (faults : Faults) (baseKey : string) (ws : list Write)
  (bk : gmap string S3Object) :
  snd (settleAll (s3Put faults baseKey) ws bk) = map (s3Rejects faults baseKey) ws.
Proof.
  apply (settleAll_settled _ (fun _ => True) (s3Upd baseKey)
           (s3Rejects faults baseKey)); auto.
  intros w s _. apply s3Put_spec.
Qed.

Section ObjectStoreSave.
Variables (faults : Faults) (cfg : Config).
Variables (localRead : string -> result FileContent) (bk : gmap string S3Object).
Variables (candidate session : string) (transcript profile metadata : jsval).
Variables (generatedFiles : option GeneratedFiles) (audioFile : option UploadedFile).

Let baseKey := baseKeyOf cfg candidate session.
Let docs := docWrites transcript profile metadata.
Let started :=
  s3Started (s3Rejects faults baseKey) localRead session transcript profile
    metadata generatedFiles audioFile.
Let outcome :=
  saveToS3 faults cfg localRead bk candidate session transcript profile metadata
    generatedFiles audioFile.

Lemma generatedWrites_split :
  (match generatedFiles with
   | Some g => generatedWrite "text/html" (gf_html g) | None => []
   end)
  ++ (match generatedFiles with
      | Some g => generatedWrite "application/pdf" (gf_pdf g) | None => []
      end)
  = generatedWrites generatedFiles.
Proof. destruct generatedFiles; reflexivity. Qed.

(** The call: the bucket is the one the started uploads leave, and the
    ending is read off what is rejected and off the read of the upload. *)
Lemma saveToS3_unfold :
  exists res,
    outcome
    = (fst (settleAll (s3Put faults baseKey) started bk),
       match audioFile with
       | Some file =>
           match firstError (map (s3Rejects faults baseKey) docs) with
           | Some e => ProcessExit e
           | None =>
               match localRead (path file) with
               | Throw e => Returns (Throw e)
               | Ok _ =>
                   match firstError (map (s3Rejects faults baseKey) started) with
                   | Some e => Returns (Throw e)
                   | None => Returns (Ok res)
                   end
               end
           end
       | None =>
           match firstError (map (s3Rejects faults baseKey) started) with
           | Some e => Returns (Throw e)
           | None => Returns (Ok res)
           end
       end)
    /\ sr_sessionId res = session
    /\ Slots.transcript (sr_locators res) = Some (path_join baseKey transcriptFilename)
    /\ Slots.profile (sr_locators res) = Some (path_join baseKey profileFilename)
    /\ Slots.metadata (sr_locators res) = Some (path_join baseKey metadataFilename)
    /\ Slots.audio (sr_locators res)
       = match audioFile with
         | Some file =>
             Some (path_join baseKey (audioFilename session (originalname file)))
         | None => None
         end.
Proof.
  unfold outcome, saveToS3, started, s3Started.
  fold (baseKeyOf cfg candidate session). fold baseKey. fold docs.
  rewrite generatedWrites_split.
  pose proof (s3Settled faults baseKey docs bk) as Hdocs.
  destruct (settleAll (s3Put faults baseKey) docs bk) as [bk1 settled] eqn:E1.
  cbn [snd] in Hdocs. subst settled.
  assert (Hrest : forall rest,
            settleAll (s3Put faults baseKey) (docs ++ rest) bk
            = (fst (settleAll (s3Put faults baseKey) rest bk1),
               map (s3Rejects faults baseKey) docs
               ++ map (s3Rejects faults baseKey) rest)).
  { intros rest. rewrite settleAll_app, E1. cbn [fst snd].
    rewrite s3Settled. reflexivity. }
  destruct audioFile as [file|].
  - eexists. split.
    + destruct (firstError (map (s3Rejects faults baseKey) docs)) as [e|] eqn:Ed.
      * rewrite app_nil_r, E1. reflexivity.
      * destruct (localRead (path file)) as [audioBuffer|e].
        -- cbn [app]. rewrite Hrest, map_app. cbn [fst].
           pose proof (s3Settled faults baseKey
                         (audioWrite session file audioBuffer
                          :: generatedWrites generatedFiles) bk1) as Hs.
           destruct (settleAll (s3Put faults baseKey) _ bk1) as [bk2 settled'].
           cbn [fst snd] in Hs |- *. subst settled'.
           rewrite firstError_app, Ed.
           destruct (firstError (map _ (_ :: _))); [reflexivity|].
           cbn [audioWrite w_name]. reflexivity.
        -- rewrite app_nil_r, E1. reflexivity.
    + cbn [sr_sessionId sr_locators]. split; [reflexivity|].
      destruct (generatedKey baseKey _), (generatedKey baseKey _); cbn; auto.
  - eexists. split.
    + cbn [app]. rewrite Hrest, map_app. cbn [fst].
      pose proof (s3Settled faults baseKey (generatedWrites generatedFiles) bk1)
        as Hs.
      destruct (settleAll (s3Put faults baseKey) _ bk1) as [bk2 settled'].
      cbn [fst snd] in Hs |- *. subst settled'.
      destruct (firstError _); reflexivity.
    + cbn [sr_sessionId sr_locators]. split; [reflexivity|].
      destruct (generatedKey baseKey _), (generatedKey baseKey _); cbn; auto.
Qed.

(** The bucket after the call is the bucket after the uploads it started. *)
Lemma saveToS3_state :
  fst outcome = fst (settleAll (s3Put faults baseKey) started bk).
Proof. destruct saveToS3_unfold as [res [-> _]]. reflexivity. Qed.

(** With an upload, a document that is rejected ends the process; without
    one, it makes the call reject. *)
Lemma saveToS3_document_rejected :
  (exists w, In w docs /\ s3Rejects faults baseKey w <> None) ->
  exists e,
    firstError (map (s3Rejects faults baseKey) docs) = Some e
    /\ snd outcome
       = match audioFile with
         | Some _ => ProcessExit e
         | None => Returns (Throw e)
         end.
Proof.
  intros Hbad. destruct saveToS3_unfold as [res [-> _]].
  destruct (firstError_faulty _ _ Hbad) as [e He]. exists e.
  split; [exact He|]. cbn [snd].
  destruct audioFile as [file|]; [rewrite He; reflexivity|].
  subst started. unfold s3Started. fold docs.
  rewrite map_app, firstError_app, He. reflexivity.
Qed.

(** An upload that is rejected after the documents were taken makes the
    call reject. *)
Lemma saveToS3_upload_rejected :
  (forall w, In w docs -> s3Rejects faults baseKey w = None) ->
  (exists w, In w started /\ s3Rejects faults baseKey w <> None) ->
  exists e, snd outcome = Throw e.
Proof.
  intros Hdocs Hbad. destruct saveToS3_unfold as [res [-> _]]. cbn [snd].
  destruct (firstError_faulty _ _ Hbad) as [e He]. rewrite He.
  rewrite (firstError_clean _ _ Hdocs).
  destruct audioFile as [file|]; [|eauto].
  destruct (localRead (path file)) as [audioBuffer|e']; eauto.
Qed.

Lemma saveToS3_unreadable_upload (file : UploadedFile) (e : error) :
  audioFile = Some file -> localRead (path file) = Throw e ->
  (forall w, In w docs -> s3Rejects faults baseKey w = None) ->
  snd outcome = Throw e.
Proof.
  intros Ha Hsrc Hdocs. destruct saveToS3_unfold as [res [-> _]]. cbn [snd].
  rewrite Ha, Hsrc, (firstError_clean _ _ Hdocs). reflexivity.
Qed.

(** What a call that resolved returns: no upload it started was rejected,
    and the upload could be read. *)
Lemma saveToS3_result (res : StorageResult) :
  snd outcome = Ok res ->
  (forall w, In w started -> s3Rejects faults baseKey w = None)
  /\ (forall file, audioFile = Some file -> exists data, localRead (path file) = Ok data)
  /\ sr_sessionId res = session
  /\ Slots.transcript (sr_locators res) = Some (path_join baseKey transcriptFilename)
  /\ Slots.profile (sr_locators res) = Some (path_join baseKey profileFilename)
  /\ Slots.metadata (sr_locators res) = Some (path_join baseKey metadataFilename)
  /\ Slots.audio (sr_locators res)
     = match audioFile with
       | Some file =>
           Some (path_join baseKey (audioFilename session (originalname file)))
       | None => None
       end.
Proof.
  intros Hres. destruct saveToS3_unfold as [res' [Hout Hlocs]].
  rewrite Hout in Hres. cbn [snd] in Hres. clear Hout.
  assert (Hgoal : (forall w, In w started -> s3Rejects faults baseKey w = None)
                  /\ (forall file, audioFile = Some file ->
                        exists data, localRead (path file) = Ok data)
                  /\ res' = res); [|destruct Hgoal as (Hg & Hr & <-); auto].
  destruct audioFile as [file|].
  - destruct (firstError (map _ docs)); [discriminate|].
    destruct (localRead (path file)) as [data|] eqn:El; [|discriminate].
    destruct (firstError (map _ started)) eqn:E; [discriminate|].
    inversion Hres. split; [apply (firstError_none _ _ E)|].
    split; [|reflexivity]. intros f Hf. injection Hf as <-. eauto.
  - destruct (firstError (map _ started)) eqn:E; [discriminate|].
    inversion Hres. split; [apply (firstError_none _ _ E)|].
    split; [|reflexivity]. discriminate.
Qed.

(** An upload of the call that was not rejected is in the bucket when all
    have run their course, whatever happened to the others. *)
Lemma saveToS3_kept (pre post : list Write) (w : Write) :
  started = pre ++ w :: post ->
  s3Rejects faults baseKey w = None ->
  ~ In (path_join baseKey (w_name w))
       (map (fun v => path_join baseKey (w_name v)) post) ->
  bodyAt (fst outcome) (path_join baseKey (w_name w)) = Some (w_data w).
Proof.
  intros Hsplit Hw Hpost. rewrite saveToS3_state, Hsplit.
  apply (settleAll_kept _ (fun _ => True) (s3Upd baseKey) bodyAt
           (fun v => path_join baseKey (w_name v))
           (s3Rejects faults baseKey)); auto.
  - intros v s _. apply s3Put_spec.
  - intros v s. apply s3Upd_look_eq.
  - intros v s l Hl. apply s3Upd_look_ne, Hl.
Qed.
End ObjectStoreSave.

(** ** The facade *)

Lemma fsRejects_none (faults : Faults) (dir : string) (w : Write) :
  fsRejects faults dir w = None ->
  writeFileRefuses (w_data w) = None /\ faults (path_join dir (w_name w)) = None.
Proof.
  unfold fsRejects. destruct (writeFileRefuses (w_data w)); [discriminate|]. auto.
Qed.

Lemma s3Rejects_none (faults : Faults) (baseKey : string) (w : Write) :
  s3Rejects faults baseKey w = None ->
  putObjectRefuses (w_data w) = None
  /\ faults (path_join baseKey (w_name w)) = None.
Proof.
  unfold s3Rejects. destruct (putObjectRefuses (w_data w)); [discriminate|]. auto.
Qed.

Section SaveCandidateData.
Variable zoneOffset : Z -> Z.
Variables (faults : Faults) (cfg : Config) (now : Z) (w : World).
Variables (candidate : string) (transcript profile metadata : jsval).
Variables (generatedFiles : option GeneratedFiles) (audioFile : option UploadedFile).

Let session := newSessionId zoneOffset now.
Let outcome :=
  saveCandidateData zoneOffset faults cfg now w candidate transcript profile
    metadata generatedFiles audioFile.

Lemma saveCandidateData_filesystem :
  cfg_storageType cfg = "filesystem" ->
  outcome
  = (mkWorld
       (fst (saveToFilesystem faults cfg (disk w) candidate session transcript
               profile metadata generatedFiles audioFile))
       (objects w),
     snd (saveToFilesystem faults cfg (disk w) candidate session transcript
            profile metadata generatedFiles audioFile)).
Proof.
  intros Ht. unfold outcome, saveCandidateData. rewrite Ht.
  cbn [String.eqb Ascii.eqb Bool.eqb]. cbv zeta.
  fold (newSessionId zoneOffset now). fold session.
  destruct (saveToFilesystem _ _ _ _ _ _ _ _ _ _); reflexivity.
Qed.

Lemma saveCandidateData_s3 :
  cfg_storageType cfg = "s3" ->
  outcome
  = (mkWorld (disk w)
       (fst (saveToS3 faults cfg (readFile (fsOf (disk w))) (objects w) candidate
               session transcript profile metadata generatedFiles audioFile)),
     snd (saveToS3 faults cfg (readFile (fsOf (disk w))) (objects w) candidate
            session transcript profile metadata generatedFiles audioFile)).
Proof.
  intros Ht. unfold outcome, saveCandidateData. rewrite Ht.
  cbn [String.eqb Ascii.eqb Bool.eqb]. cbv zeta.
  fold (newSessionId zoneOffset now). fold session.
  destruct (saveToS3 _ _ _ _ _ _ _ _ _ _ _); reflexivity.
Qed.

Let base := sessionBase cfg candidate session.
Let docs := docWrites transcript profile metadata.
Let started :=
  startedWrites faults cfg w candidate session transcript profile metadata
    generatedFiles audioFile.

(** A document that is rejected makes the call reject when there is no
    upload, and ends the process when there is one. *)
Lemma saveCandidateData_document_rejected :
  cfg_storageType cfg = "filesystem" \/ cfg_storageType cfg = "s3" ->
  (cfg_storageType cfg = "filesystem" -> faults base = None) ->
  (exists wr, In wr docs /\ rejectedBy faults cfg base wr <> None) ->
  exists e,
    snd outcome
    = match audioFile with
      | Some _ => ProcessExit e
      | None => Returns (Throw e)
      end.
Proof.
  intros [Ht|Ht] Hmk Hbad;
    unfold base, sessionBase, rejectedBy in Hmk, Hbad;
    rewrite Ht in Hmk, Hbad;
    cbn [String.eqb Ascii.eqb Bool.eqb] in Hmk, Hbad.
  - rewrite (saveCandidateData_filesystem Ht). cbn [snd].
    destruct (saveToFilesystem_document_rejected faults cfg (disk w) candidate
                session transcript profile metadata generatedFiles audioFile
                (Hmk eq_refl) Hbad) as [e [_ He]].
    eauto.
  - rewrite (saveCandidateData_s3 Ht). cbn [snd].
    destruct (saveToS3_document_rejected faults cfg (readFile (fsOf (disk w)))
                (objects w) candidate session transcript profile metadata
                generatedFiles audioFile Hbad) as [e [_ He]].
    eauto.
Qed.

Lemma saveCandidateData_kept (pre post : list Write) (wr : Write) :
  cfg_storageType cfg = "filesystem" \/ cfg_storageType cfg = "s3" ->
  (cfg_storageType cfg = "filesystem" -> faults base = None) ->
  started = pre ++ wr :: post ->
  rejectedBy faults cfg base wr = None ->
  ~ In (path_join base (w_name wr))
       (map (fun v => path_join base (w_name v)) post) ->
  contentAt cfg (fst outcome) (path_join base (w_name wr)) = Some (w_data wr).
Proof.
  intros [Ht|Ht] Hmk Hsplit Hw Hpost;
    unfold base, sessionBase, started, startedWrites, contentAt, rejectedBy
      in Hmk, Hsplit, Hw, Hpost |- *;
    rewrite Ht in Hmk, Hsplit, Hw, Hpost |- *;
    cbn [String.eqb Ascii.eqb Bool.eqb] in Hmk, Hsplit, Hw, Hpost |- *.
  - rewrite (saveCandidateData_filesystem Ht). cbn [fst disk].
    apply (saveToFilesystem_kept faults cfg (disk w) candidate session transcript
             profile metadata generatedFiles audioFile pre post wr);
      [apply Hmk; reflexivity | exact Hsplit | exact Hw | exact Hpost].
  - rewrite (saveCandidateData_s3 Ht). cbn [fst objects].
    apply (saveToS3_kept faults cfg (readFile (fsOf (disk w))) (objects w)
             candidate session transcript profile metadata generatedFiles
             audioFile pre post wr); assumption.
Qed.

(** A call that resolved met no rejection, and names the session and the
    locators of the three documents and of the audio. *)
Lemma saveCandidateData_result (res : StorageResult) :
  cfg_storageType cfg = "filesystem" \/ cfg_storageType cfg = "s3" ->
  snd outcome = Ok res ->
  (cfg_storageType cfg = "filesystem" -> faults base = None)
  /\ (forall wr, In wr started -> rejectedBy faults cfg base wr = None)
  /\ sr_sessionId res = session
  /\ Slots.transcript (sr_locators res) = Some (path_join base transcriptFilename)
  /\ Slots.profile (sr_locators res) = Some (path_join base profileFilename)
  /\ Slots.metadata (sr_locators res) = Some (path_join base metadataFilename)
  /\ Slots.audio (sr_locators res)
     = match audioFile with
       | Some file =>
           Some (path_join base (audioFilename session (originalname file)))
       | None => None
       end.
Proof.
  intros [Ht|Ht] Hres;
    unfold base, sessionBase, started, startedWrites, rejectedBy;
    rewrite Ht; cbn [String.eqb Ascii.eqb Bool.eqb].
  - rewrite (saveCandidateData_filesystem Ht) in Hres. cbn [snd] in Hres.
    apply saveToFilesystem_result in Hres. tauto.
  - rewrite (saveCandidateData_s3 Ht) in Hres. cbn [snd] in Hres.
    apply saveToS3_result in Hres. split; [discriminate|]. tauto.
Qed.

(** A call that resolved found its upload. *)
Lemma saveCandidateData_upload_read (res : StorageResult) (file : UploadedFile) :
  cfg_storageType cfg = "filesystem" \/ cfg_storageType cfg = "s3" ->
  snd outcome = Ok res -> audioFile = Some file ->
  is_Some (fileData (disk w) !! path file).
Proof.
  intros [Ht|Ht] Hres Ha.
  - rewrite (saveCandidateData_filesystem Ht) in Hres. cbn [snd] in Hres.
    destruct (fileData (disk w) !! path file) eqn:E; [eauto|].
    pose proof (saveToFilesystem_result _ _ _ _ _ _ _ _ _ _ _ Hres) as [Hmk _].
    destruct (saveToFilesystem_unreadable_upload faults cfg (disk w) candidate
                session transcript profile metadata generatedFiles audioFile
                file Hmk Ha E) as [H|[e H]]; rewrite H in Hres; discriminate.
  - rewrite (saveCandidateData_s3 Ht) in Hres. cbn [snd] in Hres.
    apply saveToS3_result in Hres as (_ & Hread & _).
    destruct (Hread file Ha) as [data Hdata]. cbn [readFile fsOf] in Hdata.
    destruct (fileData (disk w) !! path file); [eauto | discriminate].
Qed.
End SaveCandidateData.

(** C9, at the failing input. The first sample call comes with an upload,
    and the write of its metadata document is rejected (the disk is full,
    or the put is refused). The call does not report the failure to its
    caller: the rejection arrives while the upload is copied (or read), when
    no handler is attached to the three document writes yet, and the
    process ends with it, on either backend. The same call without upload
    rejects with the error. The call that [processAudio] makes ends the
    process too: it comes with the upload, and its transcript is an object,
    which [writeFile] and the client of the object store refuse. What a
    sibling write stored stays where it is. *)
Theorem rejected_write_with_upload_ends_the_process :
  snd (faultyCall fsConfig (Some firstUpload)) = ProcessExit (SysError "ENOSPC")
  /\ snd (faultyCall s3Config (Some firstUpload)) = ProcessExit (SysError "ENOSPC")
  /\ snd (faultyCall fsConfig None) = Throw (SysError "ENOSPC")
  /\ snd (faultyCall s3Config None) = Throw (SysError "ENOSPC")
  /\ snd (processAudioSave istOffset noFaults fsConfig "localhost" 1704067200050
            1704067200100 uploadsWorld "CAND1" firstUpload "hello" "A: hello"
            (profileOf "Asha Rao" "Pune" 2))
     = ProcessExit invalidArgType
  /\ snd (processAudioSave istOffset noFaults s3Config "localhost" 1704067200050
            1704067200100 uploadsWorld "CAND1" firstUpload "hello" "A: hello"
            (profileOf "Asha Rao" "Pune" 2))
     = ProcessExit invalidArgType
  /\ contentAt fsConfig (fst (faultyCall fsConfig (Some firstUpload)))
       "candidate-data/CAND1/20240101-053000-IST/transcript.txt"
     = Some (PlainText "first transcript")
  /\ contentAt s3Config (fst (faultyCall s3Config (Some firstUpload)))
       "candidate-data/CAND1/20240101-053000-IST/transcript.txt"
     = Some (PlainText "first transcript").
Proof. repeat split; vm_compute; reflexivity. Qed.

(** In general: on either backend, once the session folder is there, a call
    with an upload one of whose documents is rejected ends the process, and
    the same call without upload rejects; and every write of a call that
    was not rejected is in the store when all have run their course (at its
    path or key, unless a later write of the same call went to the same
    place): nothing is taken back. *)
Lemma rejected_document_ends_or_rejects (zoneOffset : Z -> Z)
  (faults : Faults) (cfg : Config) (now : Z) (w : World) (candidate : string)
  (transcript profile metadata : jsval)
  (generatedFiles : option GeneratedFiles) (audioFile : option UploadedFile) :
  cfg_storageType cfg = "filesystem" \/ cfg_storageType cfg = "s3" ->
  let session := newSessionId zoneOffset now in
  let base := sessionBase cfg candidate session in
  let started :=
    startedWrites faults cfg w candidate session transcript profile metadata
      generatedFiles audioFile in
  let outcome :=
    saveCandidateData zoneOffset faults cfg now w candidate transcript profile
      metadata generatedFiles audioFile in
  (cfg_storageType cfg = "filesystem" -> faults base = None) ->
  ((exists wr, In wr (docWrites transcript profile metadata)
               /\ rejectedBy faults cfg base wr <> None) ->
   exists e,
     snd outcome
     = match audioFile with
       | Some _ => ProcessExit e
       | None => Returns (Throw e)
       end)
  /\ (forall pre wr post,
        started = pre ++ wr :: post ->
        rejectedBy faults cfg base wr = None ->
        ~ In (path_join base (w_name wr))
             (map (fun v => path_join base (w_name v)) post) ->
        contentAt cfg (fst outcome) (path_join base (w_name wr))
        = Some (w_data wr)).
Proof.
  intros Ht session base started outcome Hmk. split.
  - apply saveCandidateData_document_rejected; assumption.
  - intros pre wr post. apply saveCandidateData_kept; assumption.
Qed.

(** ** Two calls within one second *)

Lemma newSessionId_same_second (zoneOffset : Z -> Z) (now1 now2 : Z) :
  now1 / 1000 = now2 / 1000 ->
  newSessionId zoneOffset now1 = newSessionId zoneOffset now2.
Proof. intros H. unfold newSessionId, generateTimestamp. rewrite H. reflexivity. Qed.

Lemma path_join_inj (dir a b : string) : path_join dir a = path_join dir b -> a = b.
Proof.
  unfold path_join. intros H. apply String.app_inj in H.
  apply (String.app_inj "/") in H. exact H.
Qed.

Lemma audioFilename_head (session original : string) :
  exists rest, audioFilename session original = String "a" rest.
Proof. unfold audioFilename. eexists. rewrite app_cons. reflexivity. Qed.

Lemma audioFilename_not_document (session original name : string) :
  In name [transcriptFilename; profileFilename; metadataFilename] ->
  name <> audioFilename session original.
Proof.
  destruct (audioFilename_head session original) as [rest ->].
  intros [<-|[<-|[<-|[]]]]; discriminate.
Qed.

(** What a call starts after its three documents: the audio, which goes by
    the name the key scheme gives it and carries what lies at the upload's
    path, and the reports. *)
Lemma startedWrites_docs (faults : Faults) (cfg : Config) (w : World)
  (candidate session : string) (transcript profile metadata : jsval)
  (generatedFiles : option GeneratedFiles) (audioFile : option UploadedFile)
  (wr : Write) :
  In wr (docWrites transcript profile metadata) ->
  In wr (startedWrites faults cfg w candidate session transcript profile
           metadata generatedFiles audioFile).
Proof.
  intros H. unfold startedWrites, fsStarted, s3Started.
  destruct (String.eqb (cfg_storageType cfg) "filesystem");
    apply in_or_app; left; exact H.
Qed.

Lemma startedWrites_tail (faults : Faults) (cfg : Config) (w : World)
  (candidate session : string)
  (transcript profile metadata : jsval)
  (generatedFiles : option GeneratedFiles) (audioFile : option UploadedFile) :
  (forall wr, In wr (docWrites transcript profile metadata) ->
     rejectedBy faults cfg (sessionBase cfg candidate session) wr = None) ->
  exists audio reports,
    startedWrites faults cfg w candidate session transcript profile metadata
      generatedFiles audioFile
    = docWrites transcript profile metadata ++ audio ++ reports
    /\ (forall v, In v reports -> In (w_name v) (reportNames cfg generatedFiles))
    /\ match audioFile with
       | Some file =>
           match fileData (disk w) !! path file with
           | Some data =>
               exists type,
                 audio = [mkWrite (audioFilename session (originalname file))
                            data type]
           | None => audio = []
           end
       | None => audio = []
       end.
Proof.
  unfold startedWrites, reportNames, fsStarted, s3Started, rejectedBy,
    sessionBase.
  destruct (String.eqb (cfg_storageType cfg) "filesystem"); intros Hclean.
  - destruct audioFile as [file|].
    + destruct (fileData (disk w) !! path file) as [data|] eqn:E.
      * exists [mkWrite (audioFilename session (originalname file)) data ""], [].
        split; [reflexivity|]. split; [intros v []|]. eauto.
      * exists [], []. split; [reflexivity|]. split; [intros v []|].
        reflexivity.
    + exists [], []. split; [reflexivity|]. split; [intros v []|]. reflexivity.
  - rewrite (firstError_clean _ _ Hclean). destruct audioFile as [file|].
    + cbn [readFile fsOf].
      destruct (fileData (disk w) !! path file) as [data|] eqn:E.
      * exists [audioWrite session file data], (generatedWrites generatedFiles).
        split; [reflexivity|]. split; [intros v Hv; apply in_map, Hv|].
        unfold audioWrite. eauto.
      * exists [], []. split; [reflexivity|]. split; [intros v []|]. reflexivity.
    + exists [], (generatedWrites generatedFiles).
      split; [reflexivity|]. split; [intros v Hv; apply in_map, Hv|]. reflexivity.
Qed.

Section TwoCalls.
Variable zoneOffset : Z -> Z.
Variables (faults1 faults2 : Faults) (cfg : Config) (now1 now2 : Z).
Variables (w0 : World) (candidate : string).
Variables (t1 p1 m1 t2 p2 m2 : jsval).
Variables (g1 g2 : option GeneratedFiles) (a1 a2 : option UploadedFile).
Variables (res1 res2 : StorageResult).

Let out1 := saveCandidateData zoneOffset faults1 cfg now1 w0 candidate t1 p1 m1 g1 a1.
Let out2 :=
  saveCandidateData zoneOffset faults2 cfg now2 (fst out1) candidate t2 p2 m2 g2 a2.
Let session := newSessionId zoneOffset now2.
Let base := sessionBase cfg candidate session.

Hypothesis backend : cfg_storageType cfg = "filesystem" \/ cfg_storageType cfg = "s3".
Hypothesis same_second : now1 / 1000 = now2 / 1000.
Hypothesis first_ok : snd out1 = Ok res1.
Hypothesis second_ok : snd out2 = Ok res2.

Lemma two_calls_same_session : sr_sessionId res1 = sr_sessionId res2.
Proof.
  destruct (saveCandidateData_result _ _ _ _ _ _ _ _ _ _ _ _ backend first_ok)
    as (_ & _ & -> & _).
  destruct (saveCandidateData_result _ _ _ _ _ _ _ _ _ _ _ _ backend second_ok)
    as (_ & _ & -> & _).
  apply newSessionId_same_second, same_second.
Qed.

(** One write of the second call, with the writes before and after it: if
    none of the later ones shares its name, it is in the store afterwards. *)
Lemma second_call_kept (pre post : list Write) (wr : Write) :
  startedWrites faults2 cfg (fst out1) candidate session t2 p2 m2 g2 a2
  = pre ++ wr :: post ->
  ~ In (w_name wr) (map w_name post) ->
  contentAt cfg (fst out2) (path_join base (w_name wr)) = Some (w_data wr).
Proof.
  intros Hsplit Hpost.
  destruct (saveCandidateData_result _ _ _ _ _ _ _ _ _ _ _ _ backend second_ok)
    as (Hmk & Hnone & _).
  apply (saveCandidateData_kept zoneOffset faults2 cfg now2 (fst out1) candidate
           t2 p2 m2 g2 a2 pre post wr backend Hmk Hsplit).
  - apply Hnone. fold session. rewrite Hsplit. apply in_or_app. right. left.
    reflexivity.
  - intros Hin. apply Hpost. apply in_map_iff in Hin as [v [Hv Hin]].
    apply path_join_inj in Hv. apply in_map_iff. exists v. auto.
Qed.

Lemma second_call_documents (wr : Write) :
  In wr (docWrites t2 p2 m2) -> rejectedBy faults2 cfg base wr = None.
Proof.
  intros Hin.
  destruct (saveCandidateData_result _ _ _ _ _ _ _ _ _ _ _ _ backend second_ok)
    as (_ & Hnone & _).
  apply Hnone, startedWrites_docs, Hin.
Qed.

Lemma first_locator (name : string) (k : ArtifactKind) (loc : string) :
  In (k, name) [(Transcript, transcriptFilename); (Profile, profileFilename);
                (Metadata, metadataFilename)] ->
  Slots.get k (sr_locators res1) = Some loc -> loc = path_join base name.
Proof.
  intros Hk Hloc.
  destruct (saveCandidateData_result _ _ _ _ _ _ _ _ _ _ _ _ backend first_ok)
    as (_ & _ & _ & Ht & Hp & Hm & _).
  unfold base, session. rewrite <- (newSessionId_same_second _ _ _ same_second).
  destruct Hk as [Hk|[Hk|[Hk|[]]]]; inversion Hk; subst k name;
    cbn [Slots.get] in Hloc; congruence.
Qed.

(** The three documents of the second call replace those of the first,
    unless a report of the second call goes by the name of the document. *)
Lemma two_calls_documents_replaced (k : ArtifactKind) (name : string) :
  In (k, name) [(Transcript, transcriptFilename); (Profile, profileFilename);
                (Metadata, metadataFilename)] ->
  ~ In name (reportNames cfg g2) ->
  replacedAt cfg res1 (fst out2) (writtenData cfg (fst out1) t2 p2 m2 g2 a2) k.
Proof.
  intros Hk Hreports loc data Hloc Hdata.
  rewrite (first_locator name k loc Hk Hloc).
  destruct (startedWrites_tail faults2 cfg (fst out1) candidate session t2 p2 m2
              g2 a2 second_call_documents)
    as (audio & reports & Hstarted & Hrep & Haudio).
  assert (Hau : forall v, In v audio -> w_name v <> name).
  { intros v Hv Heq.
    destruct a2 as [file|]; [|subst audio; destruct Hv].
    destruct (fileData (disk (fst out1)) !! path file);
      [|subst audio; destruct Hv].
    destruct Haudio as [type ->]. destruct Hv as [<-|[]]. cbn [w_name] in Heq.
    apply (audioFilename_not_document session (originalname file) name);
      [|congruence].
    destruct Hk as [Hk|[Hk|[Hk|[]]]]; inversion Hk; cbn; auto. }
  assert (Htail : ~ In name (map w_name (audio ++ reports))).
  { rewrite map_app, in_app_iff. intros [Hin|Hin].
    - apply in_map_iff in Hin as [v [Hv Hin]]. exact (Hau v Hin Hv).
    - apply in_map_iff in Hin as [v [Hv Hin]]. apply Hreports.
      rewrite <- Hv. apply Hrep, Hin. }
  unfold docWrites in Hstarted.
  destruct Hk as [Hk|[Hk|[Hk|[]]]]; inversion Hk; subst k name;
    cbn [writtenData] in Hdata; inversion Hdata; subst data.
  - apply (second_call_kept []
             (mkWrite profileFilename (JSON_stringify p2) "application/json"
              :: mkWrite metadataFilename (JSON_stringify m2) "application/json"
              :: audio ++ reports)
             (mkWrite transcriptFilename (dataOf t2) "text/plain"));
      [exact Hstarted|].
    cbn [map w_name]. intros [H|[H|H]]; [discriminate H | discriminate H |].
    exact (Htail H).
  - apply (second_call_kept
             [mkWrite transcriptFilename (dataOf t2) "text/plain"]
             (mkWrite metadataFilename (JSON_stringify m2) "application/json"
              :: audio ++ reports)
             (mkWrite profileFilename (JSON_stringify p2) "application/json"));
      [exact Hstarted|].
    cbn [map w_name]. intros [H|H]; [discriminate H |]. exact (Htail H).
  - apply (second_call_kept
             [mkWrite transcriptFilename (dataOf t2) "text/plain";
              mkWrite profileFilename (JSON_stringify p2) "application/json"]
             (audio ++ reports)
             (mkWrite metadataFilename (JSON_stringify m2) "application/json"));
      [exact Hstarted|].
    exact Htail.
Qed.

(** The audio of the second call replaces that of the first when both
    uploads have the same extension. *)
Lemma two_calls_audio_replaced (f1 f2 : UploadedFile) :
  a1 = Some f1 -> a2 = Some f2 ->
  audioExtension (originalname f1) = audioExtension (originalname f2) ->
  ~ In (audioFilename session (originalname f2)) (reportNames cfg g2) ->
  replacedAt cfg res1 (fst out2) (writtenData cfg (fst out1) t2 p2 m2 g2 a2) Audio.
Proof.
  intros H1 H2 Hext Hreports loc data Hloc Hdata.
  destruct (saveCandidateData_result _ _ _ _ _ _ _ _ _ _ _ _ backend first_ok)
    as (_ & _ & _ & _ & _ & _ & Ha).
  rewrite H1 in Ha. cbn [Slots.get] in Hloc. rewrite Ha in Hloc.
  inversion Hloc as [Hl]. clear Hloc.
  rewrite (newSessionId_same_second _ _ _ same_second).
  fold session. fold base.
  assert (Hname : audioFilename session (originalname f1)
                  = audioFilename session (originalname f2)).
  { unfold audioFilename. rewrite Hext. reflexivity. }
  rewrite Hname.
  destruct (startedWrites_tail faults2 cfg (fst out1) candidate session t2 p2 m2
              g2 a2 second_call_documents)
    as (audio & reports & Hstarted & Hrep & Haudio).
  rewrite H2 in Haudio, Hdata. cbn [writtenData] in Hdata. rewrite Hdata in Haudio.
  destruct Haudio as [type ->].
  change (audioFilename session (originalname f2))
    with (w_name (mkWrite (audioFilename session (originalname f2)) data type)).
  change (Some data)
    with (Some (w_data (mkWrite (audioFilename session (originalname f2)) data type))).
  apply (second_call_kept (docWrites t2 p2 m2) reports).
  - rewrite Hstarted. reflexivity.
  - cbn [w_name]. intros Hin. apply in_map_iff in Hin as [v [Hv Hin]].
    apply Hreports. rewrite <- Hv. apply Hrep, Hin.
Qed.
End TwoCalls.

(** C8, as the code has it. Two calls for one candidate whose clock readings
    fall in the same second, both resolving, name the same session; the
    transcript, profile and metadata of the second call stand where those
    of the first stood; and so does its audio when both uploads have the
    same extension. (On the object store a report of the second call that
    goes by the name of one of these artifacts is written after it, which
    the statement excludes.) *)
Theorem same_second_calls_share_session_and_overwrite (zoneOffset : Z -> Z)
  (faults1 faults2 : Faults) (cfg : Config) (now1 now2 : Z) (w0 : World)
  (candidate : string) (t1 p1 m1 t2 p2 m2 : jsval)
  (g1 g2 : option GeneratedFiles) (a1 a2 : option UploadedFile)
  (res1 res2 : StorageResult) :
  cfg_storageType cfg = "filesystem" \/ cfg_storageType cfg = "s3" ->
  now1 / 1000 = now2 / 1000 ->
  let out1 :=
    saveCandidateData zoneOffset faults1 cfg now1 w0 candidate t1 p1 m1 g1 a1 in
  let out2 :=
    saveCandidateData zoneOffset faults2 cfg now2 (fst out1) candidate t2 p2 m2
      g2 a2 in
  let second := writtenData cfg (fst out1) t2 p2 m2 g2 a2 in
  snd out1 = Ok res1 ->
  snd out2 = Ok res2 ->
  sr_sessionId res1 = sr_sessionId res2
  /\ (~ In transcriptFilename (reportNames cfg g2) ->
      replacedAt cfg res1 (fst out2) second Transcript)
  /\ (~ In profileFilename (reportNames cfg g2) ->
      replacedAt cfg res1 (fst out2) second Profile)
  /\ (~ In metadataFilename (reportNames cfg g2) ->
      replacedAt cfg res1 (fst out2) second Metadata)
  /\ (forall f1 f2,
        a1 = Some f1 -> a2 = Some f2 ->
        audioExtension (originalname f1) = audioExtension (originalname f2) ->
        ~ In (audioFilename (sr_sessionId res2) (originalname f2))
             (reportNames cfg g2) ->
        replacedAt cfg res1 (fst out2) second Audio).
Proof.
  intros Hb Hs out1 out2 second H1 H2.
  split; [apply (two_calls_same_session zoneOffset faults1 faults2 cfg now1 now2
                   w0 candidate t1 p1 m1 t2 p2 m2 g1 g2 a1 a2 res1 res2
                   Hb Hs H1 H2)|].
  split; [|split; [|split]].
  - intros Hr. apply (two_calls_documents_replaced zoneOffset faults1 faults2 cfg
      now1 now2 w0 candidate t1 p1 m1 t2 p2 m2 g1 g2 a1 a2 res1 res2 Hb Hs H1 H2
      Transcript transcriptFilename); [left; reflexivity | exact Hr].
  - intros Hr. apply (two_calls_documents_replaced zoneOffset faults1 faults2 cfg
      now1 now2 w0 candidate t1 p1 m1 t2 p2 m2 g1 g2 a1 a2 res1 res2 Hb Hs H1 H2
      Profile profileFilename); [right; left; reflexivity | exact Hr].
  - intros Hr. apply (two_calls_documents_replaced zoneOffset faults1 faults2 cfg
      now1 now2 w0 candidate t1 p1 m1 t2 p2 m2 g1 g2 a1 a2 res1 res2 Hb Hs H1 H2
      Metadata metadataFilename); [right; right; left; reflexivity | exact Hr].
  - intros f1 f2 Ha1 Ha2 Hext Hr.
    apply (two_calls_audio_replaced zoneOffset faults1 faults2 cfg
      now1 now2 w0 candidate t1 p1 m1 t2 p2 m2 g1 g2 a1 a2 res1 res2 Hb Hs H1 H2
      f1 f2 Ha1 Ha2 Hext).
    destruct (saveCandidateData_result zoneOffset faults2 cfg now2 (fst out1)
                candidate t2 p2 m2 g2 a2 res2 Hb H2) as (_ & _ & Hsid & _).
    rewrite <- Hsid. exact Hr.
Qed.

Lemma same_second_calls_share_session_and_overwrite_witness :
  sr_sessionId firstResult = sr_sessionId secondResult
  /\ replacedAt fsConfig firstResult (fst secondCall) secondData Transcript.
Proof.
  pose proof (same_second_calls_share_session_and_overwrite istOffset noFaults
                noFaults fsConfig 1704067200100 1704067200900 uploadsWorld
                "CAND1" (JStr "first transcript") (profileOf "Asha Rao" "Pune" 2)
                (JObj [("candidateId", JStr "CAND1")])
                (JStr "second transcript") (profileOf "Asha Rao" "Pune" 3)
                (JObj [("candidateId", JStr "CAND1")]) None None
                (Some firstUpload) (Some secondUpload) firstResult secondResult
                (or_introl eq_refl) eq_refl) as H.
  cbv zeta in H.
  destruct H as [Hsame [Htranscript _]];
    [vm_compute; reflexivity | vm_compute; reflexivity |].
  split; [exact Hsame|]. apply Htranscript. intros [].
Defined.

(** C8, as stated, fails: the two sample calls fall in the same second and
    resolve with the same session, the second writes an audio file, and the
    audio file the first call stored is still the first upload afterwards,
    because the second upload has another extension and went to another
    path. *)
Lemma same_second_audio_with_other_extension_stays :
  1704067200100 / 1000 = 1704067200900 / 1000
  /\ snd firstCall = Ok firstResult
  /\ snd secondCall = Ok secondResult
  /\ sr_sessionId firstResult = sr_sessionId secondResult
  /\ secondData Audio = Some (Bytes "second take")
  /\ Slots.get Audio (sr_locators firstResult)
     = Some "candidate-data/CAND1/20240101-053000-IST/audio_20240101-053000-IST.mp3"
  /\ contentAt fsConfig (fst secondCall)
       "candidate-data/CAND1/20240101-053000-IST/audio_20240101-053000-IST.mp3"
     = Some (Bytes "first take")
  /\ ~ replacedAt fsConfig firstResult (fst secondCall) secondData Audio.
Proof.
  split; [reflexivity|].
  split; [vm_compute; reflexivity|].
  split; [vm_compute; reflexivity|].
  split; [reflexivity|].
  split; [vm_compute; reflexivity|].
  split; [vm_compute; reflexivity|].
  split; [vm_compute; reflexivity|].
  intros H.
  specialize (H "candidate-data/CAND1/20240101-053000-IST/audio_20240101-053000-IST.mp3"
                (Bytes "second take")).
  assert (Hc : contentAt fsConfig (fst secondCall)
                 "candidate-data/CAND1/20240101-053000-IST/audio_20240101-053000-IST.mp3"
               = Some (Bytes "second take")).
  { apply H; vm_compute; reflexivity. }
  vm_compute in Hc. discriminate Hc.
Qed.

(** ** Names without a slash *)

Lemma hasSlash_app (a b : string) : hasSlash (a +:+ b) = hasSlash a || hasSlash b.
Proof.
  induction a as [|c a IH]; [reflexivity|].
  rewrite app_cons. cbn [hasSlash]. rewrite IH, orb_assoc. reflexivity.
Qed.

Lemma hasSlash_get (s : string) :
  (forall j, String.get j s <> Some "/"%char) -> hasSlash s = false.
Proof.
  induction s as [|c s IH]; intros H; [reflexivity|].
  cbn [hasSlash]. rewrite IH.
  - rewrite orb_false_r. destruct (Ascii.eqb_spec c "/"%char) as [->|]; [|reflexivity].
    exfalso. apply (H O). reflexivity.
  - intros j. apply (H (S j)).
Qed.

Lemma get_substring (s : string) (a len j : nat) :
  String.get j (String.substring a len s)
  = if (j <? len)%nat then String.get (j + a) s else None.
Proof.
  destruct (Nat.ltb_spec j len) as [Hlt|Hge].
  - apply String.substring_correct1, Hlt.
  - apply String.substring_correct2, Hge.
Qed.

Lemma digitChar_not_slash (n : Z) : Ascii.eqb (digitChar n) "/"%char = false.
Proof.
  unfold digitChar.
  assert (H : (Z.to_nat (n mod 10) < 10)%nat)
    by (pose proof (Z.mod_pos_bound n 10); lia).
  remember (Z.to_nat (n mod 10)) as k eqn:Hk. clear Hk.
  do 10 (destruct k as [|k]; [reflexivity|]). lia.
Qed.

Lemma hasSlash_pad2 (n : Z) : hasSlash (pad2 n) = false.
Proof. unfold pad2. cbn [hasSlash]. rewrite !digitChar_not_slash. reflexivity. Qed.

Lemma hasSlash_pad4 (n : Z) : hasSlash (pad4 n) = false.
Proof.
  unfold pad4, pad3. cbn [hasSlash]. rewrite !digitChar_not_slash, hasSlash_pad2.
  reflexivity.
Qed.

(** A session identifier is made of digits and dashes. *)
Lemma hasSlash_newSessionId (zoneOffset : Z -> Z) (now : Z) :
  hasSlash (newSessionId zoneOffset now) = false.
Proof.
  unfold newSessionId, generateTimestamp, formatTimestamp.
  destruct (civilFromDays _) as [[y m] d].
  rewrite !hasSlash_app, hasSlash_pad4, !hasSlash_pad2. reflexivity.
Qed.

Lemma extInvariant_final (path : string) (n : nat) (st : ExtState) :
  extInvariant path n st -> extFinal path st.
Proof.
  intros (_ & _ & Hend & Hdot) Hd He.
  specialize (Hend He). specialize (Hdot Hd). destruct Hend as [Hle Hall].
  split; [lia|]. intros j Hj. apply Hall; lia.
Qed.

Lemma extname_loop_final (path : string) (n : nat) (st : ExtState) :
  extInvariant path n st -> extFinal path (extname_loop path n st).
Proof.
  revert st. induction n as [|i IH]; intros st Hinv.
  - exact (extInvariant_final path O st Hinv).
  - cbn [extname_loop].
    destruct (String.get i path) as [code|] eqn:Hget;
      [|exact (extInvariant_final path (S i) st Hinv)].
    destruct Hinv as (Hms & Hnodot & Hend & Hdot).
    destruct (Ascii.eqb_spec code "/"%char) as [->|Hcode].
    + destruct (matchedSlash st) eqn:Ems; cbn [negb].
      * apply IH. specialize (Hms eq_refl). specialize (Hnodot Hms).
        unfold extInvariant. rewrite Hms, Hnodot.
        repeat split; intros; congruence.
      * intros Hd He. cbn [startDot endIdx] in *.
        specialize (Hend He). specialize (Hdot Hd). destruct Hend as [Hle Hall].
        split; [lia|]. intros j Hj. apply Hall; lia.
    + apply IH. clear IH.
      assert (Hi : String.get i path <> Some "/"%char) by congruence.
      assert (Hrange : forall e, (e = endIdx st /\ e <> -1) \/ e = Z.of_nat i + 1 ->
                forall j, (i <= j)%nat -> Z.of_nat j < e ->
                          String.get j path <> Some "/"%char).
      { intros e [ [ -> He ] | -> ] j Hj1 Hj2.
        - destruct (Nat.eq_dec j i) as [->|Hne]; [exact Hi|].
          apply (proj2 (Hend He)); lia.
        - assert (j = i) by lia. subst j. exact Hi. }
      destruct (Z.eqb_spec (endIdx st) (-1)) as [He|He].
      * specialize (Hnodot He). cbn [startDot endIdx matchedSlash preDotState].
        rewrite Hnodot.
        destruct (Ascii.eqb code "."%char); unfold extInvariant; cbn;
          (split; [intros; discriminate|]); (split; [intros; lia|]);
          (split; [intros _; split; [lia | apply Hrange; right; reflexivity]|]);
          intros; lia.
      * pose proof (proj1 (Hend He)) as Hle.
        destruct (Ascii.eqb code "."%char).
        -- destruct (Z.eqb_spec (startDot st) (-1)) as [Hd|Hd].
           ++ unfold extInvariant. cbn [startDot endIdx matchedSlash preDotState].
              split; [exact Hms|]. split; [intros; congruence|].
              split; [intros _; split; [lia | apply Hrange; left; auto]|].
              intros; lia.
           ++ specialize (Hdot Hd).
              destruct (negb (preDotState st =? 1)); unfold extInvariant;
                cbn [startDot endIdx matchedSlash preDotState];
                (split; [exact Hms|]); (split; [intros; congruence|]);
                (split; [intros _; split; [lia | apply Hrange; left; auto]|]);
                intros; lia.
        -- destruct (Z.eqb_spec (startDot st) (-1)) as [Hd|Hd]; cbn [negb];
             unfold extInvariant; cbn [startDot endIdx matchedSlash preDotState].
           ++ split; [exact Hms|]. split; [intros; congruence|].
              split; [intros _; split; [lia | apply Hrange; left; auto]|].
              intros; congruence.
           ++ specialize (Hdot Hd).
              split; [exact Hms|]. split; [intros; congruence|].
              split; [intros _; split; [lia | apply Hrange; left; auto]|].
              intros; lia.
Qed.

(** An extension never holds a slash. *)
Lemma hasSlash_extname (path : string) : hasSlash (extname path) = false.
Proof.
  unfold extname.
  pose proof (extname_loop_final path (String.length path) extInit) as Hfin.
  set (st := extname_loop path (String.length path) extInit) in *.
  destruct (Z.eqb_spec (startDot st) (-1)) as [|Hd]; [reflexivity|].
  destruct (Z.eqb_spec (endIdx st) (-1)) as [|He]; [reflexivity|].
  cbn [orb]. destruct (_ || _); [reflexivity|].
  destruct Hfin as [Hrange Hall]; [|exact Hd | exact He|].
  { unfold extInit, extInvariant. cbn. repeat split; intros; congruence. }
  apply hasSlash_get. intros j. rewrite get_substring.
  destruct (j <? _)%nat eqn:Hj; [|discriminate].
  apply Nat.ltb_lt in Hj. apply Hall. lia.
Qed.

Lemma hasSlash_audioFilename (zoneOffset : Z -> Z) (now : Z) (original : string) :
  hasSlash (audioFilename (newSessionId zoneOffset now) original) = false.
Proof.
  unfold audioFilename, audioExtension.
  rewrite !hasSlash_app, hasSlash_newSessionId.
  destruct (String.eqb _ ""); [reflexivity|]. rewrite hasSlash_extname. reflexivity.
Qed.

(** ** From the write pipeline to the listing *)

















(** The same, through the listing of the candidate: the one session is
    there, without creation date. *)
Example pipeline_session_listed :
  exists r,
    listCandidateSessions isoDate
      (fsOf (disk (fst (processAudioSave istOffset noFaults fsConfig "localhost"
                          1704067200050 1704067200100 uploadsWorld "CAND1"
                          firstUpload "hello" "A: hello"
                          (profileOf "Asha Rao" "Pune" 2)))))
      (s3Of emptyBucket) fsConfig "CAND1" = Ok (Some [r])
    /\ sessionId r = "20240101-053000-IST"
    /\ getProp (metadata r) "processedAt" = Ok (JStr "2024-01-01T00:00:00.050Z")
    /\ createdAt r = JNull /\ originalFilename r = JNull.
Proof. eexists. split; [vm_compute; reflexivity|]. cbn. auto. Qed.

(** ** The sort orders what the comparator orders *)

Lemma StronglySorted_rev_flip {A} (R1 R2 : A -> A -> Prop) (l : list A) :
  (forall a b, R1 a b -> R2 b a) ->
  StronglySorted R1 l -> StronglySorted R2 (rev l).
Proof.
  intros Hflip H. induction H as [|a l Hs IH Hall]; cbn [rev]; [constructor|].
  apply StronglySorted_app_2; [|exact IH|repeat constructor].
  intros x1 x2 H1 H2. apply list_elem_of_singleton in H2 as ->.
  apply Hflip. rewrite Forall_forall in Hall. apply Hall.
  apply list_elem_of_In. apply list_elem_of_In in H1. apply in_rev in H1. exact H1.
Qed.

Section ArraySortSorted.
Context {A : Type}.
Variable comparefn : A -> A -> option Z.
Variable key : A -> Z.
Variable P : A -> Prop.
Hypothesis compare_key : forall x y, P x -> P y ->
  (sortCompare comparefn x y <? 0) = (key y <? key x).

Lemma runTail_ascending (prev : A) (l : list A) :
  P prev -> Forall P l ->
  Sorted (fun a b => key b <= key a)
         (prev :: firstn (runTail comparefn false prev l) l).
Proof.
  revert prev. induction l as [|cur rest IH]; intros prev Hp Hl; cbn [runTail].
  - repeat constructor.
  - inversion Hl as [|? ? Hcur Hrest]; subst.
    rewrite (compare_key cur prev Hcur Hp).
    destruct (key prev <? key cur) eqn:E; cbn [firstn].
    + repeat constructor.
    + constructor; [apply IH; assumption|]. constructor. lia.
Qed.

Lemma runTail_descending (prev : A) (l : list A) :
  P prev -> Forall P l ->
  Sorted (fun a b => key a < key b)
         (prev :: firstn (runTail comparefn true prev l) l).
Proof.
  revert prev. induction l as [|cur rest IH]; intros prev Hp Hl; cbn [runTail].
  - repeat constructor.
  - inversion Hl as [|? ? Hcur Hrest]; subst.
    rewrite (compare_key cur prev Hcur Hp).
    destruct (key prev <? key cur) eqn:E; cbn [firstn].
    + constructor; [apply IH; assumption|]. constructor. lia.
    + repeat constructor.
Qed.

Lemma countAndMakeRun_sorted (l : list A) :
  Forall P l ->
  StronglySorted (fun a b => key b <= key a) (fst (countAndMakeRun comparefn l)).
Proof.
  intros Hl. unfold countAndMakeRun.
  destruct l as [|x0 [|x1 rest]]; cbn [fst]; [constructor | repeat constructor |].
  inversion Hl as [|? ? H0 Hl1]; subst. inversion Hl1 as [|? ? H1 Hrest]; subst.
  rewrite (compare_key x1 x0 H1 H0). cbn [firstn].
  destruct (key x0 <? key x1) eqn:E.
  - apply (StronglySorted_rev_flip (fun a b => key a < key b)); [intros; lia|].
    apply Sorted.Sorted_StronglySorted; [intros a b c; lia|].
    constructor; [apply runTail_descending; assumption|]. constructor. lia.
  - apply Sorted.Sorted_StronglySorted; [intros a b c; lia|].
    constructor; [apply runTail_ascending; assumption|]. constructor. lia.
Qed.

Lemma insertionPoint_spec (fuel : nat) (work : list A) (pivot : A)
  (left right : nat) :
  StronglySorted (fun a b => key b <= key a) work -> Forall P work -> P pivot ->
  (left <= right <= length work)%nat -> (right - left <= fuel)%nat ->
  Forall (fun x => key pivot <= key x) (firstn left work) ->
  Forall (fun x => key x < key pivot) (skipn right work) ->
  Forall (fun x => key pivot <= key x)
         (firstn (insertionPoint comparefn fuel work pivot left right) work)
  /\ Forall (fun x => key x < key pivot)
            (skipn (insertionPoint comparefn fuel work pivot left right) work).
Proof.
  intros Hs Hall Hp. revert left right.
  induction fuel as [|fuel IH]; intros left right Hb Hf Hl Hr; cbn [insertionPoint].
  - assert (left = right) as -> by lia. auto.
  - destruct (left <? right)%nat eqn:E.
    2:{ apply Nat.ltb_ge in E. assert (left = right) as -> by lia. auto. }
    apply Nat.ltb_lt in E.
    assert (Hd : (Nat.div2 (right - left) < right - left)%nat).
    { apply Nat.lt_div2. lia. }
    remember (Nat.div2 (right - left)) as half eqn:Hh. clear Hh.
    set (mid := (left + half)%nat).
    assert (Hmid : (left <= mid < right)%nat) by (unfold mid; lia).
    destruct (nth_error work mid) as [x|] eqn:En.
    2:{ apply nth_error_None in En. lia. }
    destruct (nth_error_split _ _ En) as [l1 [l2 [Hw Hlen]]].
    assert (Hx : P x).
    { rewrite Forall_forall in Hall. apply Hall. rewrite Hw.
      apply elem_of_app. right. left. }
    rewrite (compare_key pivot x Hp Hx).
    rewrite Hw in Hs. apply StronglySorted_app in Hs as [Hcross [Hs1 Hs2]].
    apply StronglySorted_inv in Hs2 as [Hs2 Hx2].
    destruct (key x <? key pivot) eqn:Ek.
    + apply (IH left mid); [lia | lia | exact Hl |].
      rewrite Hw, drop_app_length' by (symmetry; exact Hlen).
      constructor; [lia|]. eapply Forall_impl; [exact Hx2|]. cbn. intros; lia.
    + apply (IH (S mid) right); [lia | lia | | exact Hr].
      rewrite Hw. rewrite (cons_middle x l1 l2), app_assoc.
      rewrite take_app_length' by (rewrite length_app; cbn; lia).
      apply Forall_app. split; [|constructor; [lia|constructor]].
      apply Forall_forall. intros y Hy.
      assert (key x <= key y); [|lia].
      apply (Hcross y x); [exact Hy | left].
Qed.

Lemma binaryInsert_sorted (sorted : list A) (pivot : A) :
  StronglySorted (fun a b => key b <= key a) sorted -> Forall P sorted ->
  P pivot ->
  StronglySorted (fun a b => key b <= key a) (binaryInsert comparefn sorted pivot).
Proof.
  intros Hs Hall Hp. unfold binaryInsert.
  destruct (insertionPoint_spec (length sorted) sorted pivot 0 (length sorted)
              Hs Hall Hp) as [H1 H2]; [lia | lia | constructor | |].
  { rewrite skipn_all. constructor. }
  set (p := insertionPoint _ _ _ _ _ _) in *.
  rewrite <- (firstn_skipn p sorted) in Hs.
  apply StronglySorted_app in Hs as [Hcross [Hs1 Hs2]].
  apply StronglySorted_app_2; [|exact Hs1|].
  2:{ constructor; [exact Hs2|]. eapply Forall_impl; [exact H2|]. cbn. intros; lia. }
  intros x1 x2 Hx1 Hx2. apply elem_of_cons in Hx2 as [->|Hx2].
  - rewrite Forall_forall in H1. apply H1. exact Hx1.
  - apply Hcross; assumption.
Qed.

Lemma Array_sort_sorted (l : list A) :
  Forall P l ->
  StronglySorted (fun a b => key b <= key a) (Array_sort comparefn l).
Proof.
  intros Hl. unfold Array_sort.
  pose proof (countAndMakeRun_sorted l Hl) as Hrun.
  pose proof (countAndMakeRun_Permutation comparefn l) as Hperm.
  destruct (countAndMakeRun comparefn l) as [run rest]; cbn [fst snd] in *.
  assert (Hall : Forall P (run ++ rest)).
  { eapply Permutation_Forall; [symmetry; exact Hperm | exact Hl]. }
  apply Forall_app in Hall as [Hr1 Hr2].
  unfold binaryInsertionSort. clear Hperm Hl.
  revert run Hrun Hr1. induction rest as [|x rest IH]; intros run Hrun Hr1;
    cbn [fold_left]; [exact Hrun|].
  inversion Hr2 as [|? ? Hx Hrest]; subst.
  apply IH; [exact Hrest | apply binaryInsert_sorted; assumption |].
  eapply Permutation_Forall; [symmetry; apply binaryInsert_Permutation|].
  apply Forall_app. split; [exact Hr1 | constructor; [exact Hx | constructor]].
Qed.
End ArraySortSorted.

Section ArraySortUnordered.
Context {A : Type}.
Variable comparefn : A -> A -> option Z.
Variable P : A -> Prop.
Hypothesis no_preference : forall x y, P x -> P y -> sortCompare comparefn x y = 0.

Lemma runTail_unordered (prev : A) (l : list A) :
  P prev -> Forall P l -> runTail comparefn false prev l = length l.
Proof.
  revert prev. induction l as [|cur rest IH]; intros prev Hp Hl; cbn [runTail length].
  - reflexivity.
  - inversion Hl as [|? ? Hcur Hrest]; subst.
    rewrite (no_preference cur prev Hcur Hp). cbn. f_equal. apply IH; assumption.
Qed.

Lemma Array_sort_unordered (l : list A) : Forall P l -> Array_sort comparefn l = l.
Proof.
  intros Hl. unfold Array_sort, countAndMakeRun.
  destruct l as [|x0 [|x1 rest]]; [reflexivity | reflexivity |].
  inversion Hl as [|? ? H0 Hl1]; subst. inversion Hl1 as [|? ? H1 Hrest]; subst.
  rewrite (no_preference x1 x0 H1 H0). cbn [Z.ltb Z.compare].
  rewrite (runTail_unordered x1 rest H1 Hrest).
  change (S (S (length rest))) with (length (x0 :: x1 :: rest)).
  rewrite firstn_all, skipn_all. reflexivity.
Qed.
End ArraySortUnordered.

(** ** The slots of a listed session *)

Lemma classifyEntry_get (acc : Slots.t * Slots.t) (file loc link : string)
  (k : ArtifactKind) :
  Slots.get k (fst (classifyEntry acc file loc link))
  = (if decide (classify file = Some k) then Some loc else Slots.get k (fst acc))
  /\ Slots.get k (snd (classifyEntry acc file loc link))
     = (if decide (classify file = Some k) then Some link
        else Slots.get k (snd acc)).
Proof.
  unfold classifyEntry. destruct (classify file) as [k'|]; cbn [fst snd];
    rewrite ?Slots_get_set; repeat case_decide; try congruence; auto.
Qed.

Lemma classifyEntry_fold {X} (name loc link : X -> string) (xs : list X)
  (acc : Slots.t * Slots.t) (k : ArtifactKind) :
  Slots.get k (fst (fold_left (fun acc x =>
                                 classifyEntry acc (name x) (loc x) (link x))
                              xs acc))
  = match last (filter (fun x => classify (name x) = Some k) xs) with
    | Some x => Some (loc x)
    | None => Slots.get k (fst acc)
    end
  /\ Slots.get k (snd (fold_left (fun acc x =>
                                    classifyEntry acc (name x) (loc x) (link x))
                                 xs acc))
     = match last (filter (fun x => classify (name x) = Some k) xs) with
       | Some x => Some (link x)
       | None => Slots.get k (snd acc)
       end.
Proof.
  revert acc. induction xs as [|x xs IH]; intros acc; cbn [fold_left].
  - auto.
  - destruct (IH (classifyEntry acc (name x) (loc x) (link x))) as [IH1 IH2].
    rewrite IH1, IH2.
    destruct (classifyEntry_get acc (name x) (loc x) (link x) k) as [-> ->].
    rewrite filter_cons. destruct (decide (classify (name x) = Some k)).
    + rewrite last_cons. destruct (last _); auto.
    + auto.
Qed.

Lemma Slots_get_empty (k : ArtifactKind) : Slots.get k Slots.empty = None.
Proof. destruct k; reflexivity. Qed.

Lemma classifyFiles_get (candidate session dir : string) (names : list string)
  (kind : ArtifactKind) :
  Slots.get kind (fst (classifyFiles candidate session dir names))
  = path_join dir <$> lastOfKind kind names
  /\ Slots.get kind (snd (classifyFiles candidate session dir names))
     = fileLink candidate session <$> lastOfKind kind names.
Proof.
  unfold classifyFiles, lastOfKind, fileLink. cbv zeta.
  pose proof (classifyEntry_fold (fun f : string => f) (path_join dir)
    (fun f => "/files/"
              +:+ path_join (path_join (path_join "candidate-data" candidate)
                               session) f)
    names (Slots.empty, Slots.empty) kind) as [H1 H2].
  cbv beta in H1, H2. cbn [fst snd] in H1, H2.
  rewrite Slots_get_empty in H1, H2. rewrite H1, H2.
  destruct (last _); auto.
Qed.

(** X2. In a listed session every slot ([files.audio], [links.audio],
    ...) holds the last listed file that the classification takes for its
    kind, and is [null] exactly when no listed file is of that kind: on the
    filesystem the path below the session directory and the link below
    [/files/candidate-data], on the object store the key. *)
Theorem slot_holds_last_listed_file_of_its_kind (cfg : Config)
  (candidate session dir : string) (names keys : list string)
  (kind : ArtifactKind) :
  Slots.get kind (fst (classifyFiles candidate session dir names))
  = path_join dir <$> lastOfKind kind names
  /\ Slots.get kind (snd (classifyFiles candidate session dir names))
     = fileLink candidate session <$> lastOfKind kind names
  /\ Slots.get kind (fst (classifyObjects cfg keys))
     = last (filter (fun key => classify (lastSegment key) = Some kind) keys).
Proof.
  destruct (classifyFiles_get candidate session dir names kind) as [H1 H2].
  split; [exact H1|]. split; [exact H2|].
  unfold classifyObjects.
  destruct (classifyEntry_fold lastSegment (fun key : string => key)
    (fun key => "https://" +:+ bucketName cfg +:+ ".s3." +:+ region cfg
                +:+ ".amazonaws.com/" +:+ key)
    keys (Slots.empty, Slots.empty) kind) as [H _].
  cbv beta in H. cbn [fst] in H. rewrite Slots_get_empty in H. rewrite H.
  destruct (last _); reflexivity.
Qed.

(** X3. With the default data directory [candidate-data], every link of a
    session listed from the filesystem is [/files/] followed by the path of
    the file it stands for. *)
Theorem links_follow_files_under_default_root (fs : FsEnv) (cfg : Config)
  (candidate session : string) (r : SessionRecord) (kind : ArtifactKind) :
  candidateDataPath cfg = "candidate-data" ->
  materializeFsSession fs cfg candidate session = Ok r ->
  Slots.get kind (links r)
  = (fun p => "/files/" +:+ p) <$> Slots.get kind (files r).
Proof.
  intros Hroot H.
  apply materializeFsSession_inv in H
    as (entries & md & prof & pa & ofn & _ & _ & _ & _ & _ & ->).
  cbn [links files].
  destruct (classifyFiles_get candidate session
              (sessionPathOf cfg candidate session) (map Dirent.name entries)
              kind) as [-> ->].
  unfold fileLink, sessionPathOf, candidateDirOf. rewrite Hroot.
  destruct (lastOfKind kind _); reflexivity.
Qed.

Lemma links_follow_files_under_default_root_witness :
  exists r,
    materializeFsSession (fsOf sampleDisk) fsConfig "CAND1" "20200101-000000-IST"
      = Ok r
    /\ Slots.get Transcript (links r)
       = (fun p => "/files/" +:+ p) <$> Slots.get Transcript (files r).
Proof.
  eexists. split; [vm_compute; reflexivity|].
  apply (links_follow_files_under_default_root (fsOf sampleDisk) fsConfig "CAND1"
           "20200101-000000-IST" _ Transcript); [reflexivity|].
  vm_compute. reflexivity.
Defined.

(** X1. A name the write side gives an artifact is classified back to the
    kind of the artifact, for the five kinds other than audio always, and
    for audio when the uploaded file's extension is [.mp3] or the file has
    none (the audio is then stored with [.mp3]). *)
Theorem artifact_name_classifies_back (kind : ArtifactKind)
  (sessionId original candidateName timestamp : string) :
  (kind = Audio -> extname original = ".mp3" \/ extname original = "") ->
  classify (artifactFilename kind sessionId original candidateName timestamp)
  = Some kind.
Proof.
  intros H. apply classify_artifactFilename. intros Hk.
  unfold audioExtension. destruct (H Hk) as [-> | ->]; reflexivity.
Qed.

Lemma artifact_name_classifies_back_witness :
  classify (artifactFilename Audio "20240101-053000-IST" "recording" "" "")
  = Some Audio.
Proof.
  apply (artifact_name_classifies_back Audio "20240101-053000-IST" "recording"
           "" "").
  intros _. right. vm_compute. reflexivity.
Defined.

(** ** The order of a listing whose sessions can be compared *)

Lemma forOf_collect_some_inv {A B} (f : A -> result (option B)) (xs : list A)
  (acc out : list B) :
  forOf (fun acc x =>
           o <- f x ;;
           match o with Some r => Ok (acc ++ [r]) | None => Ok acc end)
        xs acc = Ok out ->
  exists rs, out = acc ++ rs
             /\ forall r, In r rs -> exists x, In x xs /\ f x = Ok (Some r).
Proof.
  revert acc. induction xs as [|x xs IH]; intros acc H; cbn [forOf] in H.
  - inversion H. exists []. rewrite app_nil_r. split; [reflexivity|]. intros r [].
  - destruct (f x) as [[r|]|e] eqn:E; cbn [bind] in H; [| |discriminate].
    + apply IH in H as [rs [-> Hrs]]. exists (r :: rs).
      rewrite <- app_assoc. split; [reflexivity|].
      intros r' [<-|Hr']; [exists x; split; [left; reflexivity | exact E]|].
      destruct (Hrs r' Hr') as [x' [Hx' Hf]]. exists x'. split; [right|]; assumption.
    + apply IH in H as [rs [-> Hrs]]. exists rs. split; [reflexivity|].
      intros r' Hr'. destruct (Hrs r' Hr') as [x' [Hx' Hf]].
      exists x'. split; [right|]; assumption.
Qed.

Lemma listFilesystemSessions_inv (newDate : jsval -> option Z) (fs : FsEnv)
  (cfg : Config) (candidate : string) (l : list SessionRecord) :
  listFilesystemSessions newDate fs cfg candidate = Ok l ->
  exists details,
    l = sortSessions newDate details
    /\ forall r, In r details ->
                 materializeFsSession fs cfg candidate (sessionId r) = Ok r.
Proof.
  unfold listFilesystemSessions. intros H.
  assert (Hnil : forall e, @enoentAsEmpty SessionRecord e = Ok l ->
            exists details, l = sortSessions newDate details
              /\ forall r, In r details ->
                   materializeFsSession fs cfg candidate (sessionId r) = Ok r).
  { intros e He. unfold enoentAsEmpty in He. destruct (decide _); inversion He.
    exists []. split; [reflexivity|]. intros r []. }
  destruct (readdir fs _) as [entries|e]; cbn [bind try_catch] in H;
    [|apply (Hnil e H)].
  destruct (forOf _ _ _) as [out|e] eqn:Hloop; cbn [bind try_catch] in H;
    [|apply (Hnil e H)].
  inversion H. subst l. exists out. split; [reflexivity|].
  apply forOf_collect_inv in Hloop as [rs [-> HF]]. cbn [app].
  intros r Hr. destruct (Forall2_In_r _ _ _ _ HF Hr) as [d [_ Hd]]. cbv beta in Hd.
  rewrite (materializeFsSession_sessionId _ _ _ _ _ Hd). exact Hd.
Qed.

Lemma listS3Sessions_inv (newDate : jsval -> option Z) (s3 : S3Env)
  (cfg : Config) (candidate : string) (l : list SessionRecord) :
  listS3Sessions newDate s3 cfg candidate = Ok l ->
  exists details,
    l = sortSessions newDate details
    /\ forall r, In r details ->
                 getS3SessionData s3 cfg candidate (sessionId r) = Ok (Some r).
Proof.
  unfold listS3Sessions. cbv zeta. intros H.
  assert (Hnil : Ok [] = Ok l ->
            exists details, l = sortSessions newDate details
              /\ forall r, In r details ->
                   getS3SessionData s3 cfg candidate (sessionId r) = Ok (Some r)).
  { intros He. inversion He. exists []. split; [reflexivity|]. intros r []. }
  destruct (listObjectsV2 s3 _ _) as [response|e]; cbn [bind try_catch] in H;
    [|apply (Hnil H)].
  destruct (forOf _ _ _) as [out|e] eqn:Hloop; cbn [bind try_catch] in H;
    [|apply (Hnil H)].
  inversion H. subst l. exists out. split; [reflexivity|].
  apply forOf_collect_some_inv in Hloop as [rs [-> Hrs]]. cbn [app].
  intros r Hr. destruct (Hrs r Hr) as [cp [_ Hcp]].
  rewrite (getS3SessionData_sessionId _ _ _ _ _ Hcp). exact Hcp.
Qed.

Lemma compareSessions_dated (newDate : jsval -> option Z) (x y : SessionRecord) :
  dated newDate x -> dated newDate y ->
  (sortCompare (compareSessions newDate) x y <? 0)
  = (timeOf newDate y <? timeOf newDate x).
Proof.
  intros [Hx [tx Htx]] [Hy [ty Hty]].
  unfold sortCompare, compareSessions, dateDiff, timeOf.
  rewrite Hx, Hy, Htx, Hty. cbn.
  destruct (Z.ltb_spec (ty - tx) 0), (Z.ltb_spec ty tx); try reflexivity; lia.
Qed.

Lemma timestamps_dated (newDate : jsval -> option Z) (l : list SessionRecord) :
  Forall (dated newDate) l -> timestamps newDate l = map (timeOf newDate) l.
Proof.
  induction 1 as [|r l [Hr [t Ht]] Hl IH]; [reflexivity|].
  unfold timestamps in *. cbn [map]. cbn. rewrite Hr, Ht.
  unfold timeOf at 1. rewrite Ht. cbn. f_equal. exact IH.
Qed.

Lemma sortSessions_newestFirst (newDate : jsval -> option Z)
  (details : list SessionRecord) :
  Forall (dated newDate) (sortSessions newDate details) ->
  newestFirst newDate (sortSessions newDate details).
Proof.
  intros Hall. unfold newestFirst. rewrite (timestamps_dated _ _ Hall).
  assert (Hd : Forall (dated newDate) details).
  { eapply Permutation_Forall; [apply Array_sort_Permutation | exact Hall]. }
  pose proof (Array_sort_sorted (compareSessions newDate) (timeOf newDate)
                (dated newDate) (compareSessions_dated newDate) details Hd) as Hs.
  fold (sortSessions newDate details) in Hs.
  induction Hs as [|r l Hs IH Hr]; cbn [map]; constructor.
  - apply IH. inversion Hall; assumption.
  - apply Forall_map. eapply Forall_impl; [exact Hr|]. cbn. intros; lia.
Qed.

(** X4. When every session of a listing has a creation date that the
    engine's [Date] can read, the listing is newest first, on both
    backends. *)
Theorem dated_sessions_are_listed_newest_first (newDate : jsval -> option Z)
  (fs : FsEnv) (s3 : S3Env) (cfg : Config) (candidate : string)
  (l : list SessionRecord) :
  listCandidateSessions newDate fs s3 cfg candidate = Ok (Some l) ->
  Forall (dated newDate) l ->
  newestFirst newDate l.
Proof.
  unfold listCandidateSessions. intros H Hall.
  destruct (String.eqb (cfg_storageType cfg) "filesystem").
  - destruct (listFilesystemSessions newDate fs cfg candidate) as [l'|e] eqn:E;
      cbn [bind] in H; inversion H. subst l'.
    apply listFilesystemSessions_inv in E as [details [-> _]].
    apply sortSessions_newestFirst, Hall.
  - destruct (String.eqb (cfg_storageType cfg) "s3"); [|discriminate].
    destruct (listS3Sessions newDate s3 cfg candidate) as [l'|e] eqn:E;
      cbn [bind] in H; inversion H. subst l'.
    apply listS3Sessions_inv in E as [details [-> _]].
    apply sortSessions_newestFirst, Hall.
Qed.

Lemma dated_sessions_are_listed_newest_first_witness :
  exists l,
    listCandidateSessions isoDate (fsOf twoSessionsDisk) (s3Of emptyBucket)
      fsConfig "CAND1" = Ok (Some l)
    /\ map sessionId l = ["20240101-000000-IST"; "20200101-000000-IST"]
    /\ newestFirst isoDate l.
Proof.
  eexists. split; [vm_compute; reflexivity|]. split; [reflexivity|].
  apply (dated_sessions_are_listed_newest_first isoDate (fsOf twoSessionsDisk)
           (s3Of emptyBucket) fsConfig "CAND1"); [vm_compute; reflexivity|].
  repeat constructor; vm_compute; eauto.
Defined.

(** ** The order of a listing whose sessions cannot be compared *)

Lemma sortSessions_undated (newDate : jsval -> option Z)
  (details : list SessionRecord) :
  Forall (fun r => truthy (createdAt r) = false) (sortSessions newDate details) ->
  sortSessions newDate details = details.
Proof.
  intros Hall.
  assert (Hd : Forall (fun r => truthy (createdAt r) = false) details).
  { eapply Permutation_Forall; [apply Array_sort_Permutation | exact Hall]. }
  apply (Array_sort_unordered (compareSessions newDate)
           (fun r => truthy (createdAt r) = false)); [|exact Hd].
  intros x y Hx Hy. unfold sortCompare, compareSessions. cbv beta in Hx.
  rewrite Hx. reflexivity.
Qed.

(** X5. Sessions without a creation date are listed in the order the backend
    lists them: when no session of a candidate has one (as for every session
    whose metadata lacks [processed_at]), the session listing follows the
    directory listing on the filesystem and the order of the common
    prefixes on the object store. *)
Theorem undated_sessions_keep_backend_order (newDate : jsval -> option Z)
  (fs : FsEnv) (s3 : S3Env) (cfg : Config) (candidate : string) :
  (forall entries,
     readdir fs (candidateDirOf cfg candidate) = Ok entries ->
     (forall session, In session (directoriesOf entries) ->
                      fsSessionWalkable fs cfg candidate session) ->
     exists l,
       listFilesystemSessions newDate fs cfg candidate = Ok l
       /\ (Forall (fun r => truthy (createdAt r) = false) l ->
           map sessionId l = directoriesOf entries))
  /\ (forall response,
        listObjectsV2 s3 (candidatePrefix cfg candidate) (Some "/") = Ok response ->
        (forall commonPrefix,
           In commonPrefix (default [] (CommonPrefixes response)) ->
           s3SessionWalkable s3 cfg candidate
             (idOfPrefix (candidatePrefix cfg candidate) commonPrefix)) ->
        exists l,
          listS3Sessions newDate s3 cfg candidate = Ok l
          /\ (Forall (fun r => truthy (createdAt r) = false) l ->
              map sessionId l
              = map (idOfPrefix (candidatePrefix cfg candidate))
                    (default [] (CommonPrefixes response)))).
Proof.
  split.
  - intros entries Hdir Hwalk. unfold listFilesystemSessions.
    fold (candidateDirOf cfg candidate). rewrite Hdir. cbn [bind].
    set (xs := filter (fun d => Dirent.isDirectory d = true) entries).
    destruct (forOf_collect
                (fun d => materializeFsSession fs cfg candidate (Dirent.name d))
                xs []) as [rs [Hrs HF]].
    { intros d Hd. apply materializeFsSession_total, Hwalk, In_directoriesOf, Hd. }
    rewrite Hrs. cbn [app bind try_catch].
    exists (sortSessions newDate rs). split; [reflexivity|].
    intros Hall. rewrite (sortSessions_undated _ _ Hall).
    unfold directoriesOf. fold xs.
    apply (Forall2_map_eq _ sessionId Dirent.name xs rs HF).
    intros d r Hr. cbv beta in Hr. apply (materializeFsSession_sessionId _ _ _ _ _ Hr).
  - intros response Hlist Hwalk. unfold listS3Sessions.
    fold (candidatePrefix cfg candidate). cbv zeta. rewrite Hlist. cbn [bind].
    set (xs := default [] (CommonPrefixes response)).
    destruct (forOf_collect_some
                (fun cp => getS3SessionData s3 cfg candidate
                             (idOfPrefix (candidatePrefix cfg candidate) cp))
                xs []) as [rs [Hrs HF]].
    { intros cp Hcp. apply getS3SessionData_total, Hwalk, Hcp. }
    rewrite Hrs. cbn [app bind try_catch].
    exists (sortSessions newDate rs). split; [reflexivity|].
    intros Hall. rewrite (sortSessions_undated _ _ Hall).
    apply (Forall2_map_eq _ sessionId _ xs rs HF).
    intros cp r Hr. cbv beta in Hr. apply (getS3SessionData_sessionId _ _ _ _ _ Hr).
Qed.

(** ** The roster row and the session listing *)

(** X6. Every row of the roster is built from the session listing of its
    candidate: [sessionCount] is the length of that listing, [lastActivity]
    is the creation date of its first element and name, location and
    experience are read from the profile of its first element; a candidate
    without sessions has [null] in all four. *)
Theorem roster_row_is_built_from_first_listed_session
  (newDate : jsval -> option Z) (fs : FsEnv) (s3 : S3Env) (cfg : Config)
  (rows : list CandidateInfo.t) (row : CandidateInfo.t) :
  listCandidates newDate fs s3 cfg = Ok (Some rows) -> In row rows ->
  exists sessions,
    listCandidateSessions newDate fs s3 cfg (CandidateInfo.candidateId row)
    = Ok (Some sessions)
    /\ CandidateInfo.sessionCount row = length sessions
    /\ match sessions with
       | [] =>
           CandidateInfo.lastActivity row = JNull
           /\ CandidateInfo.name row = JNull
           /\ CandidateInfo.location row = JNull
           /\ CandidateInfo.experience row = JNull
       | first :: _ =>
           CandidateInfo.lastActivity row = createdAt first
           /\ getPropOpt (candidateProfile first) "name"
              = Ok (CandidateInfo.name row)
           /\ getPropOpt (candidateProfile first) "location"
              = Ok (CandidateInfo.location row)
           /\ getPropOpt (candidateProfile first) "experience"
              = Ok (CandidateInfo.experience row)
       end.
Proof.
  unfold listCandidates, listCandidateSessions. intros H Hin.
  destruct (String.eqb (cfg_storageType cfg) "filesystem").
  - destruct (listFilesystemCandidates newDate fs cfg) as [rows'|e] eqn:E;
      cbn [bind] in H; inversion H. subst rows'.
    pose proof (listFilesystemCandidates_rows newDate fs cfg rows row E Hin) as Hrow.
    unfold fsRosterRow in Hrow.
    destruct (listFilesystemSessions newDate fs cfg _) as [sessions|e];
      cbn [bind] in Hrow |- *; [|discriminate].
    exists sessions. split; [reflexivity|].
    destruct (candidateInfoOf_total (CandidateInfo.candidateId row) sessions)
      as [row' [Hrow' [_ Hrest]]].
    rewrite Hrow in Hrow'. inversion Hrow'. subst row'. exact Hrest.
  - destruct (String.eqb (cfg_storageType cfg) "s3"); [|discriminate].
    destruct (listS3Candidates newDate s3 cfg) as [rows'|e] eqn:E;
      cbn [bind] in H; inversion H. subst rows'.
    pose proof (listS3Candidates_rows newDate s3 cfg rows row E Hin) as Hrow.
    unfold s3RosterRow in Hrow.
    destruct (listS3Sessions newDate s3 cfg _) as [sessions|e];
      cbn [bind] in Hrow |- *; [|discriminate].
    exists sessions. split; [reflexivity|].
    destruct (candidateInfoOf_total (CandidateInfo.candidateId row) sessions)
      as [row' [Hrow' [_ Hrest]]].
    rewrite Hrow in Hrow'. inversion Hrow'. subst row'. exact Hrest.
Qed.

Lemma roster_row_is_built_from_first_listed_session_witness :
  exists sessions,
    listCandidateSessions isoDate (fsOf twoSessionsDisk) (s3Of emptyBucket)
      fsConfig "CAND1" = Ok (Some sessions)
    /\ 2%nat = length sessions
    /\ match sessions with
       | [] => JStr "2024-01-01T00:00:00Z" = JNull /\ JStr "Asha Rao-Iyer" = JNull
               /\ JStr "Delhi" = JNull /\ JNum 6 = JNull
       | first :: _ =>
           JStr "2024-01-01T00:00:00Z" = createdAt first
           /\ getPropOpt (candidateProfile first) "name" = Ok (JStr "Asha Rao-Iyer")
           /\ getPropOpt (candidateProfile first) "location" = Ok (JStr "Delhi")
           /\ getPropOpt (candidateProfile first) "experience" = Ok (JNum 6)
       end.
Proof.
  apply (roster_row_is_built_from_first_listed_session isoDate
           (fsOf twoSessionsDisk) (s3Of emptyBucket) fsConfig
           [CandidateInfo.mk "CAND1" 2 (JStr "2024-01-01T00:00:00Z")
              (JStr "Asha Rao-Iyer") (JStr "Delhi") (JNum 6)]
           (CandidateInfo.mk "CAND1" 2 (JStr "2024-01-01T00:00:00Z")
              (JStr "Asha Rao-Iyer") (JStr "Delhi") (JNum 6))).
  - vm_compute. reflexivity.
  - left. reflexivity.
Defined.

(** ** A metadata document that holds [null] *)

(** X7. A [metadata.json] that holds the JSON literal [null] is parsed
    without error, and reading [processed_at] from it throws a [TypeError]:
    on the filesystem the error ends the session listing of the candidate
    (it is not [ENOENT], so it is thrown on); on the object store the
    session is left out of the listing. *)
Theorem null_metadata_ends_listing_or_drops_session
  (newDate : jsval -> option Z) (fs : FsEnv) (s3 : S3Env) (cfg : Config)
  (candidate : string) :
  (forall entries before d after sessionEntries,
     readdir fs (candidateDirOf cfg candidate) = Ok entries ->
     filter (fun d => Dirent.isDirectory d = true) entries = before ++ d :: after ->
     (forall b, In b before ->
                fsSessionWalkable fs cfg candidate (Dirent.name b)) ->
     readdir fs (sessionPathOf cfg candidate (Dirent.name d)) = Ok sessionEntries ->
     "metadata.json" ∈ map Dirent.name sessionEntries ->
     readFile fs (path_join (sessionPathOf cfg candidate (Dirent.name d))
                    "metadata.json") = Ok (JsonText JNull) ->
     exists msg,
       listFilesystemSessions newDate fs cfg candidate = Throw (TypeError msg))
  /\ (forall session response key l,
        listObjectsV2 s3 (baseKeyOf cfg candidate session +:+ "/") None
          = Ok response ->
        Slots.metadata (fst (classifyObjects cfg (default [] (Contents response))))
          = Some key ->
        getS3Object s3 key = Ok (JsonText JNull) ->
        listS3Sessions newDate s3 cfg candidate = Ok l ->
        forall r, In r l -> sessionId r <> session).
Proof.
  split.
  - intros entries before d after sessionEntries Hdir Hsplit Hwalk Hsess Hin Hread.
    destruct (proj1 (null_metadata_document fs s3 cfg candidate (Dirent.name d)
                       sessionEntries (mkListResponse None None) "")
                Hsess Hin Hread) as [msg Hmsg].
    exists msg. unfold listFilesystemSessions.
    fold (candidateDirOf cfg candidate). rewrite Hdir. cbn [bind]. rewrite Hsplit.
    rewrite (forOf_throw
               (fun d => materializeFsSession fs cfg candidate (Dirent.name d))
               before after d [] (TypeError msg)).
    + reflexivity.
    + intros b Hb. apply materializeFsSession_total, Hwalk, Hb.
    + exact Hmsg.
  - intros session response key l Hlist Hslot Hread Hl r Hr Hid.
    apply listS3Sessions_inv in Hl as [details [-> Hd]].
    apply (Permutation_in _ (Array_sort_Permutation _ details)) in Hr.
    specialize (Hd r Hr). rewrite Hid in Hd.
    rewrite (proj2 (null_metadata_document fs s3 cfg candidate session []
                      response key) Hlist Hslot Hread) in Hd.
    discriminate.
Qed.

(** ** What a call leaves alone *)

Section SettleAllDefined.
Context {S : Type}.
Variable put : Write -> S -> S * option error.
Variable good : S -> Prop.
Variable upd : Write -> S -> S.
Variable look : S -> string -> option FileContent.
Variable loc : Write -> string.
Variable fault : Write -> option error.

Hypothesis put_spec : forall w s, good s ->
  put w s = (match fault w with Some _ => s | None => upd w s end, fault w).
Hypothesis upd_good : forall w s, good s -> good (upd w s).
Hypothesis look_upd_eq : forall w s, look (upd w s) (loc w) = Some (w_data w).
Hypothesis look_upd_ne : forall w s l, l <> loc w -> look (upd w s) l = look s l.

End SettleAllDefined.








(** ** From a stored session to its listing *)

Lemma classify_Transcript (file : string) :
  classify file = Some Transcript <-> file = "transcript.txt".
Proof.
  split; [|intros ->; reflexivity].
  unfold classify.
  destruct (startsWith file "audio_" && endsWith file ".mp3"); [discriminate|].
  destruct (String.eqb_spec file "transcript.txt") as [->|_]; [reflexivity|].
  destruct (String.eqb file "candidate_profile.json"); [discriminate|].
  destruct (String.eqb file "metadata.json"); [discriminate|].
  destruct (endsWith file ".html"); [discriminate|].
  destruct (endsWith file ".pdf"); discriminate.
Qed.






Lemma path_join_longer (dir name : string) : path_join dir name <> dir.
Proof.
  intros H. apply (f_equal String.length) in H. unfold path_join in H.
  rewrite !length_app_str in H. cbn in H. lia.
Qed.








(** ** The configuration loader *)

Lemma envOr_nonempty (env : gmap string string) (k fallback : string) :
  fallback <> "" -> envOr env k fallback <> "".
Proof.
  intros Hf. unfold envOr. destruct (env !! k) as [v|]; [|exact Hf].
  destruct (String.eqb_spec v ""); assumption.
Qed.

Lemma isMissing_envOr (env : gmap string string) (k fallback : string) :
  fallback <> "" -> String.eqb (envOr env k fallback) "" = false.
Proof. intros Hf. apply String.eqb_neq, envOr_nonempty, Hf. Qed.

Lemma isMissing_envGet (env : gmap string string) (k : string) :
  isMissing (envGet env k) = String.eqb (envOr env k "") "".
Proof.
  unfold envGet, envOr. destruct (env !! k) as [v|]; [|reflexivity].
  cbn [isMissing]. destruct (String.eqb v "") eqn:E; [reflexivity|].
  rewrite E. reflexivity.
Qed.

(** The decision table of [loadConfig]. *)
Lemma loadConfig_cases (envFiles : string -> option (gmap string string)) (processEnv : gmap string string) :
  let env := loadEnv envFiles processEnv in
  loadConfig envFiles processEnv
  = if isMissing (envGet env "OPENAI_API_KEY") then
      Throw (Error "Missing required configuration: openai.apiKey")
    else if String.eqb (envOr env "STORAGE_TYPE" "filesystem") "s3" then
      if isMissing (envGet env "S3_BUCKET_NAME") then
        Throw (Error "Missing required S3 configuration: storage.config.bucketName")
      else if isMissing (envGet env "S3_ACCESS_KEY_ID") then
        Throw (Error "Missing required S3 configuration: storage.config.accessKeyId")
      else if isMissing (envGet env "S3_SECRET_ACCESS_KEY") then
        Throw (Error
                 "Missing required S3 configuration: storage.config.secretAccessKey")
      else Ok (configOf env)
    else Ok (configOf env).
Proof.
  intros env. unfold loadConfig. fold env.
  unfold validateConfig, requireAll, getNestedValue, configOf, buildStorageConfig.
  cbn [split Ascii.eqb Bool.eqb forOf bind getPropOpt getProp assoc String.eqb
         default from_option id isMissing Z.eqb].
  rewrite (isMissing_envOr env "STORAGE_TYPE" "filesystem") by discriminate.
  cbn [bind].
  destruct (isMissing (envGet env "OPENAI_API_KEY")); [reflexivity|].
  cbn [bind].
  rewrite (isMissing_envOr env "TIMEZONE" "Asia/Kolkata") by discriminate.
  cbn [bind isString].
  destruct (String.eqb (envOr env "STORAGE_TYPE" "filesystem") "s3") eqn:Es3.
  - cbn [split Ascii.eqb Bool.eqb forOf bind getPropOpt getProp assoc String.eqb
           default from_option id isMissing].
    destruct (isMissing (envGet env "S3_BUCKET_NAME")); [reflexivity|].
    cbn [bind].
    rewrite (isMissing_envOr env "S3_REGION" "us-east-1") by discriminate.
    cbn [bind].
    destruct (isMissing (envGet env "S3_ACCESS_KEY_ID")); [reflexivity|].
    cbn [bind].
    destruct (isMissing (envGet env "S3_SECRET_ACCESS_KEY")); reflexivity.
  - destruct (String.eqb (envOr env "STORAGE_TYPE" "filesystem") "filesystem");
      [|reflexivity].
    cbn [split Ascii.eqb Bool.eqb forOf bind getPropOpt getProp assoc String.eqb
           default from_option id isMissing].
    rewrite (isMissing_envOr env "CANDIDATE_DATA_PATH" "candidate-data")
      by discriminate.
    cbn [bind].
    rewrite (isMissing_envOr env "PROCESSED_DATA_PATH" "processed-data")
      by discriminate.
    reflexivity.
Qed.

(** X10. Of the general settings [loadConfig] checks, only the API key can
    be found missing: an unset or empty [OPENAI_API_KEY] is reported
    whatever else is set, and with the key set every storage type other
    than [s3] is accepted (port, storage type, time zone and the two
    filesystem paths have defaults), also a type the storage manager does
    not support. *)
Theorem loadConfig_requires_only_the_api_key (envFiles : string -> option (gmap string string))
  (processEnv : gmap string string) :
  let env := loadEnv envFiles processEnv in
  (envOr env "OPENAI_API_KEY" "" = "" ->
   loadConfig envFiles processEnv
   = Throw (Error "Missing required configuration: openai.apiKey"))
  /\ (envOr env "OPENAI_API_KEY" "" <> "" ->
      envOr env "STORAGE_TYPE" "filesystem" <> "s3" ->
      loadConfig envFiles processEnv = Ok (configOf env)).
Proof.
  intros env. rewrite (loadConfig_cases envFiles processEnv). fold env.
  rewrite isMissing_envGet. split.
  - intros ->. reflexivity.
  - intros Hkey Htype. apply String.eqb_neq in Hkey, Htype.
    rewrite Hkey, Htype. reflexivity.
Qed.

(** X11. With the storage type [s3], [loadConfig] succeeds exactly when
    bucket name, access key id and secret access key are set to non-empty
    strings, and reports the first of them that is not, in that order; the
    region is never reported, it defaults to [us-east-1]. *)
Theorem loadConfig_s3_requires_bucket_and_credentials
  (envFiles : string -> option (gmap string string)) (processEnv : gmap string string) :
  let env := loadEnv envFiles processEnv in
  envOr env "OPENAI_API_KEY" "" <> "" ->
  envOr env "STORAGE_TYPE" "filesystem" = "s3" ->
  (envOr env "S3_BUCKET_NAME" "" = "" ->
   loadConfig envFiles processEnv
   = Throw (Error "Missing required S3 configuration: storage.config.bucketName"))
  /\ (envOr env "S3_BUCKET_NAME" "" <> "" ->
      envOr env "S3_ACCESS_KEY_ID" "" = "" ->
      loadConfig envFiles processEnv
      = Throw (Error
                 "Missing required S3 configuration: storage.config.accessKeyId"))
  /\ (envOr env "S3_BUCKET_NAME" "" <> "" ->
      envOr env "S3_ACCESS_KEY_ID" "" <> "" ->
      envOr env "S3_SECRET_ACCESS_KEY" "" = "" ->
      loadConfig envFiles processEnv
      = Throw (Error
                 "Missing required S3 configuration: storage.config.secretAccessKey"))
  /\ (envOr env "S3_BUCKET_NAME" "" <> "" ->
      envOr env "S3_ACCESS_KEY_ID" "" <> "" ->
      envOr env "S3_SECRET_ACCESS_KEY" "" <> "" ->
      loadConfig envFiles processEnv = Ok (configOf env)
      /\ getNestedValue (configOf env) "storage.config.region"
         = Ok (JStr (envOr env "S3_REGION" "us-east-1"))).
Proof.
  intros env Hkey Htype. rewrite (loadConfig_cases envFiles processEnv). fold env.
  rewrite !isMissing_envGet. apply String.eqb_neq in Hkey. rewrite Hkey, Htype.
  cbn [String.eqb Ascii.eqb Bool.eqb].
  split; [intros ->; reflexivity|].
  split; [intros H1 ->; apply String.eqb_neq in H1; rewrite H1; reflexivity|].
  split.
  - intros H1 H2 ->. apply String.eqb_neq in H1, H2. rewrite H1, H2. reflexivity.
  - intros H1 H2 H3. apply String.eqb_neq in H1, H2, H3. rewrite H1, H2, H3.
    split; [reflexivity|].
    unfold getNestedValue, configOf, buildStorageConfig. rewrite Htype. reflexivity.
Qed.

Lemma loadConfig_s3_requires_bucket_and_credentials_witness :
  loadConfig noEnvFiles s3Environment = Ok (configOf s3Environment)
  /\ getNestedValue (configOf s3Environment) "storage.config.region"
     = Ok (JStr "us-east-1").
Proof.
  apply (loadConfig_s3_requires_bucket_and_credentials noEnvFiles s3Environment);
    vm_compute; congruence.
Defined.

Lemma envOr_union (env parsed : gmap string string) (k fallback : string) :
  is_Some (env !! k) \/ parsed !! k = None ->
  envOr (env ∪ parsed) k fallback = envOr env k fallback.
Proof.
  intros H. unfold envOr. rewrite lookup_union.
  destruct (env !! k) as [v|] eqn:E.
  - destruct (parsed !! k); reflexivity.
  - destruct H as [ [v Hv] | -> ]; [discriminate | reflexivity].
Qed.

(** X12. Loading the configuration again gives the same configuration:
    every module that calls [loadConfig] ([storageUtils.js],
    [pdfUtils.js], the controller, the server) works with the environment
    the first call left, and gets from it what the first call got, as long
    as the environment file does not itself set [NODE_ENV] for a process
    that had none. *)
Theorem loadConfig_again_gives_the_same (envFiles : string -> option (gmap string string))
  (processEnv : gmap string string) :
  (is_Some (processEnv !! "NODE_ENV")
   \/ forall parsed,
        envFiles (".env." +:+ envOr processEnv "NODE_ENV" "localhost")
          = Some parsed ->
        parsed !! "NODE_ENV" = None) ->
  loadEnv envFiles (loadEnv envFiles processEnv) = loadEnv envFiles processEnv
  /\ loadConfig envFiles (loadEnv envFiles processEnv)
     = loadConfig envFiles processEnv.
Proof.
  intros H.
  assert (Henv : loadEnv envFiles (loadEnv envFiles processEnv)
                 = loadEnv envFiles processEnv).
  { unfold loadEnv at 1 3. cbv zeta.
    assert (Hname : envOr (loadEnv envFiles processEnv) "NODE_ENV" "localhost"
                    = envOr processEnv "NODE_ENV" "localhost").
    { unfold loadEnv. cbv zeta.
      destruct (envFiles _) as [parsed|] eqn:E; cbn [dotenv_config]; [|reflexivity].
      apply envOr_union.
      destruct H as [H|H]; [left; exact H | right; apply H; reflexivity]. }
    rewrite Hname. unfold loadEnv. cbv zeta.
    destruct (envFiles _) as [parsed|]; cbn [dotenv_config]; [|reflexivity].
    rewrite <- (assoc_L (∪)), (idemp_L (∪)). reflexivity. }
  split; [exact Henv|]. unfold loadConfig. rewrite Henv. reflexivity.
Qed.

Lemma loadConfig_again_gives_the_same_witness :
  loadEnv noEnvFiles (loadEnv noEnvFiles keyOnlyEnvironment) = loadEnv noEnvFiles keyOnlyEnvironment
  /\ loadConfig noEnvFiles (loadEnv noEnvFiles keyOnlyEnvironment)
     = loadConfig noEnvFiles keyOnlyEnvironment.
Proof.
  apply (loadConfig_again_gives_the_same noEnvFiles keyOnlyEnvironment).
  right. intros parsed Hp. discriminate Hp.
Defined.

(** ** The dialogue formatter *)

(** X13. [formatTranscriptToDialogue] never throws: when the completion
    fails, or its answer has no first choice with a text, the result is the
    raw transcript behind a note; when the answer has one, the result is
    that text, trimmed. *)
Theorem formatting_falls_back_to_the_raw_transcript
  (completion : string -> result jsval) (rawTranscript : string) :
  (exists text, formatTranscriptToDialogue completion rawTranscript = Ok text)
  /\ (forall e, completion rawTranscript = Throw e ->
        formatTranscriptToDialogue completion rawTranscript
        = Ok (rawWithNote rawTranscript))
  /\ (forall response,
        completion rawTranscript = Ok response ->
        getProp response "choices" = Ok (JArr []) ->
        formatTranscriptToDialogue completion rawTranscript
        = Ok (rawWithNote rawTranscript))
  /\ (forall response choice more message content,
        completion rawTranscript = Ok response ->
        getProp response "choices" = Ok (JArr (choice :: more)) ->
        getProp choice "message" = Ok message ->
        getProp message "content" = Ok (JStr content) ->
        formatTranscriptToDialogue completion rawTranscript = Ok (trim content))
  /\ endsWith (rawWithNote rawTranscript) rawTranscript = true.
Proof.
  unfold formatTranscriptToDialogue. split; [|split; [|split; [|split]]].
  - destruct (_ <- completion rawTranscript ;; _) as [text|e];
      cbn [try_catch]; eauto.
  - intros e ->. reflexivity.
  - intros response -> Hc. cbn [bind]. rewrite Hc. reflexivity.
  - intros response choice more message content -> Hc Hm Hcontent.
    cbn [bind]. rewrite Hc. cbn [bind getIndex nth]. rewrite Hm. cbn [bind].
    rewrite Hcontent. reflexivity.
  - unfold rawWithNote. rewrite <- !app_assoc_str. apply endsWith_app.
Qed.

(** ** The controller *)

Lemma formatTranscriptToDialogue_total (completion : string -> result jsval)
  (rawTranscript : string) :
  exists text, formatTranscriptToDialogue completion rawTranscript = Ok text.
Proof.
  unfold formatTranscriptToDialogue.
  destruct (_ <- completion rawTranscript ;; _) as [text|e]; cbn [try_catch]; eauto.
Qed.

Lemma removeIfExists_gone (faults : Faults) (p : string) (st st' : FsState) :
  removeIfExists faults p st = (st', None) -> fileData st' !! p = None.
Proof.
  unfold removeIfExists, existsSync, unlinkSync.
  destruct (fileData st !! p) as [c|] eqn:E.
  - rewrite bool_decide_eq_true_2 by eauto. cbn [orb].
    destruct (faults p); intros H; inversion H. cbn [fileData].
    apply lookup_delete_eq.
  - rewrite bool_decide_eq_false_2 by (intros [? ?]; discriminate). cbn [orb].
    destruct (bool_decide _); [destruct (faults p); discriminate|].
    intros H. inversion H. subst st'. exact E.
Qed.


Lemma removeIfExists_failed (faults : Faults) (p : string) (st st' : FsState)
  (e : error) :
  removeIfExists faults p st = (st', Some e) -> st' = st.
Proof.
  unfold removeIfExists, unlinkSync.
  destruct (existsSync st p); [|discriminate].
  destruct (faults p); [intros H; inversion H; reflexivity|].
  destruct (fileData st !! p); [discriminate|].
  intros H; inversion H; reflexivity.
Qed.

Section ControllerFacts.
Variable zoneOffset : Z -> Z.
Variable faults : Faults.
Variable cfg : Config.
Variable environment : string.
Variable transcribe : string -> result string.
Variable formatCompletion : string -> result jsval.
Variable extractProfile : string -> result jsval.
Variable generateHTML : jsval -> jsval -> Z -> result string.
Variable renderPdf : string -> result FileContent.
Variable closeBrowser : result unit.

(** How the storing step of [processAudio] ends. The transcript it hands
    over is an object, which neither [writeFile] nor the client of the
    object store takes, and the call comes with the upload: once the session
    folder is made (on the filesystem), the process ends. *)
Lemma processAudioSave_ending (now now' : Z) (w : World) (candidate : string)
  (f : UploadedFile) (raw formatted : string) (profile : jsval) :
  snd (processAudioSave zoneOffset faults cfg environment now now' w candidate f
         raw formatted profile)
  = if String.eqb (cfg_storageType cfg) "filesystem" then
      match faults (sessionPathOf cfg candidate (newSessionId zoneOffset now')) with
      | Some e => Returns (Throw e)
      | None => ProcessExit invalidArgType
      end
    else if String.eqb (cfg_storageType cfg) "s3" then ProcessExit invalidArgType
    else Returns
           (Throw (Error ("Unsupported storage type: " +:+ cfg_storageType cfg))).
Proof.
  unfold processAudioSave.
  destruct (String.eqb (cfg_storageType cfg) "filesystem") eqn:Efs.
  - apply String.eqb_eq in Efs.
    rewrite (saveCandidateData_filesystem _ _ _ _ _ _ _ _ _ _ _ Efs). cbn [snd].
    destruct (faults (sessionPathOf cfg candidate (newSessionId zoneOffset now')))
      as [e|] eqn:Emk.
    + rewrite (saveToFilesystem_mkdir_fails _ _ _ _ _ _ _ _ _ _ e Emk).
      reflexivity.
    + destruct (saveToFilesystem_document_rejected faults cfg (disk w) candidate
                  (newSessionId zoneOffset now')
                  (JObj [("raw", JStr raw); ("formatted", JStr formatted)])
                  profile
                  (processAudioMetadata cfg environment candidate f now raw
                     formatted) None (Some f) Emk) as [e [He ->]].
      * eexists. split; [left; reflexivity | discriminate].
      * cbn in He. inversion He. reflexivity.
  - destruct (String.eqb (cfg_storageType cfg) "s3") eqn:Es3.
    + apply String.eqb_eq in Es3.
      rewrite (saveCandidateData_s3 _ _ _ _ _ _ _ _ _ _ _ Es3). cbn [snd].
      destruct (saveToS3_document_rejected faults cfg (readFile (fsOf (disk w)))
                  (objects w) candidate (newSessionId zoneOffset now')
                  (JObj [("raw", JStr raw); ("formatted", JStr formatted)])
                  profile
                  (processAudioMetadata cfg environment candidate f now raw
                     formatted) None (Some f)) as [e [He ->]].
      * eexists. split; [left; reflexivity | discriminate].
      * cbn in He. inversion He. reflexivity.
    + unfold saveCandidateData. rewrite Efs, Es3. reflexivity.
Qed.

(** The [try] block never comes to its answer. *)
Lemma processAudioTry_no_answer (candidate : string) (f : UploadedFile)
  (now now' now'' : Z) (w : World) (response : Response) :
  snd (processAudioTry zoneOffset faults cfg environment transcribe
         formatCompletion extractProfile generateHTML renderPdf closeBrowser
         candidate f now now' now'' w)
  <> Ok response.
Proof.
  unfold processAudioTry.
  destruct (_ <- transcribe (path f) ;; _) as [[[raw formatted] profile]|e];
    [|discriminate].
  pose proof (processAudioSave_ending now now' w candidate f raw formatted profile)
    as Hend.
  destruct (processAudioSave _ _ _ _ _ _ _ _ _ _ _ _) as [wa saved].
  cbn [snd] in Hend. subst saved.
  destruct (String.eqb (cfg_storageType cfg) "filesystem").
  - destruct (faults _); discriminate.
  - destruct (String.eqb (cfg_storageType cfg) "s3"); discriminate.
Qed.

End ControllerFacts.

(** X14. [processAudio] never answers 200. The transcript it hands to the
    storage manager is the object [{ raw, formatted }], which neither
    [writeFile] nor the client of the object store takes for data, so the
    storing step never resolves; and with a storage type that is not
    supported it throws. Whatever answer a request gets is a 400 or a
    500. *)
Theorem processAudio_never_answers_200 (zoneOffset : Z -> Z)
  (faults : Faults) (cfg : Config) (environment : string)
  (transcribe : string -> result string)
  (formatCompletion : string -> result jsval)
  (extractProfile : string -> result jsval)
  (generateHTML : jsval -> jsval -> Z -> result string)
  (renderPdf : string -> result FileContent) (closeBrowser : result unit)
  (candidateId : option string) (file : option UploadedFile)
  (now now' now'' : Z) (w : World) (response : Response) :
  snd (processAudio zoneOffset faults cfg environment transcribe formatCompletion
         extractProfile generateHTML renderPdf closeBrowser candidateId file
         now now' now'' w) = Ok response ->
  res_status response = 400 \/ res_status response = 500.
Proof.
  unfold processAudio.
  destruct (given candidateId) as [candidate|];
    [|cbn [snd]; intros H; inversion H; left; reflexivity].
  destruct file as [f|];
    [|cbn [snd]; intros H; inversion H; left; reflexivity].
  pose proof (processAudioTry_no_answer zoneOffset faults cfg environment
                transcribe formatCompletion extractProfile generateHTML renderPdf
                closeBrowser candidate f now now' now'' w) as Hno.
  destruct (processAudioTry _ _ _ _ _ _ _ _ _ _ _ _ _ _ _ _) as [w1 outcome].
  cbn [snd] in Hno.
  destruct outcome as [[r|e]|e]; [destruct (Hno r eq_refl) | | discriminate].
  destruct (removeIfExists faults (path f) (disk w1)) as [st2 removed].
  destruct removed as [e'|]; [discriminate|].
  cbn [snd]. intros H. inversion H. right. reflexivity.
Qed.

Lemma processAudio_never_answers_200_witness :
  exists response,
    snd (sampleRequest failingExtract samplePrint) = Ok response
    /\ (res_status response = 400 \/ res_status response = 500).
Proof.
  eexists. split; [vm_compute; reflexivity|].
  apply (processAudio_never_answers_200 istOffset noFaults fsConfig "localhost"
           sampleTranscribe noCompletion failingExtract sampleHTML samplePrint
           (Ok tt) (Some "CAND1") (Some firstUpload) 1704067200050 1704067200100
           1704067200200 uploadsWorld).
  vm_compute. reflexivity.
Defined.

(** X15. Whenever [processAudio] answers a request that came with a
    candidate id and a file, with 200 or with 500, the uploaded temporary
    file is no longer on disk. *)
Theorem upload_is_gone_when_the_handler_answers (zoneOffset : Z -> Z)
  (faults : Faults) (cfg : Config) (environment : string)
  (transcribe : string -> result string)
  (formatCompletion : string -> result jsval)
  (extractProfile : string -> result jsval)
  (generateHTML : jsval -> jsval -> Z -> result string)
  (renderPdf : string -> result FileContent) (closeBrowser : result unit)
  (candidateId : option string) (candidate : string) (f : UploadedFile)
  (now now' now'' : Z) (w : World) (response : Response) :
  given candidateId = Some candidate ->
  snd (processAudio zoneOffset faults cfg environment transcribe formatCompletion
         extractProfile generateHTML renderPdf closeBrowser candidateId (Some f)
         now now' now'' w) = Ok response ->
  fileData
    (disk (fst (processAudio zoneOffset faults cfg environment transcribe
                  formatCompletion extractProfile generateHTML renderPdf
                  closeBrowser candidateId (Some f) now now' now'' w)))
    !! path f = None.
Proof.
  intros Hgiven. unfold processAudio. rewrite Hgiven.
  pose proof (processAudioTry_no_answer zoneOffset faults cfg environment
                transcribe formatCompletion extractProfile generateHTML renderPdf
                closeBrowser candidate f now now' now'' w) as Hno.
  destruct (processAudioTry _ _ _ _ _ _ _ _ _ _ _ _ _ _ _ _) as [w1 outcome].
  cbn [snd] in Hno.
  destruct outcome as [[r|e]|e]; [destruct (Hno r eq_refl) | | discriminate].
  destruct (removeIfExists faults (path f) (disk w1)) as [st2 removed] eqn:Er.
  destruct removed as [e'|]; [discriminate|].
  cbn [fst snd disk]. intros _. apply (removeIfExists_gone _ _ _ _ Er).
Qed.

Lemma upload_is_gone_when_the_handler_answers_witness :
  fileData (disk (fst (sampleRequest failingExtract samplePrint)))
    !! path firstUpload = None.
Proof.
  apply (upload_is_gone_when_the_handler_answers istOffset noFaults fsConfig
           "localhost" sampleTranscribe noCompletion failingExtract sampleHTML
           samplePrint (Ok tt) (Some "CAND1") "CAND1" firstUpload 1704067200050
           1704067200100 1704067200200 uploadsWorld
           (mkResponse 500
              (FailureBody "Processing failed"
                 (SyntaxError "Unexpected end of JSON input"))));
    vm_compute; reflexivity.
Defined.



(** ** The listing endpoints *)

(** X17. On the object store the two listing endpoints answer 200 whatever
    the store does: a listing request that fails gives an empty list with
    count 0. On the filesystem a directory that cannot be read for another
    reason than its absence gives a 500 with the error. *)
Theorem listing_endpoints_answer_200_on_the_object_store
  (newDate : jsval -> option Z) (cfg : Config) (fs : FsEnv) (s3 : S3Env)
  (candidateId : option string) (candidate : string) :
  given candidateId = Some candidate ->
  (cfg_storageType cfg = "s3" ->
   res_status (getCandidates newDate cfg fs s3) = 200
   /\ res_status (getCandidateSessions newDate cfg fs s3 candidateId) = 200
   /\ (forall e, listObjectsV2 s3 (rootPrefix cfg) (Some "/") = Throw e ->
         getCandidates newDate cfg fs s3
         = mkResponse 200 (CandidatesBody 0 [] "s3"))
   /\ (forall e, listObjectsV2 s3 (candidatePrefix cfg candidate) (Some "/") = Throw e ->
         getCandidateSessions newDate cfg fs s3 candidateId
         = mkResponse 200 (SessionsBody candidate 0 [] "s3")))
  /\ (cfg_storageType cfg = "filesystem" ->
      (forall e, error_code e <> Some "ENOENT" ->
         readdir fs (candidateDataPath cfg) = Throw e ->
         getCandidates newDate cfg fs s3
         = mkResponse 500 (FailureBody "Failed to retrieve candidates" e))
      /\ (forall e, error_code e <> Some "ENOENT" ->
            readdir fs (candidateDirOf cfg candidate) = Throw e ->
            getCandidateSessions newDate cfg fs s3 candidateId
            = mkResponse 500 (FailureBody "Failed to retrieve sessions" e))).
Proof.
  intros Hgiven. unfold getCandidates, getCandidateSessions, listCandidates,
    listCandidateSessions. rewrite Hgiven. split; intros Ht; rewrite Ht;
    cbn [String.eqb Ascii.eqb Bool.eqb].
  - split; [|split; [|split]].
    + destruct (listS3Candidates_total newDate s3 cfg) as [l ->]. reflexivity.
    + destruct (listS3Sessions_total newDate s3 cfg candidate) as [l ->]. reflexivity.
    + intros e He. rewrite (listS3Candidates_list_error newDate s3 cfg e He).
      reflexivity.
    + intros e He. rewrite (listS3Sessions_list_error newDate s3 cfg candidate e He).
      reflexivity.
  - split.
    + intros e Hcode He.
      rewrite (listFilesystemCandidates_readdir_error newDate fs cfg e He).
      rewrite (enoentAsEmpty_other e Hcode). reflexivity.
    + intros e Hcode He.
      rewrite (listFilesystemSessions_readdir_error newDate fs cfg candidate e He).
      rewrite (enoentAsEmpty_other e Hcode). reflexivity.
Qed.

Lemma listing_endpoints_answer_200_on_the_object_store_witness :
  getCandidates isoDate s3Config lockedFs brokenS3
  = mkResponse 200 (CandidatesBody 0 [] "s3")
  /\ getCandidates isoDate fsConfig lockedFs brokenS3
     = mkResponse 500
         (FailureBody "Failed to retrieve candidates" (SysError "EACCES")).
Proof.
  destruct (listing_endpoints_answer_200_on_the_object_store isoDate s3Config
              lockedFs brokenS3 (Some "CAND1") "CAND1" eq_refl) as [Hs3 _].
  destruct (listing_endpoints_answer_200_on_the_object_store isoDate fsConfig
              lockedFs brokenS3 (Some "CAND1") "CAND1" eq_refl) as [_ Hfs].
  split.
  - apply (proj1 (proj2 (proj2 (Hs3 eq_refl))) (Error "NetworkingError")).
    reflexivity.
  - apply (proj1 (Hfs eq_refl) (SysError "EACCES")); [discriminate | reflexivity].
Defined.

(** X18. Asking for the sessions of a candidate the store does not know is
    no error: the endpoint answers 200 with an empty list and count 0, on
    the filesystem when the candidate's directory does not exist and on the
    object store when its prefix has no session below it. *)
Theorem unknown_candidate_has_an_empty_session_list
  (newDate : jsval -> option Z) (cfg : Config) (fs : FsEnv) (s3 : S3Env)
  (candidateId : option string) (candidate : string) :
  given candidateId = Some candidate ->
  (cfg_storageType cfg = "filesystem" ->
   readdir fs (candidateDirOf cfg candidate) = Throw (SysError "ENOENT") ->
   getCandidateSessions newDate cfg fs s3 candidateId
   = mkResponse 200 (SessionsBody candidate 0 [] "filesystem"))
  /\ (cfg_storageType cfg = "s3" ->
      forall response,
        listObjectsV2 s3 (candidatePrefix cfg candidate) (Some "/") = Ok response ->
        default [] (CommonPrefixes response) = [] ->
        getCandidateSessions newDate cfg fs s3 candidateId
        = mkResponse 200 (SessionsBody candidate 0 [] "s3")).
Proof.
  intros Hgiven. unfold getCandidateSessions, listCandidateSessions. rewrite Hgiven.
  split; intros Ht; rewrite Ht; cbn [String.eqb Ascii.eqb Bool.eqb].
  - intros He.
    rewrite (listFilesystemSessions_readdir_error newDate fs cfg candidate _ He).
    rewrite enoentAsEmpty_enoent. reflexivity.
  - intros response Hr Hnone.
    rewrite (listS3Sessions_no_prefixes newDate s3 cfg candidate response Hr Hnone).
    reflexivity.
Qed.

Lemma unknown_candidate_has_an_empty_session_list_witness :
  getCandidateSessions isoDate fsConfig (fsOf sampleDisk) (s3Of sampleBucket)
    (Some "NOBODY")
  = mkResponse 200 (SessionsBody "NOBODY" 0 [] "filesystem").
Proof.
  apply (unknown_candidate_has_an_empty_session_list isoDate fsConfig
           (fsOf sampleDisk) (s3Of sampleBucket) (Some "NOBODY") "NOBODY");
    reflexivity.
Defined.

(** ** A storage type the storage manager does not know *)

Lemma storageManagerConfig_type (env : gmap string string) :
  exists cfg,
    storageManagerConfig (configOf env) = Ok cfg
    /\ cfg_storageType cfg = envOr env "STORAGE_TYPE" "filesystem".
Proof.
  unfold storageManagerConfig, configOf, buildStorageConfig.
  cbn [getProp assoc String.eqb Ascii.eqb Bool.eqb default from_option id bind].
  destruct (String.eqb (envOr env "STORAGE_TYPE" "filesystem") "s3");
    cbn [getProp assoc String.eqb Ascii.eqb Bool.eqb default from_option id bind];
    eexists; split; reflexivity.
Qed.

(** X19. [loadConfig] accepts a storage type that is neither [filesystem]
    nor [s3], and the storage manager then works with none: storing throws
    [Unsupported storage type], both listings return [undefined], and both
    listing endpoints answer 500. *)
Theorem unsupported_storage_type_is_loaded_and_then_refused
  (envFiles : string -> option (gmap string string))
  (processEnv : gmap string string) :
  let env := loadEnv envFiles processEnv in
  let type := envOr env "STORAGE_TYPE" "filesystem" in
  envOr env "OPENAI_API_KEY" "" <> "" ->
  type <> "filesystem" -> type <> "s3" ->
  exists config cfg,
    loadConfig envFiles processEnv = Ok config
    /\ storageManagerConfig config = Ok cfg
    /\ cfg_storageType cfg = type
    /\ (forall zoneOffset faults now w candidate transcript profile metadata
               generatedFiles audioFile,
          saveCandidateData zoneOffset faults cfg now w candidate transcript
            profile metadata generatedFiles audioFile
          = (w, Returns (Throw (Error ("Unsupported storage type: " +:+ type)))))
    /\ (forall newDate fs s3 candidate,
          listCandidates newDate fs s3 cfg = Ok None
          /\ listCandidateSessions newDate fs s3 cfg candidate = Ok None
          /\ res_status (getCandidates newDate cfg fs s3) = 500
          /\ res_status (getCandidateSessions newDate cfg fs s3 (Some candidate))
             <> 200).
Proof.
  intros env type Hkey Hfs Hs3.
  destruct (storageManagerConfig_type env) as [cfg [Hcfg Htype]].
  fold type in Htype.
  exists (configOf env), cfg.
  assert (Efs : String.eqb (cfg_storageType cfg) "filesystem" = false)
    by (rewrite Htype; apply String.eqb_neq, Hfs).
  assert (Es3 : String.eqb (cfg_storageType cfg) "s3" = false)
    by (rewrite Htype; apply String.eqb_neq, Hs3).
  split.
  { rewrite (loadConfig_cases envFiles processEnv). fold env.
    rewrite isMissing_envGet. apply String.eqb_neq in Hkey, Hs3.
    fold type. rewrite Hkey, Hs3. reflexivity. }
  split; [exact Hcfg|]. split; [exact Htype|]. split.
  - intros. unfold saveCandidateData. rewrite Efs, Es3, Htype. reflexivity.
  - intros newDate fs s3 candidate.
    unfold getCandidates, getCandidateSessions, listCandidates,
      listCandidateSessions, given.
    rewrite Efs, Es3. repeat split. destruct (String.eqb candidate ""); discriminate.
Qed.

Lemma unsupported_storage_type_is_loaded_and_then_refused_witness :
  exists config cfg,
    loadConfig noEnvFiles gcsEnvironment = Ok config
    /\ storageManagerConfig config = Ok cfg
    /\ cfg_storageType cfg = "gcs"
    /\ (forall zoneOffset faults now w candidate transcript profile metadata
               generatedFiles audioFile,
          saveCandidateData zoneOffset faults cfg now w candidate transcript
            profile metadata generatedFiles audioFile
          = (w, Returns (Throw (Error ("Unsupported storage type: " +:+ "gcs")))))
    /\ (forall newDate fs s3 candidate,
          listCandidates newDate fs s3 cfg = Ok None
          /\ listCandidateSessions newDate fs s3 cfg candidate = Ok None
          /\ res_status (getCandidates newDate cfg fs s3) = 500
          /\ res_status (getCandidateSessions newDate cfg fs s3 (Some candidate))
             <> 200).
Proof.
  apply (unsupported_storage_type_is_loaded_and_then_refused noEnvFiles
           gcsEnvironment); vm_compute; congruence.
Defined.
(** ** [path.extname] of a name with an extension *)

Lemma get_app_l (a b : string) (j : nat) :
  (j < String.length a)%nat -> String.get j (a +:+ b) = String.get j a.
Proof. intros H. symmetry. apply String.append_correct1, H. Qed.

Lemma get_app_r (a b : string) (j : nat) :
  String.get (String.length a + j) (a +:+ b) = String.get j b.
Proof.
  induction a as [|c a IH]; [reflexivity|].
  rewrite app_cons. cbn [String.length Nat.add String.get]. exact IH.
Qed.

Lemma get_lt (s : string) (j : nat) :
  (j < String.length s)%nat -> exists c, String.get j s = Some c.
Proof.
  revert j. induction s as [|a s IH]; intros j H; cbn in H; [lia|].
  destruct j as [|j]; [eauto|]. cbn [String.get]. apply IH. lia.
Qed.

Lemma extname_loop_found (path : string) (dot len n : nat) (st : ExtState) :
  extFound dot len st -> extFound dot len (extname_loop path n st).
Proof.
  revert st. induction n as [|i IH]; intros st Hinv; [exact Hinv|].
  cbn [extname_loop]. destruct (String.get i path) as [code|]; [|exact Hinv].
  destruct Hinv as (Hd & He & Hp).
  destruct (Ascii.eqb code "/"%char).
  - destruct (negb (matchedSlash st)); [|apply IH; repeat split; assumption].
    repeat split; assumption.
  - apply IH. clear IH.
    assert (E1 : (endIdx st =? -1) = false) by (apply Z.eqb_neq; lia).
    rewrite E1.
    assert (E2 : (startDot st =? -1) = false) by (apply Z.eqb_neq; lia).
    rewrite E2. cbn [negb].
    destruct (Ascii.eqb code "."%char).
    + destruct (negb (preDotState st =? 1)); unfold extFound;
        cbn [startDot endIdx preDotState]; auto.
    + unfold extFound. cbn [startDot endIdx preDotState]. auto.
Qed.

Section ExtnameOfSuffix.
Variables (q e : string).
Hypothesis stem_end : exists i c,
  String.length q = S i /\ String.get i q = Some c /\ c <> "/"%char.
Hypothesis ext_nonempty : e <> "".
Hypothesis ext_plain : forall j c, String.get j e = Some c -> plainChar c.

(** Walking down the extension: no dot is found, the end is. *)
Lemma extname_loop_in_ext (k : nat) (st : ExtState) :
  (k <= String.length e)%nat ->
  startDot st = -1 -> preDotState st = 0 ->
  (endIdx st = -1 \/ endIdx st = Z.of_nat (String.length q + 1 + String.length e)) ->
  (endIdx st = -1 -> k = String.length e) ->
  exists st',
    extname_loop (q +:+ "." +:+ e) (String.length q + 1 + k) st
    = extname_loop (q +:+ "." +:+ e) (String.length q + 1) st'
    /\ startDot st' = -1 /\ preDotState st' = 0
    /\ ((0 < k)%nat ->
        endIdx st' = Z.of_nat (String.length q + 1 + String.length e))
    /\ (k = O -> st' = st).
Proof.
  revert st. induction k as [|k IH]; intros st Hk Hd Hp He Hfirst.
  - exists st. rewrite Nat.add_0_r. repeat split; auto. intros; lia.
  - replace (String.length q + 1 + S k)%nat
      with (S (String.length q + 1 + k)) by lia.
    cbn [extname_loop].
    replace (String.length q + 1 + k)%nat
      with (String.length q + S k)%nat by lia.
    rewrite (get_app_r q ("." +:+ e) (S k)).
    change (String.get (S k) ("." +:+ e)) with (String.get k e).
    destruct (get_lt e k) as [c Hc]; [lia|]. rewrite Hc.
    destruct (ext_plain k c Hc) as [Hdot Hslash].
    apply Ascii.eqb_neq in Hdot, Hslash. rewrite Hslash, Hdot.
    set (st1 := if endIdx st =? -1 then _ else st).
    assert (H1 : startDot st1 = -1 /\ preDotState st1 = 0
                 /\ endIdx st1 = Z.of_nat (String.length q + 1 + String.length e)).
    { subst st1. destruct (Z.eqb_spec (endIdx st) (-1)) as [E|E];
        cbn [startDot preDotState endIdx].
      - repeat split; try assumption. specialize (Hfirst E). lia.
      - repeat split; try assumption. destruct He; [contradiction | assumption]. }
    destruct H1 as (Hd1 & Hp1 & He1).
    assert (E2 : (startDot st1 =? -1) = true) by (apply Z.eqb_eq, Hd1).
    rewrite E2. cbn [negb].
    replace (String.length q + S k)%nat
      with (String.length q + 1 + k)%nat by lia.
    destruct (IH st1) as (st' & Hrun & Hd' & Hp' & He' & Hz);
      [lia | exact Hd1 | exact Hp1 | right; exact He1 | intros; lia |].
    exists st'. split; [exact Hrun|]. split; [exact Hd'|]. split; [exact Hp'|].
    split; [|intros; lia]. intros _.
    destruct k as [|k]; [rewrite (Hz eq_refl); exact He1 | apply He'; lia].
Qed.

Lemma extname_loop_suffix :
  extFound (String.length q) (String.length q + 1 + String.length e)
    (extname_loop (q +:+ "." +:+ e)
       (String.length q + 1 + String.length e) extInit).
Proof.
  destruct stem_end as (i & c & Hlen & Hget & Hc).
  assert (Hle : (0 < String.length e)%nat).
  { destruct e; [contradiction | cbn; lia]. }
  destruct (extname_loop_in_ext (String.length e) extInit)
    as (st1 & Hrun & Hd1 & Hp1 & He1 & _);
    [lia | reflexivity | reflexivity | left; reflexivity | reflexivity |].
  rewrite Hrun. specialize (He1 Hle). clear Hrun.
  assert (Hloop : extname_loop (q +:+ "." +:+ e) (String.length q + 1) st1
                  = extname_loop (q +:+ "." +:+ e) (S (String.length q)) st1)
    by (f_equal; lia).
  rewrite Hloop. clear Hloop.
  cbn [extname_loop].
  replace (String.get (String.length q) (q +:+ "." +:+ e))
    with (Some "."%char).
  2:{ replace (String.length q) with (String.length q + 0)%nat at 1 by lia.
      rewrite (get_app_r q ("." +:+ e) 0). reflexivity. }
  cbn [Ascii.eqb Bool.eqb].
  assert (E1 : (endIdx st1 =? -1) = false) by (apply Z.eqb_neq; lia).
  rewrite E1.
  assert (E2 : (startDot st1 =? -1) = true) by (apply Z.eqb_eq, Hd1).
  rewrite E2.
  assert (E3 : (Z.of_nat (String.length q) =? -1) = false)
    by (apply Z.eqb_neq; lia).
  set (st2 := {| startDot := Z.of_nat (String.length q);
                 startPart := startPart st1; endIdx := endIdx st1;
                 matchedSlash := matchedSlash st1;
                 preDotState := preDotState st1 |}).
  assert (Hloop : extname_loop (q +:+ "." +:+ e) (String.length q) st2
                  = extname_loop (q +:+ "." +:+ e) (S i) st2)
    by (rewrite Hlen; reflexivity).
  rewrite Hloop. clear Hloop.
  cbn [extname_loop].
  rewrite (get_app_l q ("." +:+ e) i) by lia. rewrite Hget.
  apply Ascii.eqb_neq in Hc. rewrite Hc.
  apply extname_loop_found.
  subst st2. cbn [startDot endIdx preDotState matchedSlash startPart].
  rewrite E1. cbn [startDot endIdx preDotState matchedSlash startPart].
  rewrite E3, Hp1. cbn [Z.eqb negb].
  destruct (Ascii.eqb c "."%char); unfold extFound;
    cbn [startDot endIdx preDotState]; auto.
Qed.

Lemma extname_of_suffix : extname (q +:+ "." +:+ e) = "." +:+ e.
Proof.
  assert (Hpath : String.length (q +:+ "." +:+ e)
                  = (String.length q + 1 + String.length e)%nat).
  { rewrite !length_app_str. cbn. lia. }
  unfold extname. cbv zeta. rewrite Hpath.
  pose proof extname_loop_suffix as (Hd & He & Hp).
  set (st := extname_loop _ _ extInit) in *.
  rewrite Hd, He.
  assert (E3 : (Z.of_nat (String.length q) =? -1) = false)
    by (apply Z.eqb_neq; lia).
  rewrite E3.
  assert (E4 : (Z.of_nat (String.length q + 1 + String.length e) =? -1) = false)
    by (apply Z.eqb_neq; lia).
  rewrite E4.
  assert (E5 : (preDotState st =? 0) = false)
    by (apply Z.eqb_neq; destruct Hp as [-> | ->]; lia).
  rewrite E5.
  assert (E6 : (Z.of_nat (String.length q)
                =? Z.of_nat (String.length q + 1 + String.length e) - 1) = false).
  { apply Z.eqb_neq. destruct e; [contradiction | cbn [String.length]; lia]. }
  rewrite E6, andb_false_r. cbn [orb andb].
  rewrite Nat2Z.id.
  replace (Z.to_nat (Z.of_nat (String.length q + 1 + String.length e)
                     - Z.of_nat (String.length q)))
    with (String.length ("." +:+ e)).
  - apply substring_skip_app.
  - rewrite length_app_str. cbn. lia.
Qed.
End ExtnameOfSuffix.

Lemma last_char_no_slash (s : string) :
  s <> "" -> hasSlash s = false ->
  exists i c, String.length s = S i /\ String.get i s = Some c /\ c <> "/"%char.
Proof.
  induction s as [|a s IH]; intros Hne Hs; [contradiction|].
  cbn [hasSlash] in Hs. apply orb_false_iff in Hs as [Ha Hs].
  destruct s as [|b s].
  - exists O, a. repeat split. apply Ascii.eqb_neq, Ha.
  - destruct IH as (i & c & Hlen & Hget & Hc); [discriminate | exact Hs |].
    exists (S i), c. cbn [String.length String.get] in *. rewrite Hlen. auto.
Qed.

Lemma last_char_app (a s : string) :
  (exists i c, String.length s = S i /\ String.get i s = Some c /\ c <> "/"%char) ->
  exists i c, String.length (a +:+ s) = S i /\ String.get i (a +:+ s) = Some c
              /\ c <> "/"%char.
Proof.
  intros (i & c & Hlen & Hget & Hc). exists (String.length a + i)%nat, c.
  rewrite length_app_str, get_app_r, Hlen. repeat split; [lia | exact Hget | exact Hc].
Qed.

(** The extension of a file in a folder, from the shape of its name. *)
Lemma extname_in_folder (dir stem e : string) :
  stem <> "" -> hasSlash stem = false -> e <> "" ->
  (forall j c, String.get j e = Some c -> plainChar c) ->
  extname (path_join dir (stem +:+ "." +:+ e)) = "." +:+ e.
Proof.
  intros Hne Hs He Hplain. unfold path_join.
  replace (dir +:+ "/" +:+ stem +:+ "." +:+ e)
    with ((dir +:+ "/" +:+ stem) +:+ "." +:+ e)
    by (rewrite <- !app_assoc_str; reflexivity).
  apply extname_of_suffix; [|exact He | exact Hplain].
  apply last_char_app, last_char_app, last_char_no_slash; assumption.
Qed.

Ltac plain_chars :=
  let j := fresh "j" in let c := fresh "c" in let H := fresh "H" in
  intros j c H;
  repeat (destruct j as [|j];
          [cbn in H; injection H as <-; split; discriminate|];
          cbn in H; try discriminate H).

(** What the listing takes for an artifact has the extension of its kind,
    the bare extensions [.html] and [.pdf] apart. *)
Lemma classify_extname (dir name : string) (kind : ArtifactKind) :
  hasSlash name = false -> classify name = Some kind ->
  name <> ".html" -> name <> ".pdf" ->
  contentTypeOf (toLowerCase (extname (path_join dir name))) = typeOfKind kind.
Proof.
  intros Hs Hc Hh Hp.
  assert (Hstem : forall stem suf, name = stem +:+ suf -> name <> suf ->
            stem <> "" /\ hasSlash stem = false).
  { intros stem suf -> Hn. split.
    - intros ->. apply Hn. reflexivity.
    - rewrite hasSlash_app in Hs. apply orb_false_iff in Hs as [H _]. exact H. }
  unfold classify in Hc.
  destruct (startsWith name "audio_" && endsWith name ".mp3") eqn:Ea.
  { injection Hc as <-. apply andb_true_iff in Ea as [Ea1 Ea2].
    apply endsWith_inv in Ea2 as [stem Hn].
    destruct (Hstem stem ".mp3" Hn) as [H1 H2];
      [intros E; rewrite E in Ea1; discriminate|].
    rewrite Hn. change (stem +:+ ".mp3") with (stem +:+ "." +:+ "mp3").
    rewrite extname_in_folder; [reflexivity | exact H1 | exact H2 | discriminate |].
    plain_chars. }
  destruct (String.eqb_spec name "transcript.txt") as [->|_].
  { injection Hc as <-.
    change "transcript.txt" with ("transcript" +:+ "." +:+ "txt").
    rewrite (extname_in_folder dir "transcript" "txt");
      [reflexivity | discriminate | reflexivity | discriminate |].
    plain_chars. }
  destruct (String.eqb_spec name "candidate_profile.json") as [->|_].
  { injection Hc as <-.
    change "candidate_profile.json" with ("candidate_profile" +:+ "." +:+ "json").
    rewrite (extname_in_folder dir "candidate_profile" "json");
      [reflexivity | discriminate | reflexivity | discriminate |].
    plain_chars. }
  destruct (String.eqb_spec name "metadata.json") as [->|_].
  { injection Hc as <-.
    change "metadata.json" with ("metadata" +:+ "." +:+ "json").
    rewrite (extname_in_folder dir "metadata" "json");
      [reflexivity | discriminate | reflexivity | discriminate |].
    plain_chars. }
  destruct (endsWith name ".html") eqn:Eh.
  { injection Hc as <-. apply endsWith_inv in Eh as [stem Hn].
    destruct (Hstem stem ".html" Hn Hh) as [H1 H2].
    rewrite Hn. change (stem +:+ ".html") with (stem +:+ "." +:+ "html").
    rewrite extname_in_folder; [reflexivity | exact H1 | exact H2 | discriminate |].
    plain_chars. }
  destruct (endsWith name ".pdf") eqn:Ep; [|discriminate].
  injection Hc as <-. apply endsWith_inv in Ep as [stem Hn].
  destruct (Hstem stem ".pdf" Hn Hp) as [H1 H2].
  rewrite Hn. change (stem +:+ ".pdf") with (stem +:+ "." +:+ "pdf").
  rewrite extname_in_folder; [reflexivity | exact H1 | exact H2 | discriminate |].
  plain_chars.
Qed.

(** A file that is there, under [candidate-data/], is served. *)
Lemma serveFile_found (st : FsState) (p : string) (content : FileContent) :
  startsWith p "candidate-data/" = true ->
  fileData st !! p = Some content ->
  serveFile st (Some p)
  = mkResponse 200
      (FileBody (contentTypeOf (toLowerCase (extname p))) (lastSegment p) content).
Proof.
  intros Hroot Hfile. unfold serveFile, given.
  destruct (String.eqb_spec p "") as [E|_]; [rewrite E in Hroot; discriminate|].
  rewrite Hroot. cbn [negb]. unfold existsSync. rewrite Hfile.
  rewrite bool_decide_eq_true_2 by eauto. reflexivity.
Qed.

(** X20. A file of a session folder under [candidate-data/] that the
    session listing takes for an artifact is served by [serveFile] with
    status 200, under its own name and with the content type of the kind the
    listing gave it: [audio/mpeg] for the audio, [text/plain] for the
    transcript, [application/json] for profile and metadata, [text/html] and
    [application/pdf] for the reports. Files named just [.html] or [.pdf],
    which the listing takes for reports, are left out: they have no
    extension. *)
Theorem listed_file_is_served_with_the_type_of_its_kind (st : FsState)
  (dir name : string) (kind : ArtifactKind) (content : FileContent) :
  startsWith (path_join dir name) "candidate-data/" = true ->
  hasSlash name = false ->
  classify name = Some kind ->
  name <> ".html" -> name <> ".pdf" ->
  fileData st !! path_join dir name = Some content ->
  serveFile st (Some (path_join dir name))
  = mkResponse 200 (FileBody (typeOfKind kind) name content).
Proof.
  intros Hroot Hs Hc Hh Hp Hfile.
  rewrite (serveFile_found st _ content Hroot Hfile).
  rewrite (classify_extname dir name kind Hs Hc Hh Hp).
  unfold path_join. rewrite lastSegment_app by exact Hs. reflexivity.
Qed.

Lemma listed_file_is_served_with_the_type_of_its_kind_witness :
  serveFile twoSessionsDisk
    (Some "candidate-data/CAND1/20240101-000000-IST/metadata.json")
  = mkResponse 200
      (FileBody "application/json" "metadata.json" (JsonText metadata2024)).
Proof.
  apply (listed_file_is_served_with_the_type_of_its_kind twoSessionsDisk
           "candidate-data/CAND1/20240101-000000-IST" "metadata.json" Metadata
           (JsonText metadata2024));
    [reflexivity | reflexivity | reflexivity | discriminate | discriminate
    | vm_compute; reflexivity].
Defined.

Lemma startsWith_sessionPath (cfg : Config) (candidate session name : string) :
  candidateDataPath cfg = "candidate-data" ->
  startsWith (path_join (sessionPathOf cfg candidate session) name)
    "candidate-data/" = true.
Proof.
  intros Hroot. unfold sessionPathOf, candidateDirOf, path_join. rewrite Hroot.
  rewrite ?app_assoc_str.
  apply (startsWith_app "candidate-data/"
           (candidate +:+ "/" +:+ session +:+ "/" +:+ name)).
Qed.

(** X21. On the filesystem with the default data directory, what
    [saveCandidateData] stored for a candidate whose id is one plain path
    segment (not empty, no slash, neither [.] nor [..], so that [path.join]
    leaves it as it is) can be fetched through [serveFile] at the paths the
    call reported: transcript, profile and metadata come back with status
    200, under their names, with the content that was written and the
    content types [text/plain] and [application/json]; the audio comes back
    as [audio/mpeg] with the bytes of the upload when the upload's
    extension is [.mp3] or absent. *)
Theorem stored_files_are_served_at_reported_paths (zoneOffset : Z -> Z)
  (faults : Faults) (cfg : Config) (now : Z) (w : World) (candidate : string)
  (transcript profile md : jsval) (generatedFiles : option GeneratedFiles)
  (audioFile : option UploadedFile) (res : StorageResult) :
  cfg_storageType cfg = "filesystem" ->
  candidateDataPath cfg = "candidate-data" ->
  plainSegment candidate = true ->
  snd (saveCandidateData zoneOffset faults cfg now w candidate transcript
         profile md generatedFiles audioFile) = Ok res ->
  let after :=
    disk (fst (saveCandidateData zoneOffset faults cfg now w candidate
                 transcript profile md generatedFiles audioFile)) in
  serveFile after (Slots.get Transcript (sr_locators res))
  = mkResponse 200 (FileBody "text/plain" "transcript.txt" (dataOf transcript))
  /\ serveFile after (Slots.get Profile (sr_locators res))
     = mkResponse 200
         (FileBody "application/json" "candidate_profile.json"
            (JSON_stringify profile))
  /\ serveFile after (Slots.get Metadata (sr_locators res))
     = mkResponse 200
         (FileBody "application/json" "metadata.json" (JSON_stringify md))
  /\ (forall file data,
        audioFile = Some file ->
        fileData (disk w) !! path file = Some data ->
        extname (originalname file) = ".mp3"
        \/ extname (originalname file) = "" ->
        serveFile after (Slots.get Audio (sr_locators res))
        = mkResponse 200
            (FileBody "audio/mpeg"
               (audioFilename (sr_sessionId res) (originalname file)) data)).
Proof.
  intros Ht Hroot _ Hok after.
  destruct (saveCandidateData_result zoneOffset faults cfg now w candidate
              transcript profile md generatedFiles audioFile res
              (or_introl Ht) Hok)
    as (Hmk & Hfaults & Hsid & Hlt & Hlp & Hlm & Hla).
  pose proof (fun file =>
                saveCandidateData_upload_read zoneOffset faults cfg now w
                  candidate transcript profile md generatedFiles audioFile res
                  file (or_introl Ht) Hok)
    as Hupload.
  set (session := newSessionId zoneOffset now) in *.
  set (folder := sessionPathOf cfg candidate session) in *.
  assert (Hbase : sessionBase cfg candidate session = folder)
    by (unfold sessionBase; rewrite Ht; reflexivity).
  assert (Hst : startedWrites faults cfg w candidate session transcript profile
                  md generatedFiles audioFile
                = fsStarted (disk w) session transcript profile md audioFile)
    by (unfold startedWrites; rewrite Ht; reflexivity).
  rewrite Hbase in Hmk, Hfaults, Hlt, Hlp, Hlm, Hla. rewrite Hst in Hfaults.
  unfold rejectedBy in Hfaults. rewrite Ht in Hfaults.
  cbn [String.eqb Ascii.eqb Bool.eqb] in Hfaults.
  specialize (Hmk Ht).
  subst after.
  rewrite (saveCandidateData_filesystem _ _ _ _ _ _ _ _ _ _ _ Ht) in Hok |- *.
  cbn [fst snd disk] in Hok |- *. fold session in Hok |- *.
  set (final := fst (saveToFilesystem faults cfg (disk w) candidate session
                       transcript profile md generatedFiles audioFile)) in *.
  set (started := fsStarted (disk w) session transcript profile md audioFile) in *.
  set (wt := mkWrite transcriptFilename (dataOf transcript) "text/plain").
  set (wp := mkWrite profileFilename (JSON_stringify profile) "application/json").
  set (wm := mkWrite metadataFilename (JSON_stringify md) "application/json").
  assert (Hstarted : exists post,
            started = [wt; wp; wm] ++ post
            /\ (forall v, In v post ->
                  exists file data, audioFile = Some file
                    /\ fileData (disk w) !! path file = Some data
                    /\ v = mkWrite (audioFilename session (originalname file))
                             data "")
            /\ (forall file data, audioFile = Some file ->
                  fileData (disk w) !! path file = Some data ->
                  post = [mkWrite (audioFilename session (originalname file))
                            data ""])).
  { subst started. unfold fsStarted. destruct audioFile as [file|].
    - destruct (fileData (disk w) !! path file) as [data|] eqn:E.
      + eexists. split; [reflexivity|]. split.
        * intros v [<-|[]]. exists file, data. auto.
        * intros f d Hf Hd. injection Hf as <-. rewrite E in Hd.
          injection Hd as <-. reflexivity.
      + exists []. split; [reflexivity|]. split; [intros v []|].
        intros f d Hf Hd. injection Hf as <-. congruence.
    - exists []. split; [reflexivity|]. split; [intros v []|]. discriminate. }
  destruct Hstarted as (post & Hstarted & Hpost & Haudio).
  assert (Hnot : forall v, In v post ->
            startsWith (w_name v) "audio_" = true).
  { intros v Hv. destruct (Hpost v Hv) as (file & data & _ & _ & ->).
    cbn [w_name]. unfold audioFilename. apply startsWith_app. }
  assert (Hkept : forall pre v rest,
            started = pre ++ v :: rest ->
            (forall u, In u rest -> w_name u <> w_name v) ->
            fileData final !! path_join folder (w_name v) = Some (w_data v)).
  { intros pre v rest Hsplit Hdiff.
    apply (saveToFilesystem_kept faults cfg (disk w) candidate session transcript
             profile md generatedFiles audioFile pre rest v Hmk Hsplit).
    - apply Hfaults. fold started. rewrite Hsplit. apply in_or_app. right. left.
      reflexivity.
    - intros Hin. apply in_map_iff in Hin as [u [Hu Hin]].
      apply path_join_inj in Hu. apply (Hdiff u Hin). exact Hu. }
  assert (Hserve : forall v kind,
            fileData final !! path_join folder (w_name v) = Some (w_data v) ->
            hasSlash (w_name v) = false ->
            classify (w_name v) = Some kind ->
            w_name v <> ".html" -> w_name v <> ".pdf" ->
            serveFile final (Some (path_join folder (w_name v)))
            = mkResponse 200 (FileBody (typeOfKind kind) (w_name v) (w_data v))).
  { intros v kind Hfile Hs Hc Hh Hp.
    assert (Hr : startsWith (path_join folder (w_name v)) "candidate-data/"
                 = true) by apply startsWith_sessionPath, Hroot.
    rewrite (serveFile_found final _ (w_data v) Hr Hfile).
    rewrite (classify_extname folder (w_name v) kind Hs Hc Hh Hp).
    unfold path_join. rewrite lastSegment_app by exact Hs. reflexivity. }
  cbn [Slots.get]. rewrite Hlt, Hlp, Hlm, Hla.
  split; [|split; [|split]].
  - apply (Hserve wt Transcript);
      [|reflexivity | reflexivity | discriminate | discriminate].
    apply (Hkept [] wt ([wp; wm] ++ post)); [exact Hstarted|].
    intros u [<-|[<-|Hu]]; [discriminate | discriminate |].
    intros E. apply Hnot in Hu. rewrite E in Hu. discriminate.
  - apply (Hserve wp Profile);
      [|reflexivity | reflexivity | discriminate | discriminate].
    apply (Hkept [wt] wp ([wm] ++ post)); [exact Hstarted|].
    intros u [<-|Hu]; [discriminate|].
    intros E. apply Hnot in Hu. rewrite E in Hu. discriminate.
  - apply (Hserve wm Metadata);
      [|reflexivity | reflexivity | discriminate | discriminate].
    apply (Hkept [wt; wp] wm post); [exact Hstarted|].
    intros u Hu E. apply Hnot in Hu. rewrite E in Hu. discriminate.
  - intros file data Hf Hd Hext. rewrite Hf. rewrite Hsid.
    specialize (Haudio file data Hf Hd).
    set (wa := mkWrite (audioFilename session (originalname file)) data "") in *.
    assert (Hname : audioFilename session (originalname file)
                    = "audio_" +:+ session +:+ ".mp3").
    { unfold audioFilename, audioExtension.
      destruct Hext as [-> | ->]; reflexivity. }
    assert (Hca : classify (w_name wa) = Some Audio).
    { apply (classify_artifactFilename Audio session (originalname file) "" "").
      intros _. unfold audioExtension. destruct Hext as [-> | ->]; reflexivity. }
    apply (Hserve wa Audio).
    + apply (Hkept [wt; wp; wm] wa []); [rewrite Hstarted, Haudio; reflexivity|].
      intros u [].
    + apply hasSlash_audioFilename.
    + exact Hca.
    + subst wa. cbn [w_name]. rewrite Hname. discriminate.
    + subst wa. cbn [w_name]. rewrite Hname. discriminate.
Qed.

Lemma stored_files_are_served_at_reported_paths_witness :
  serveFile (disk (fst firstCall))
    (Slots.get Transcript (sr_locators firstResult))
  = mkResponse 200
      (FileBody "text/plain" "transcript.txt" (dataOf (JStr "first transcript")))
  /\ serveFile (disk (fst firstCall)) (Slots.get Audio (sr_locators firstResult))
     = mkResponse 200
         (FileBody "audio/mpeg" "audio_20240101-053000-IST.mp3"
            (Bytes "first take")).
Proof.
  pose proof (stored_files_are_served_at_reported_paths istOffset noFaults
                fsConfig 1704067200100 uploadsWorld "CAND1"
                (JStr "first transcript") (profileOf "Asha Rao" "Pune" 2)
                (JObj [("candidateId", JStr "CAND1")]) None (Some firstUpload)
                firstResult eq_refl eq_refl eq_refl) as H.
  destruct H as (Ht & _ & _ & Ha); [vm_compute; reflexivity|].
  split; [exact Ht|].
  apply (Ha firstUpload (Bytes "first take") eq_refl);
    [vm_compute; reflexivity | left; vm_compute; reflexivity].
Defined.

(** ** The report that stays behind *)

Lemma lastOfKind_snoc (kind : ArtifactKind) (names : list string) (x : string) :
  lastOfKind kind (names ++ [x])
  = if decide (classify x = Some kind) then Some x else lastOfKind kind names.
Proof.
  unfold lastOfKind. rewrite filter_app, filter_cons, filter_nil.
  destruct (decide (classify x = Some kind)).
  - apply last_snoc.
  - rewrite app_nil_r. reflexivity.
Qed.

Lemma lastOfKind_classified (kind : ArtifactKind) (names : list string)
  (f : string) :
  lastOfKind kind names = Some f -> classify f = Some kind.
Proof.
  unfold lastOfKind. intros H. apply last_Some in H as [l' E].
  assert (Hf : f ∈ filter (fun file => classify file = Some kind) names)
    by (rewrite E; apply elem_of_app; right; left).
  apply list_elem_of_filter in Hf as [Hf _]. exact Hf.
Qed.

Lemma hasEntry_fresh (name : string) (entries : list Dirent.t) :
  ~ In name (map Dirent.name entries) -> hasEntry name entries = false.
Proof.
  intros Hn. unfold hasEntry. destruct (existsb _ entries) eqn:E; [|reflexivity].
  apply existsb_exists in E as [d [Hd Hname]]. apply String.eqb_eq in Hname.
  exfalso. apply Hn. rewrite <- Hname. apply in_map, Hd.
Qed.

Section LeftoverReport.
Variable zoneOffset : Z -> Z.
Variable faults : Faults.
Variable cfg : Config.
Variable generateHTML : jsval -> jsval -> Z -> result string.
Variable renderPdf : string -> result FileContent.
Variable closeBrowser : result unit.
Variables (candidate session : string) (profile md : jsval).
Variables (now : Z) (st : FsState).
Variables (entries : list Dirent.t) (html stem : string) (e : error).

Let dir := sessionPathOf cfg candidate session.
Let htmlName := htmlFilename stem (generateTimestamp zoneOffset now).
Let out :=
  generateCandidatePDF zoneOffset faults generateHTML renderPdf closeBrowser
    profile md (Some dir) now st.

Hypothesis listed : dirs st !! dir = Some entries.
Hypothesis no_page :
  forall n, In n (map Dirent.name entries) -> classify n <> Some Html.
Hypothesis page : generateHTML profile md now = Ok html.
Hypothesis named : candidateName profile = Ok stem.
Hypothesis written : faults (path_join dir htmlName) = None.
Hypothesis no_browser : renderPdf html = Throw e.

Lemma classify_htmlName : classify htmlName = Some Html.
Proof.
  unfold htmlName, htmlFilename. rewrite <- !app_assoc_str. apply classify_html.
Qed.

Lemma htmlName_fresh : ~ In htmlName (map Dirent.name entries).
Proof. intros Hin. apply (no_page _ Hin), classify_htmlName. Qed.

Lemma generateCandidatePDF_no_browser :
  out = ({| dirs := <[dir := entries ++ [Dirent.mk htmlName false]]> (dirs st);
            fileData := <[path_join dir htmlName := PlainText html]>
                          (fileData st) |},
         Throw (pdfFailure e)).
Proof.
  unfold out, generateCandidatePDF. rewrite page. cbn [bind]. rewrite named.
  cbn [bind]. fold htmlName. unfold fsWrite, fsRejects.
  cbn [w_name w_data writeFileRefuses].
  rewrite written, listed. rewrite no_browser.
  unfold addEntry. cbn [Dirent.name]. rewrite (hasEntry_fresh _ _ htmlName_fresh).
  reflexivity.
Qed.

(** The slots of the folder with the page in it: the page is the only
    file the listing takes for an HTML report, wherever the directory lists
    it, and the other slots are as before. *)
Lemma leftover_slot (kind : ArtifactKind) :
  Slots.get kind
    (fst (classifyFiles candidate session dir
            (map Dirent.name (entries ++ [Dirent.mk htmlName false]))))
  = if decide (kind = Html) then Some (path_join dir htmlName)
    else Slots.get kind
           (fst (classifyFiles candidate session dir (map Dirent.name entries))).
Proof.
  rewrite map_app. cbn [map Dirent.name].
  rewrite !(proj1 (classifyFiles_get _ _ _ _ _)), lastOfKind_snoc,
    classify_htmlName.
  destruct (decide (Some Html = Some kind)) as [E|E], (decide (kind = Html));
    try reflexivity; congruence.
Qed.

(** The documents of the session are read as before. *)
Lemma leftover_read (kind : ArtifactKind) (p : string) :
  kind <> Html ->
  Slots.get kind
    (fst (classifyFiles candidate session dir (map Dirent.name entries)))
  = Some p ->
  readFile (fsOf (fst out)) p = readFile (fsOf st) p.
Proof.
  intros Hk Hp. rewrite generateCandidatePDF_no_browser.
  cbn [fst readFile fsOf fileData].
  rewrite (proj1 (classifyFiles_get _ _ _ _ _)) in Hp.
  destruct (lastOfKind kind _) as [f|] eqn:E; [|discriminate].
  injection Hp as <-. apply lastOfKind_classified in E.
  rewrite lookup_insert_ne; [reflexivity|].
  intros Heq. apply path_join_inj in Heq. subst f.
  rewrite classify_htmlName in E. congruence.
Qed.
End LeftoverReport.

Lemma loadMetadata_ext (read read' : string -> result FileContent)
  (loc : option string) :
  (forall p, loc = Some p -> read' p = read p) ->
  loadMetadata read' loc = loadMetadata read loc.
Proof.
  intros H. destruct loc as [p|]; [|reflexivity].
  unfold loadMetadata. rewrite (H p eq_refl). reflexivity.
Qed.

Lemma loadProfile_ext (read read' : string -> result FileContent)
  (loc : option string) :
  (forall p, loc = Some p -> read' p = read p) ->
  loadProfile read' loc = loadProfile read loc.
Proof.
  intros H. destruct loc as [p|]; [|reflexivity].
  unfold loadProfile. rewrite (H p eq_refl). reflexivity.
Qed.

(** X22. When [generateCandidatePDF] is given the folder of a session as
    its output directory, writes the page of the report into it, and the
    browser then fails, the call rejects with [PDF generation failed: ...]
    and the page stays in the folder. If the folder held no file that the
    listing takes for an HTML report, then a session that could be listed
    before is listed afterwards with that page as its HTML report,
    wherever the directory lists it, and with everything else as before. *)
Theorem html_report_stays_when_the_browser_fails (zoneOffset : Z -> Z)
  (faults : Faults) (cfg : Config)
  (generateHTML : jsval -> jsval -> Z -> result string)
  (renderPdf : string -> result FileContent) (closeBrowser : result unit)
  (candidate session : string) (profile md : jsval)
  (now : Z) (st : FsState) (entries : list Dirent.t) (html stem : string)
  (e : error) (r0 : SessionRecord) :
  let dir := sessionPathOf cfg candidate session in
  let htmlName := htmlFilename stem (generateTimestamp zoneOffset now) in
  let out :=
    generateCandidatePDF zoneOffset faults generateHTML renderPdf closeBrowser
      profile md (Some dir) now st in
  dirs st !! dir = Some entries ->
  (forall n, In n (map Dirent.name entries) -> classify n <> Some Html) ->
  generateHTML profile md now = Ok html ->
  candidateName profile = Ok stem ->
  faults (path_join dir htmlName) = None ->
  renderPdf html = Throw e ->
  materializeFsSession (fsOf st) cfg candidate session = Ok r0 ->
  snd out = Throw (pdfFailure e)
  /\ fileData (fst out) !! path_join dir htmlName = Some (PlainText html)
  /\ exists r,
       materializeFsSession (fsOf (fst out)) cfg candidate session = Ok r
       /\ Slots.get Html (files r) = Some (path_join dir htmlName)
       /\ metadata r = metadata r0
       /\ candidateProfile r = candidateProfile r0
       /\ (forall kind, kind <> Html ->
             Slots.get kind (files r) = Slots.get kind (files r0)).
Proof.
  intros dir htmlName out Hlisted Hnone Hpage Hnamed Hwritten Hnb H0.
  pose proof (generateCandidatePDF_no_browser zoneOffset faults cfg generateHTML
                renderPdf closeBrowser candidate session profile md now st
                entries html stem e Hlisted Hnone Hpage Hnamed Hwritten Hnb)
    as Hout.
  fold dir htmlName out in Hout.
  pose proof (fun kind p =>
                leftover_read zoneOffset faults cfg generateHTML renderPdf
                  closeBrowser candidate session profile md now st entries
                  html stem e Hlisted Hnone Hpage Hnamed Hwritten Hnb kind p)
    as Hread.
  fold dir out in Hread.
  pose proof (leftover_slot zoneOffset cfg candidate session now entries stem)
    as Hslot.
  fold dir htmlName in Hslot.
  split; [rewrite Hout; reflexivity|].
  split; [rewrite Hout; cbn [fst fileData]; apply lookup_insert_eq|].
  apply materializeFsSession_inv in H0
    as (entries0 & md0 & prof0 & pa & ofn & Hdir & Hmd & Hprof & Hpa & Hofn & ->).
  fold dir in Hdir, Hmd, Hprof |- *.
  cbn [readdir fsOf] in Hdir. rewrite Hlisted in Hdir. injection Hdir as <-.
  assert (Hdir' : readdir (fsOf (fst out)) dir
                  = Ok (entries ++ [Dirent.mk htmlName false])).
  { rewrite Hout. cbn [fst readdir fsOf dirs]. rewrite lookup_insert_eq.
    reflexivity. }
  set (slots := classifyFiles candidate session dir (map Dirent.name entries)) in *.
  set (slots' := classifyFiles candidate session dir
                   (map Dirent.name (entries ++ [Dirent.mk htmlName false]))) in *.
  assert (Hm : Slots.metadata (fst slots') = Slots.metadata (fst slots))
    by (apply (Hslot Metadata)).
  assert (Hp : Slots.profile (fst slots') = Slots.profile (fst slots))
    by (apply (Hslot Profile)).
  unfold materializeFsSession, readdirNames.
  fold (candidateDirOf cfg candidate). fold (sessionPathOf cfg candidate session).
  fold dir. cbv zeta. rewrite Hdir'. cbn [bind]. fold slots'.
  rewrite Hm, Hp.
  rewrite (loadMetadata_ext (readFile (fsOf st)))
    by (intros p Ep; apply (Hread Metadata); [discriminate | exact Ep]).
  rewrite (loadProfile_ext (readFile (fsOf st)))
    by (intros p Ep; apply (Hread Profile); [discriminate | exact Ep]).
  rewrite Hmd, Hprof. cbn [bind]. rewrite Hpa, Hofn. cbn [bind].
  eexists. split; [reflexivity|]. cbn [files metadata candidateProfile].
  split; [rewrite (Hslot Html); reflexivity|].
  split; [reflexivity|]. split; [reflexivity|].
  intros kind Hk. rewrite (Hslot kind). destruct (decide (kind = Html)); congruence.
Qed.

Lemma html_report_stays_when_the_browser_fails_witness :
  snd reportsWithoutBrowser
  = Throw (pdfFailure (Error "Failed to launch the browser process"))
  /\ exists r,
       materializeFsSession (fsOf (fst reportsWithoutBrowser)) fsConfig "CAND1"
         "20240101-053000-IST" = Ok r
       /\ Slots.get Html (files r)
          = Some "candidate-data/CAND1/20240101-053000-IST/Asha_Rao_profile_20240101-053000.html".
Proof.
  destruct (materializeFsSession (fsOf (disk (fst firstCall))) fsConfig "CAND1"
              "20240101-053000-IST") as [r0|e0] eqn:E0;
    [|vm_compute in E0; discriminate].
  destruct (html_report_stays_when_the_browser_fails istOffset noFaults fsConfig
              sampleHTML noBrowser (Ok tt) "CAND1" "20240101-053000-IST"
              (profileOf "Asha Rao" "Pune" 2)
              (JObj [("candidateId", JStr "CAND1")]) 1704067200200
              (disk (fst firstCall))
              [Dirent.mk "transcript.txt" false;
               Dirent.mk "candidate_profile.json" false;
               Dirent.mk "metadata.json" false;
               Dirent.mk "audio_20240101-053000-IST.mp3" false]
              "<html></html>" "Asha_Rao"
              (Error "Failed to launch the browser process") r0)
    as (Hsr & _ & r & Hr & Hhtml & _).
  - vm_compute. reflexivity.
  - intros n Hn. vm_compute in Hn.
    destruct Hn as [<-|[<-|[<-|[<-|[]]]]]; vm_compute; discriminate.
  - reflexivity.
  - vm_compute. reflexivity.
  - reflexivity.
  - reflexivity.
  - exact E0.
  - split; [exact Hsr|]. exists r. split; [exact Hr | exact Hhtml].
Defined.






(** ** From the save to the roster *)

Lemma Forall2_In_l {A B} (P : A -> B -> Prop) (xs : list A) (rs : list B) (x : A) :
  Forall2 P xs rs -> In x xs -> exists r, In r rs /\ P x r.
Proof.
  intros HF. induction HF as [|x' r xs rs Hxr _ IH]; intros Hin; [destruct Hin|].
  destruct Hin as [->|Hin]; [exists r; split; [left; reflexivity | exact Hxr]|].
  destruct (IH Hin) as [y [Hy Hp]]. exists y. split; [right; exact Hy | exact Hp].
Qed.

(** The writes into one folder leave the listings of the others alone. *)
Lemma settleAll_dirs_frame (faults : Faults) (folder other : string)
  (ws : list Write) (st : FsState) :
  other <> folder ->
  dirs (fst (settleAll (fsWrite faults folder) ws st)) !! other
  = dirs st !! other.
Proof.
  intros Hne. revert st. induction ws as [|v ws IH]; intros st; [reflexivity|].
  cbn [settleAll]. destruct (fsWrite faults folder v st) as [s1 r] eqn:E.
  specialize (IH s1). destruct (settleAll (fsWrite faults folder) ws s1) as [s2 rs].
  cbn [fst] in *. rewrite IH. unfold fsWrite in E.
  destruct (fsRejects _ _ _); [inversion E; reflexivity|].
  destruct (dirs st !! folder); inversion E; [|reflexivity].
  cbn [dirs]. apply lookup_insert_ne. congruence.
Qed.

(** After [mkdir], the root lists the candidate. *)
Lemma mkdirSession_root (root candidate session : string) (st : FsState) :
  dirs (mkdirSession root candidate session st) !! root
  = Some (addEntry (Dirent.mk candidate true) (default [] (dirs st !! root))).
Proof.
  unfold mkdirSession, ensureDir, linkChild. cbn [dirs].
  rewrite lookup_insert_ne.
  2:{ intros Heq. apply (f_equal String.length) in Heq. unfold path_join in Heq.
      rewrite !length_app_str in Heq. cbn in Heq. lia. }
  rewrite lookup_insert_ne by apply path_join_longer.
  apply lookup_insert_eq.
Qed.

Lemma addEntry_directory (name : string) (entries : list Dirent.t) :
  (forall d, In d entries -> Dirent.name d = name -> Dirent.isDirectory d = true) ->
  exists d, In d (filter (fun d => Dirent.isDirectory d = true)
                    (addEntry (Dirent.mk name true) entries))
            /\ Dirent.name d = name.
Proof.
  intros Hdir. unfold addEntry, hasEntry. cbn [Dirent.name].
  destruct (existsb _ entries) eqn:E.
  - apply existsb_exists in E as [d [Hd Hn]]. apply String.eqb_eq in Hn.
    exists d. split; [|exact Hn].
    apply list_elem_of_In, list_elem_of_filter. split; [apply Hdir; assumption|].
    apply list_elem_of_In, Hd.
  - exists (Dirent.mk name true). split; [|reflexivity].
    apply list_elem_of_In, list_elem_of_filter. split; [reflexivity|].
    apply elem_of_app. right. left.
Qed.

(** A collecting loop that threw, threw what one of its elements threw. *)
Lemma forOf_collect_thrown {A B} (f : A -> result B) (xs : list A)
  (acc : list B) (e : error) :
  forOf (fun acc x => r <- f x ;; Ok (acc ++ [r])) xs acc = Throw e ->
  exists x, In x xs /\ f x = Throw e.
Proof.
  revert acc. induction xs as [|x xs IH]; intros acc H; cbn [forOf] in H;
    [discriminate|].
  destruct (f x) as [r|e'] eqn:Hr; cbn [bind] in H.
  - destruct (IH _ H) as [y [Hy Hf]]. exists y. split; [right; exact Hy | exact Hf].
  - inversion H. subst e'. exists x. split; [left; reflexivity | exact Hr].
Qed.

(** What a filesystem listing throws is no missing directory: that one is
    caught. *)
Lemma enoentAsEmpty_thrown {A} (e e' : error) :
  @enoentAsEmpty A e = Throw e' -> error_code e' <> Some "ENOENT".
Proof.
  unfold enoentAsEmpty. destruct (decide _) as [|Hne]; [discriminate|].
  intros H. inversion H. subst e'. exact Hne.
Qed.

Lemma listFilesystemSessions_thrown (newDate : jsval -> option Z) (fs : FsEnv)
  (cfg : Config) (candidate : string) (e : error) :
  listFilesystemSessions newDate fs cfg candidate = Throw e ->
  error_code e <> Some "ENOENT".
Proof.
  unfold listFilesystemSessions.
  destruct (_ <- readdir fs _ ;; _) as [l|e0]; cbn [try_catch]; [discriminate|].
  apply enoentAsEmpty_thrown.
Qed.

Lemma fsRosterRow_thrown (newDate : jsval -> option Z) (fs : FsEnv)
  (cfg : Config) (candidate : string) (e : error) :
  fsRosterRow newDate fs cfg candidate = Throw e ->
  error_code e <> Some "ENOENT".
Proof.
  unfold fsRosterRow.
  destruct (listFilesystemSessions _ _ _ _) as [l|e'] eqn:El; cbn [bind].
  - destruct (candidateInfoOf_total candidate l) as [r [-> _]]. discriminate.
  - intros H. inversion H. subst e'.
    apply (listFilesystemSessions_thrown _ _ _ _ _ El).
Qed.

(** X24. On the filesystem, a candidate for whom [saveCandidateData] stored
    a session is on the roster: whenever [_listFilesystemCandidates] returns
    after the call, its list has a row with the candidate's id. This is
    said of a data directory and a candidate id that [path.join] leaves as
    they are: the id is one plain path segment (an id with a slash makes a
    folder below another candidate's). (A roster that throws, because the
    metadata of some session holds [null], has no rows at all; a name in
    the data directory that is no directory is not listed.) *)
Theorem stored_candidate_is_on_the_roster (newDate : jsval -> option Z)
  (zoneOffset : Z -> Z) (faults : Faults) (cfg : Config) (now : Z) (w : World)
  (candidate : string) (transcript profile md : jsval)
  (generatedFiles : option GeneratedFiles) (audioFile : option UploadedFile)
  (res : StorageResult) (rows : list CandidateInfo.t) :
  cfg_storageType cfg = "filesystem" ->
  plainPath (candidateDataPath cfg) = true ->
  plainSegment candidate = true ->
  snd (saveCandidateData zoneOffset faults cfg now w candidate transcript
         profile md generatedFiles audioFile) = Ok res ->
  (forall d, In d (default [] (dirs (disk w) !! candidateDataPath cfg)) ->
             Dirent.name d = candidate -> Dirent.isDirectory d = true) ->
  listFilesystemCandidates newDate
    (fsOf (disk (fst (saveCandidateData zoneOffset faults cfg now w candidate
                        transcript profile md generatedFiles audioFile)))) cfg
  = Ok rows ->
  exists row, In row rows /\ CandidateInfo.candidateId row = candidate.
Proof.
  intros Ht _ _ Hok Hdir Hlist.
  rewrite (saveCandidateData_filesystem _ _ _ _ _ _ _ _ _ _ _ Ht) in Hok, Hlist.
  cbn [fst snd disk] in Hok, Hlist.
  set (session := newSessionId zoneOffset now) in *.
  destruct (saveToFilesystem_result faults cfg (disk w) candidate session
              transcript profile md generatedFiles audioFile res Hok)
    as (Hmk & _).
  rewrite (saveToFilesystem_state faults cfg (disk w) candidate session
             transcript profile md generatedFiles audioFile Hmk) in Hlist.
  set (final := fst (settleAll _ _ _)) in *.
  assert (Hroot : readdir (fsOf final) (candidateDataPath cfg)
                  = Ok (addEntry (Dirent.mk candidate true)
                          (default [] (dirs (disk w) !! candidateDataPath cfg)))).
  { cbn [readdir fsOf]. unfold final. rewrite settleAll_dirs_frame.
    - rewrite mkdirSession_root. reflexivity.
    - unfold sessionPathOf, candidateDirOf. intros Heq.
      apply (f_equal String.length) in Heq. unfold path_join in Heq.
      rewrite !length_app_str in Heq. cbn in Heq. lia. }
  rewrite listFilesystemCandidates_unfold, Hroot in Hlist.
  cbn [bind] in Hlist.
  destruct (forOf _ _ _) as [out|e] eqn:Hloop; cbn [bind try_catch] in Hlist.
  - inversion Hlist. subst rows.
    apply forOf_collect_inv in Hloop as [rs [-> HF]]. cbn [app].
    destruct (addEntry_directory candidate _ Hdir) as [d [Hd Hname]].
    destruct (Forall2_In_l _ _ _ d HF Hd) as [row [Hrow Hd']]. cbv beta in Hd'.
    exists row. split.
    + apply (Permutation_in _ (Permutation_sym (Array_sort_Permutation _ rs))).
      exact Hrow.
    + rewrite (fsRosterRow_candidateId _ _ _ _ _ Hd'). exact Hname.
  - exfalso. unfold enoentAsEmpty in Hlist.
    destruct (decide _) as [Henoent|]; [|discriminate].
    apply forOf_collect_thrown in Hloop as [d [_ Hd]].
    apply (fsRosterRow_thrown _ _ _ _ _ Hd Henoent).
Qed.

Lemma stored_candidate_is_on_the_roster_witness :
  exists rows row,
    listFilesystemCandidates isoDate (fsOf (disk (fst firstCall))) fsConfig
    = Ok rows
    /\ In row rows /\ CandidateInfo.candidateId row = "CAND1".
Proof.
  destruct (listFilesystemCandidates isoDate (fsOf (disk (fst firstCall)))
              fsConfig) as [rows|e] eqn:E; [|vm_compute in E; discriminate].
  destruct (stored_candidate_is_on_the_roster isoDate istOffset noFaults fsConfig
              1704067200100 uploadsWorld "CAND1" (JStr "first transcript")
              (profileOf "Asha Rao" "Pune" 2)
              (JObj [("candidateId", JStr "CAND1")]) None (Some firstUpload)
              firstResult rows) as [row [Hin Hid]].
  - reflexivity.
  - reflexivity.
  - reflexivity.
  - vm_compute. reflexivity.
  - intros d Hd. vm_compute in Hd. destruct Hd.
  - exact E.
  - exists rows, row. auto.
Defined.

(** ** The one-call pipeline *)

(** X25. The flag [dialogue_formatted] of [processAudioFile] does not tell
    whether the formatting worked. With formatting asked for (the default),
    a completion that fails still gives [dialogue_formatted: true], and the
    [transcript] of the result is the raw transcript behind the note of
    [formatTranscriptToDialogue]; the flag is [false], and [transcript] the
    raw transcript, when formatting is switched off, or when the formatted
    text is empty. *)
Theorem dialogue_formatted_does_not_tell_success
  (transcribe : string -> result string)
  (formatCompletion : string -> result jsval)
  (extractProfile : string -> result jsval)
  (formatDialogue : jsval) (filePath : string) (now : Z)
  (raw : string) (profile : jsval) :
  transcribe filePath = Ok raw ->
  extractProfile raw = Ok profile ->
  exists out md,
    processAudioFile transcribe formatCompletion extractProfile formatDialogue
      filePath now = Ok out
    /\ getProp out "metadata" = Ok md
    /\ getProp out "profile" = Ok profile
    /\ (truthy (orDefault formatDialogue (JBool true)) = true ->
        forall e, formatCompletion raw = Throw e ->
          getProp out "transcript" = Ok (JStr (rawWithNote raw))
          /\ getProp md "dialogue_formatted" = Ok (JBool true))
    /\ (truthy (orDefault formatDialogue (JBool true)) = true ->
        formatTranscriptToDialogue formatCompletion raw = Ok "" ->
        getProp out "transcript" = Ok (JStr raw)
        /\ getProp md "dialogue_formatted" = Ok (JBool false)
        /\ getProp md "formatted_dialogue_length" = Ok JNull)
    /\ (truthy (orDefault formatDialogue (JBool true)) = false ->
        getProp out "transcript" = Ok (JStr raw)
        /\ getProp out "formattedDialogue" = Ok JNull
        /\ getProp md "dialogue_formatted" = Ok (JBool false)
        /\ getProp md "formatted_dialogue_length" = Ok JNull).
Proof.
  intros Ht He. unfold processAudioFile. rewrite Ht. cbn [bind].
  destruct (truthy (orDefault formatDialogue (JBool true))) eqn:Ef.
  - destruct (formatTranscriptToDialogue_total formatCompletion raw) as [text Hf].
    rewrite Hf. cbn [bind]. rewrite He. cbn [bind].
    eexists. eexists. split; [reflexivity|]. split; [reflexivity|].
    split; [reflexivity|]. split; [|split; [|discriminate]].
    + intros _ e Hc.
      assert (Hnote : text = rawWithNote raw).
      { unfold formatTranscriptToDialogue in Hf. rewrite Hc in Hf.
        cbn [bind try_catch] in Hf. congruence. }
      subst text. split; reflexivity.
    + intros _ Hempty. injection Hempty as ->.
      split; [reflexivity|]. split; reflexivity.
  - rewrite He. cbn [bind].
    eexists. eexists. split; [reflexivity|]. split; [reflexivity|].
    split; [reflexivity|]. split; [discriminate|]. split; [discriminate|].
    intros _. split; [reflexivity|]. split; [reflexivity|]. split; reflexivity.
Qed.

Lemma dialogue_formatted_does_not_tell_success_witness :
  exists out md,
    processAudioFile sampleTranscribe noCompletion sampleExtract JUndefined
      "uploads/1704067200100-1.mp3" 1704067200050 = Ok out
    /\ getProp out "metadata" = Ok md
    /\ getProp out "transcript" = Ok (JStr (rawWithNote "hello"))
    /\ getProp md "dialogue_formatted" = Ok (JBool true).
Proof.
  destruct (dialogue_formatted_does_not_tell_success sampleTranscribe
              noCompletion sampleExtract JUndefined
              "uploads/1704067200100-1.mp3" 1704067200050 "hello"
              (profileOf "Asha Rao" "Pune" 2) eq_refl eq_refl)
    as (out & md & Hout & Hmd & _ & Hfail & _).
  destruct (Hfail eq_refl (Error "429 Too Many Requests") eq_refl) as [H1 H2].
  exists out, md. auto.
Defined.

(** ** A request that gets no answer *)



(** When the folder of the session cannot be made, the storing step
    rejects before a write is started, and the request is answered with a
    500 that carries the error. *)
Example folder_failure_is_answered :
  snd (requestOn folderFault fsConfig)
  = Ok (mkResponse 500 (FailureBody "Processing failed" (SysError "EACCES"))).
Proof. vm_compute. reflexivity. Qed.
